(** * DUDE & DIRT lawn-care application: booking wizard and weather gateway

    A shallow embedding of the request handlers of [app.py] that carry the
    booking draft ([booking_step2], [booking_step3], [booking_step4]) and of
    the weather lookup ([get_weather] with [load_weather_cache],
    [save_weather_cache], [is_cache_valid], [get_mock_weather_data]).

    Conventions of the embedding:
    - JSON data (request bodies, the session draft, provider payloads, the
      cache document) is the type [value]; a Python [dict] with string keys
      is an association list in insertion order.
    - a Python [float] is an IEEE binary64 number ([spec_float] at precision
      53), an [int] is a [Z].
    - a Python [str] is a [string] of ASCII characters.
    - a handler is a state-and-exception computation [M S A]: it receives
      the state, returns a value or raises, and hands back the state as the
      statements executed so far left it.
    - the Flask session is a finite map from key to [value]. A handler
      works on the session object of its request; what the next request of
      the same client receives is the cookie, which is rewritten only when
      the handler assigned to a key of the session or popped one (see "The
      session between requests").
    - every request comes from a logged-in user: the [login_required]
      wrapper of the handlers has let it through. *)

From Stdlib Require Import ZArith List String Ascii Bool Lia.
From Stdlib Require Import Floats.SpecFloat.
From stdpp Require Import base option list strings gmap pretty.

Set Warnings "-register-all".

Open Scope Z_scope.

(** ** Python values *)

(** Python [float]: IEEE 754 binary64. *)
Definition prec : Z := 53.
Definition emax : Z := 1024.
Abbreviation float := spec_float.

Definition float_add : float -> float -> float := SFadd prec emax.
Definition float_div : float -> float -> float := SFdiv prec emax.
Definition float_eqb : float -> float -> bool := SFeqb.

(** The float nearest to an integer (round to nearest, ties to even). *)
Definition float_of_Z (z : Z) : float := binary_normalize prec emax z 0 false.

(** The float a decimal literal with two fractional digits denotes, such as
    [45.99]: the float nearest to [cents / 100]. *)
Definition dec2 (cents : Z) : float := float_div (float_of_Z cents) (float_of_Z 100).

Inductive value : Type :=
  | VNone
  | VBool (b : bool)
  | VInt (z : Z)
  | VFloat (f : float)
  | VStr (s : string)
  | VList (l : list value)
  | VDict (d : list (string * value)).

Abbreviation dict := (list (string * value)).

(** ** Exceptions *)

Inductive exn : Type :=
  | KeyError
  | TypeError
  | AttributeError
  | ValueError
  | OverflowError
  | BadRequest          (* werkzeug: the body of the request is not JSON *)
  | DatabaseError       (* raised by the persistence layer *)
  | RequestException    (* requests.exceptions.RequestException and subclasses *)
  | JSONDecodeError     (* json.JSONDecodeError, a ValueError *)
  | OSError.            (* a failing file operation *)

Inductive outcome (A : Type) : Type :=
  | Ret (a : A)
  | Raise (e : exn).
Arguments Ret {A} a.
Arguments Raise {A} e.

(** ** Dictionaries in insertion order *)

Fixpoint dict_get (d : dict) (k : string) : option value :=
  match d with
  | [] => None
  | (k', v) :: d' => if String.eqb k' k then Some v else dict_get d' k
  end.

(** [d[k] = v]: an existing key keeps its place, a new key goes last. *)
Fixpoint dict_set (d : dict) (k : string) (v : value) : dict :=
  match d with
  | [] => [(k, v)]
  | (k', v') :: d' =>
      if String.eqb k' k then (k', v) :: d' else (k', v') :: dict_set d' k v
  end.

(** [d.update(u)] *)
Definition dict_update (d u : dict) : dict :=
  fold_left (fun acc kv => dict_set acc (fst kv) (snd kv)) u d.

Definition dict_mem (d : dict) (k : string) : bool :=
  match dict_get d k with Some _ => true | None => false end.

(** [sub in s] on strings. *)
Definition is_substring (sub s : string) : bool :=
  match String.index 0 sub s with Some _ => true | None => false end.

Definition is_str (k : string) (v : value) : bool :=
  match v with VStr s => String.eqb s k | _ => false end.

(** [k in v] for a string [k]: key membership on a dict, element membership
    on a list, substring test on a string; other operands are not iterable. *)
Definition py_contains (k : string) (v : value) : outcome bool :=
  match v with
  | VDict d => Ret (dict_mem d k)
  | VList l => Ret (existsb (is_str k) l)
  | VStr s => Ret (is_substring k s)
  | _ => Raise TypeError
  end.

(** [v[k]] for a string [k]. *)
Definition py_getitem (v : value) (k : string) : outcome value :=
  match v with
  | VDict d => match dict_get d k with Some x => Ret x | None => Raise KeyError end
  | _ => Raise TypeError
  end.

(** [v.get(k, default)] *)
Definition py_get (v : value) (k : string) (default : value) : outcome value :=
  match v with
  | VDict d => match dict_get d k with Some x => Ret x | None => Ret default end
  | _ => Raise AttributeError
  end.

(** [v[k] = x]: the updated object. *)
Definition py_setitem (v : value) (k : string) (x : value) : outcome value :=
  match v with
  | VDict d => Ret (VDict (dict_set d k x))
  | _ => Raise TypeError
  end.

(** [x + v] for a float [x]: an [int] or [bool] operand is converted to
    float first, and the conversion of an [int] beyond the float range
    raises. *)
Definition float_of_int (z : Z) : outcome float :=
  match float_of_Z z with
  | S754_infinity _ => Raise OverflowError
  | f => Ret f
  end.

Definition py_float_add (x : float) (v : value) : outcome float :=
  match v with
  | VFloat y => Ret (float_add x y)
  | VInt z =>
      match float_of_int z with
      | Ret y => Ret (float_add x y)
      | Raise e => Raise e
      end
  | VBool b => Ret (float_add x (float_of_Z (if b then 1 else 0)))
  | _ => Raise TypeError
  end.

(** ** State-and-exception computations *)

Definition M (S A : Type) : Type := S -> outcome A * S.

Definition ret {S A} (a : A) : M S A := fun s => (Ret a, s).
Definition raise {S A} (e : exn) : M S A := fun s => (Raise e, s).
Definition bind {S A B} (m : M S A) (k : A -> M S B) : M S B :=
  fun s => match m s with
           | (Ret a, s') => k a s'
           | (Raise e, s') => (Raise e, s')
           end.
Definition lift {S A} (o : outcome A) : M S A := fun s => (o, s).
Definition get_state {S} : M S S := fun s => (Ret s, s).
Definition modify {S} (f : S -> S) : M S unit := fun s => (Ret tt, f s).

(** [try: body except Exception: handler] *)
Definition try_except {S A} (body : M S A) (handler : exn -> M S A) : M S A :=
  fun s => match body s with
           | (Ret a, s') => (Ret a, s')
           | (Raise e, s') => handler e s'
           end.

(** [try: body except cls: handler], [cls] given by the exceptions it holds. *)
Definition try_except_on {S A} (cls : exn -> bool)
    (body : M S A) (handler : exn -> M S A) : M S A :=
  fun s => match body s with
           | (Ret a, s') => (Ret a, s')
           | (Raise e, s') => if cls e then handler e s' else (Raise e, s')
           end.

Declare Scope monad_scope.
Delimit Scope monad_scope with monad.
Notation "'do' x <- m ; k" := (bind m (fun x => k))
  (at level 10, x name, m at level 100, k at level 200,
   format "'[v' 'do'  x  <-  m ; '/' k ']'") : monad_scope.
Notation "m ;; k" := (bind m (fun _ => k))
  (at level 100, k at level 200, right associativity) : monad_scope.
Open Scope monad_scope.

(** ** HTTP requests and responses *)

Inductive http_method : Type := GET | POST.

(** A request as a handler sees it: its method and what
    [request.get_json()] does, which is to return the decoded body or to
    raise. *)
Record request : Type := {
  method : http_method;
  get_json : outcome value
}.

Definition is_post (req : request) : bool :=
  match method req with POST => true | GET => false end.

Inductive response : Type :=
  | jsonify (body : dict) (status : Z)
  | redirect (endpoint : string)                      (* redirect(url_for(endpoint)) *)
  | render_template (template : string) (context : dict).

(** A point on the microsecond time line (microseconds since
    0001-01-01T00:00:00); naive unless it carries a UTC offset. *)
Record datetime : Type := {
  ticks : Z;
  tzinfo : option Z
}.

(** * The booking wizard *)

Module Service.
Record t : Type := {
  id : Z;
  name : string;
  description : string;
  price : float;
  duration_hours : Z;
  active : bool
}.
End Service.

Module Booking.
(** The columns the handler sets; [id], [created_at] and [step_completed]
    are filled in by the storage layer. *)
Record t : Type := {
  user_id : Z;
  service_id : Z;
  scheduled_date : datetime;
  status : string;
  special_instructions : value;
  total_price : float
}.
End Booking.

(** The unit of work of the persistence layer: the committed [bookings]
    table and the objects added but not yet committed. *)
Record database : Type := {
  bookings : list Booking.t;
  pending : list Booking.t
}.

Record app_state : Type := {
  session : gmap string value;
  db : database
}.

(** What a request handler obtains from its collaborators. *)
Record environment : Type := {
  (** [Service.query.get(key)] *)
  Service_query_get : value -> outcome (option Service.t);
  (** whether [db.session.commit()] goes through in this request *)
  commit_result : outcome unit;
  (** [current_user.id] *)
  current_user_id : Z;
  (** [str(v)] of a value that is not itself a string *)
  str_of_object : value -> string;
  (** [datetime.strptime(text, format)] *)
  strptime : string -> string -> outcome datetime
}.

Abbreviation App := (M app_state).

(** The same collaborators, with another behaviour of the commit. *)
Definition with_commit (env : environment) (commit : outcome unit) : environment :=
  {| Service_query_get := Service_query_get env;
     commit_result := commit;
     current_user_id := current_user_id env;
     str_of_object := str_of_object env;
     strptime := strptime env |}.

(** [str(v)], which is how an f-string formats a field. *)
Definition py_str (env : environment) (v : value) : string :=
  match v with
  | VStr s => s
  | _ => str_of_object env v
  end.

Definition session_contains (k : string) : App bool :=
  fun s => (Ret (match session s !! k with Some _ => true | None => false end), s).

Definition session_getitem (k : string) : App value :=
  fun s => match session s !! k with
           | Some v => (Ret v, s)
           | None => (Raise KeyError, s)
           end.

Definition session_setitem (k : string) (v : value) : App unit :=
  modify (fun s => {| session := <[k := v]> (session s); db := db s |}).

(** [session.pop(k, None)] *)
Definition session_pop (k : string) : App unit :=
  modify (fun s => {| session := delete k (session s); db := db s |}).

Definition db_session_add (b : Booking.t) : App unit :=
  modify (fun s => {| session := session s;
                      db := {| bookings := bookings (db s);
                               pending := pending (db s) ++ [b] |} |}).

Definition db_session_commit (env : environment) : App unit :=
  fun s => match commit_result env with
           | Ret _ =>
               (Ret tt, {| session := session s;
                           db := {| bookings := bookings (db s) ++ pending (db s);
                                    pending := [] |} |})
           | Raise e => (Raise e, s)
           end.

Definition db_session_rollback : App unit :=
  modify (fun s => {| session := session s;
                      db := {| bookings := bookings (db s); pending := [] |} |}).

Definition ok_response : response := jsonify [("success", VBool true)] 200.

Definition fail_response (message : string) : response :=
  jsonify [("success", VBool false); ("message", VStr message)] 200.

(** The bound method [v.update]: looking it up fails on anything but a dict. *)
Definition py_getattr_update (v : value) : outcome (dict -> value) :=
  match v with
  | VDict d => Ret (fun u => VDict (dict_update d u))
  | _ => Raise AttributeError
  end.

(** [booking_step2]: the POST body either selects a service (step 1) or
    attaches the products (step 2). The [try] block yields [Some] response
    when one of its [return]s is reached and [None] when control leaves it
    at the end. The product table handed to the template is left out of the
    rendered context. *)
Definition booking_step2 (req : request) : App response :=
  do returned <-
    (if is_post req then
       try_except
         (do data <- lift (get_json req);
          do has_service <- lift (py_contains "service_id" data);
          if has_service then
            do service_id <- lift (py_getitem data "service_id");
            do service_name <- lift (py_getitem data "service_name");
            do price <- lift (py_getitem data "price");
            session_setitem "booking_data"
              (VDict [("service_id", service_id);
                      ("service_name", service_name);
                      ("price", price)]) ;;
            ret (Some ok_response)
          else
            do has_products <- lift (py_contains "products" data);
            if has_products then
              do has_draft <- session_contains "booking_data";
              if negb has_draft then
                ret (Some (fail_response "No booking data found"))
              else
                do products <- lift (py_getitem data "products");
                do draft <- session_getitem "booking_data";
                do draft' <- lift (py_setitem draft "products" products);
                session_setitem "booking_data" draft' ;;
                do total <- lift (py_get data "products_total" (VInt 0));
                do draft <- session_getitem "booking_data";
                do draft' <- lift (py_setitem draft "products_total" total);
                session_setitem "booking_data" draft' ;;
                ret (Some ok_response)
            else ret None)
         (fun _ => ret (Some (fail_response "Error processing request")))
     else ret None);
  match returned with
  | Some resp => ret resp
  | None =>
      do has_draft <- session_contains "booking_data";
      if negb has_draft then ret (redirect "booking_step1")
      else
        do draft <- session_getitem "booking_data";
        ret (render_template "booking_step2.html" [("booking_data", draft)])
  end.

Definition booking_step3 (req : request) : App response :=
  if is_post req then
    try_except
      (do data <- lift (get_json req);
       do has_draft <- session_contains "booking_data";
       if negb has_draft then ret (fail_response "No booking data found")
       else
         do draft <- session_getitem "booking_data";
         do update <- lift (py_getattr_update draft);
         do scheduled_date <- lift (py_getitem data "scheduled_date");
         do scheduled_time <- lift (py_getitem data "scheduled_time");
         do special_instructions <- lift (py_get data "special_instructions" (VStr ""));
         session_setitem "booking_data"
           (update [("scheduled_date", scheduled_date);
                    ("scheduled_time", scheduled_time);
                    ("special_instructions", special_instructions)]) ;;
         ret ok_response)
      (fun _ => ret (fail_response "Error processing request"))
  else
    do has_draft <- session_contains "booking_data";
    if negb has_draft then ret (redirect "booking_step1")
    else
      do draft <- session_getitem "booking_data";
      ret (render_template "booking_step3.html" [("booking_data", draft)]).

Definition confirmed_response : response :=
  jsonify [("success", VBool true);
           ("message", VStr "Booking confirmed successfully!")] 200.

(** [booking_step4]: on POST, the Finalizer. *)
Definition booking_step4 (env : environment) (req : request) : App response :=
  do has_draft <- session_contains "booking_data";
  if negb has_draft then ret (redirect "booking_step1")
  else if is_post req then
    try_except
      (do booking_data <- session_getitem "booking_data";
       do key <- lift (py_getitem booking_data "service_id");
       do found <- lift (Service_query_get env key);
       match found with
       | None => ret (fail_response "Service not found")
       | Some service =>
           do scheduled_date <- lift (py_getitem booking_data "scheduled_date");
           do scheduled_time <- lift (py_getitem booking_data "scheduled_time");
           do scheduled_datetime <-
             lift (strptime env
                     (py_str env scheduled_date +:+ " " +:+ py_str env scheduled_time)
                     "%Y-%m-%d %H:%M");
           do products_total <- lift (py_get booking_data "products_total" (VInt 0));
           do total_price <- lift (py_float_add (Service.price service) products_total);
           do special_instructions <-
             lift (py_get booking_data "special_instructions" (VStr ""));
           db_session_add
             {| Booking.user_id := current_user_id env;
                Booking.service_id := Service.id service;
                Booking.scheduled_date := scheduled_datetime;
                Booking.status := "confirmed";
                Booking.special_instructions := special_instructions;
                Booking.total_price := total_price |} ;;
           db_session_commit env ;;
           session_pop "booking_data" ;;
           ret confirmed_response
       end)
      (fun _ =>
         db_session_rollback ;;
         ret (fail_response "Error confirming booking"))
  else
    do booking_data <- session_getitem "booking_data";
    ret (render_template "booking_step4.html" [("booking_data", booking_data)]).

(** [products]: the products page starts a draft of its own, for the default
    service. The catalogue handed to the template is left out of the
    rendered context. *)
Definition products : App response :=
  try_except
    (session_setitem "booking_data"
       (VDict [("service_id", VInt 1);
               ("service_name", VStr "Product Purchase");
               ("price", VInt 0)]) ;;
     ret (render_template "products.html" []))
    (fun _ => ret (render_template "products.html" [])).

(** ** The session between requests

    The session is Flask's cookie session. A request works on a session
    object built from the cookie it came with, and the cookie is rewritten
    at the end of the request only if [session.modified] is set. Assigning
    to a key of the session ([session[k] = v]) sets the flag, and so does
    [session.pop(k, None)] when the key is there. A change made inside a
    value the session holds ([session[k][f] = v], [session[k].update(u)])
    does not set it, and no handler sets it itself. *)

(** The session object and the database during a request, with the flag. *)
Record tracked : Type := {
  live : app_state;
  modified : bool
}.

Abbreviation Req := (M tracked).

(** An operation that leaves the flag alone. *)
Definition unflagged {A} (m : App A) : Req A :=
  fun t => let '(r, s) := m (live t) in
           (r, {| live := s; modified := modified t |}).

(** An operation that sets the flag when [sets] holds of the state it
    starts from. *)
Definition flagged {A} (sets : app_state -> bool) (m : App A) : Req A :=
  fun t => let '(r, s) := m (live t) in
           (r, {| live := s; modified := modified t || sets (live t) |}).

(** The handlers that touch the session, on the session object with its
    flag. *)
Module Tracked.

Definition session_contains (k : string) : Req bool :=
  unflagged (session_contains k).

Definition session_getitem (k : string) : Req value :=
  unflagged (session_getitem k).

(** The session holds [v] under [k] after a change made inside the value it
    held there: [session[k][f] = x] or [session[k].update(u)]. *)
Definition session_changed_in_place (k : string) (v : value) : Req unit :=
  unflagged (session_setitem k v).

(** [session[k] = v] *)
Definition session_setitem (k : string) (v : value) : Req unit :=
  flagged (fun _ => true) (session_setitem k v).

(** [session.pop(k, None)] *)
Definition session_pop (k : string) : Req unit :=
  flagged (fun s => match session s !! k with Some _ => true | None => false end)
    (session_pop k).

Definition db_session_add (b : Booking.t) : Req unit :=
  unflagged (db_session_add b).

Definition db_session_commit (env : environment) : Req unit :=
  unflagged (db_session_commit env).

Definition db_session_rollback : Req unit :=
  unflagged db_session_rollback.

Definition booking_step2 (req : request) : Req response :=
  do returned <-
    (if is_post req then
       try_except
         (do data <- lift (get_json req);
          do has_service <- lift (py_contains "service_id" data);
          if has_service then
            do service_id <- lift (py_getitem data "service_id");
            do service_name <- lift (py_getitem data "service_name");
            do price <- lift (py_getitem data "price");
            session_setitem "booking_data"
              (VDict [("service_id", service_id);
                      ("service_name", service_name);
                      ("price", price)]) ;;
            ret (Some ok_response)
          else
            do has_products <- lift (py_contains "products" data);
            if has_products then
              do has_draft <- session_contains "booking_data";
              if negb has_draft then
                ret (Some (fail_response "No booking data found"))
              else
                do products <- lift (py_getitem data "products");
                do draft <- session_getitem "booking_data";
                do draft' <- lift (py_setitem draft "products" products);
                session_changed_in_place "booking_data" draft' ;;
                do total <- lift (py_get data "products_total" (VInt 0));
                do draft <- session_getitem "booking_data";
                do draft' <- lift (py_setitem draft "products_total" total);
                session_changed_in_place "booking_data" draft' ;;
                ret (Some ok_response)
            else ret None)
         (fun _ => ret (Some (fail_response "Error processing request")))
     else ret None);
  match returned with
  | Some resp => ret resp
  | None =>
      do has_draft <- session_contains "booking_data";
      if negb has_draft then ret (redirect "booking_step1")
      else
        do draft <- session_getitem "booking_data";
        ret (render_template "booking_step2.html" [("booking_data", draft)])
  end.

Definition booking_step3 (req : request) : Req response :=
  if is_post req then
    try_except
      (do data <- lift (get_json req);
       do has_draft <- session_contains "booking_data";
       if negb has_draft then ret (fail_response "No booking data found")
       else
         do draft <- session_getitem "booking_data";
         do update <- lift (py_getattr_update draft);
         do scheduled_date <- lift (py_getitem data "scheduled_date");
         do scheduled_time <- lift (py_getitem data "scheduled_time");
         do special_instructions <- lift (py_get data "special_instructions" (VStr ""));
         session_changed_in_place "booking_data"
           (update [("scheduled_date", scheduled_date);
                    ("scheduled_time", scheduled_time);
                    ("special_instructions", special_instructions)]) ;;
         ret ok_response)
      (fun _ => ret (fail_response "Error processing request"))
  else
    do has_draft <- session_contains "booking_data";
    if negb has_draft then ret (redirect "booking_step1")
    else
      do draft <- session_getitem "booking_data";
      ret (render_template "booking_step3.html" [("booking_data", draft)]).

Definition booking_step4 (env : environment) (req : request) : Req response :=
  do has_draft <- session_contains "booking_data";
  if negb has_draft then ret (redirect "booking_step1")
  else if is_post req then
    try_except
      (do booking_data <- session_getitem "booking_data";
       do key <- lift (py_getitem booking_data "service_id");
       do found <- lift (Service_query_get env key);
       match found with
       | None => ret (fail_response "Service not found")
       | Some service =>
           do scheduled_date <- lift (py_getitem booking_data "scheduled_date");
           do scheduled_time <- lift (py_getitem booking_data "scheduled_time");
           do scheduled_datetime <-
             lift (strptime env
                     (py_str env scheduled_date +:+ " " +:+ py_str env scheduled_time)
                     "%Y-%m-%d %H:%M");
           do products_total <- lift (py_get booking_data "products_total" (VInt 0));
           do total_price <- lift (py_float_add (Service.price service) products_total);
           do special_instructions <-
             lift (py_get booking_data "special_instructions" (VStr ""));
           db_session_add
             {| Booking.user_id := current_user_id env;
                Booking.service_id := Service.id service;
                Booking.scheduled_date := scheduled_datetime;
                Booking.status := "confirmed";
                Booking.special_instructions := special_instructions;
                Booking.total_price := total_price |} ;;
           db_session_commit env ;;
           session_pop "booking_data" ;;
           ret confirmed_response
       end)
      (fun _ =>
         db_session_rollback ;;
         ret (fail_response "Error confirming booking"))
  else
    do booking_data <- session_getitem "booking_data";
    ret (render_template "booking_step4.html" [("booking_data", booking_data)]).

Definition products : Req response :=
  try_except
    (session_setitem "booking_data"
       (VDict [("service_id", VInt 1);
               ("service_name", VStr "Product Purchase");
               ("price", VInt 0)]) ;;
     ret (render_template "products.html" []))
    (fun _ => ret (render_template "products.html" [])).

End Tracked.

(** One request of a client: the handler runs on a session object built
    from the cookie, and the cookie the next request will bring is the
    session object if the flag is set and the old cookie otherwise. The
    database is the one the handler left. *)
Definition serve (handler : Req response) (s : app_state)
    : outcome response * app_state :=
  let '(r, t) := handler {| live := s; modified := false |} in
  (r, {| session := if modified t then session (live t) else session s;
         db := db (live t) |}).

(** ** The draft operations of the wizard, as the requests a client sends *)

Inductive wizard_step : Type := Step2 | Step3 | Step4.

Inductive draft_op : Type :=
  | chooseService (service_id service_name price : value)
  | chooseProducts (products : value) (products_total : option value)
  | schedule (date time : value) (instructions : option value)
  | readDraft (step : wizard_step)
  | confirm.

Definition optional_field (k : string) (o : option value) : dict :=
  match o with Some v => [(k, v)] | None => [] end.

Definition http_post (body : dict) : request :=
  {| method := POST; get_json := Ret (VDict body) |}.

Definition http_get : request :=
  {| method := GET; get_json := Raise BadRequest |}.

Definition perform (env : environment) (op : draft_op) : App response :=
  match op with
  | chooseService service_id service_name price =>
      booking_step2
        (http_post [("service_id", service_id);
                    ("service_name", service_name);
                    ("price", price)])
  | chooseProducts products products_total =>
      booking_step2
        (http_post (("products", products)
                    :: optional_field "products_total" products_total))
  | schedule date time instructions =>
      booking_step3
        (http_post (("scheduled_date", date)
                    :: ("scheduled_time", time)
                    :: optional_field "special_instructions" instructions))
  | readDraft Step2 => booking_step2 http_get
  | readDraft Step3 => booking_step3 http_get
  | readDraft Step4 => booking_step4 env http_get
  | confirm => booking_step4 env (http_post [])
  end.

(** The same operations on the session object with its flag. *)
Definition tracked_perform (env : environment) (op : draft_op) : Req response :=
  match op with
  | chooseService service_id service_name price =>
      Tracked.booking_step2
        (http_post [("service_id", service_id);
                    ("service_name", service_name);
                    ("price", price)])
  | chooseProducts products products_total =>
      Tracked.booking_step2
        (http_post (("products", products)
                    :: optional_field "products_total" products_total))
  | schedule date time instructions =>
      Tracked.booking_step3
        (http_post (("scheduled_date", date)
                    :: ("scheduled_time", time)
                    :: optional_field "special_instructions" instructions))
  | readDraft Step2 => Tracked.booking_step2 http_get
  | readDraft Step3 => Tracked.booking_step3 http_get
  | readDraft Step4 => Tracked.booking_step4 env http_get
  | confirm => Tracked.booking_step4 env (http_post [])
  end.

(** A client session: the operations in the order issued, each with what
    the collaborators do during that request. A request receives the
    session cookie and the database the request before it left. *)
Fixpoint perform_all (ops : list (environment * draft_op)) (s : app_state)
    : list (outcome response) * app_state :=
  match ops with
  | [] => ([], s)
  | (env, op) :: rest =>
      let '(r, s1) := serve (tracked_perform env op) s in
      let '(rs, s2) := perform_all rest s1 in
      (r :: rs, s2)
  end.




Definition is_chooseService (op : draft_op) : bool :=
  match op with chooseService _ _ _ => true | _ => false end.

(** How [NoDraftError] reaches the client. *)
Definition no_draft_response (r : outcome response) : Prop :=
  r = Ret (fail_response "No booking data found")
  \/ r = Ret (redirect "booking_step1").

(** The services [init_database] creates in an empty table, numbered by the
    storage layer in the order they are added. *)
Definition init_services : list Service.t :=
  [ {| Service.id := 1; Service.name := "Lawn Mowing";
       Service.description := "Professional lawn mowing service";
       Service.price := float_of_Z 50; Service.duration_hours := 1;
       Service.active := true |};
    {| Service.id := 2; Service.name := "Fertilization";
       Service.description := "Organic fertilization treatment";
       Service.price := float_of_Z 75; Service.duration_hours := 1;
       Service.active := true |};
    {| Service.id := 3; Service.name := "Weed Control";
       Service.description := "Professional weed control treatment";
       Service.price := float_of_Z 65; Service.duration_hours := 1;
       Service.active := true |};
    {| Service.id := 4; Service.name := "Aeration";
       Service.description := "Lawn aeration service";
       Service.price := float_of_Z 100; Service.duration_hours := 2;
       Service.active := true |};
    {| Service.id := 5; Service.name := "Overseeding";
       Service.description := "Grass overseeding service";
       Service.price := float_of_Z 85; Service.duration_hours := 2;
       Service.active := true |};
    {| Service.id := 6; Service.name := "Leaf Removal";
       Service.description := "Fall leaf cleanup service";
       Service.price := float_of_Z 60; Service.duration_hours := 2;
       Service.active := true |} ].

(** * The weather gateway *)

(** ** Strings *)

(** Text is embedded character by character as ASCII. The embedding of
    [str.lower] below is exact on text whose characters are all ASCII
    ([is_ascii]): there [str.lower] changes the letters A to Z and nothing
    else. On other text [str.lower] also lowers letters outside ASCII, can
    change the length and depends on the context of a letter; that is not
    modelled, and what is stated about the lowering of a text is stated for
    ASCII text. *)
Fixpoint is_ascii (s : string) : bool :=
  match s with
  | EmptyString => true
  | String c s' => (nat_of_ascii c <? 128)%nat && is_ascii s'
  end.

(** [c.lower()] on an ASCII character. *)
Definition lower_ascii (c : ascii) : ascii :=
  let n := nat_of_ascii c in
  if ((65 <=? n) && (n <=? 90))%nat then ascii_of_nat (n + 32) else c.

(** [s.lower()] of ASCII text. *)
Fixpoint lower (s : string) : string :=
  match s with
  | EmptyString => EmptyString
  | String c s' => String (lower_ascii c) (lower s')
  end.

(** [s.replace(old, new)] for one-character [old] and [new]. *)
Fixpoint replace (old new : ascii) (s : string) : string :=
  match s with
  | EmptyString => EmptyString
  | String c s' =>
      String (if Ascii.eqb c old then new else c) (replace old new s')
  end.

(** ** The world of the weather lookup *)

(** What [requests.get] returns: the status and what [response.json()]
    does. *)
Record http_response : Type := {
  status_code : Z;
  json : outcome value
}.

Inductive event : Type :=
  | ProviderGet (url : string) (params : dict)   (* an outbound provider call *)
  | CacheSave (cache_data : value).              (* a call of save_weather_cache *)

(** [cache_file] is the text of [weather_cache.json], if the file exists;
    [clock_reads] counts the calls of [datetime.now()] so far; [events]
    records the effects in the order they happened. *)
Record world : Type := {
  cache_file : option string;
  clock_reads : nat;
  events : list event
}.

(** The libraries and the process-wide settings the handler runs on. *)
Record platform : Type := {
  (** [os.environ.get('WEATHER_API_KEY', ...)] *)
  WEATHER_API_KEY : string;
  (** the reading the [n]-th call of [datetime.now()] returns, in
      microseconds *)
  clock : nat -> Z;
  (** [dt.isoformat()] *)
  isoformat : datetime -> string;
  (** [datetime.fromisoformat(v)] *)
  fromisoformat : value -> outcome datetime;
  (** [json.load] of a file with the given text *)
  json_load : string -> outcome value;
  (** the chunks [json.dump(v, f, indent=2)] writes, in order *)
  iterencode : value -> list string
}.

(** What the outside does during one request. *)
Record outside : Type := {
  (** [requests.get(url, params=params, timeout=10)] *)
  requests_get : string -> dict -> outcome http_response;
  (** whether opening the cache file for reading fails *)
  read_fault : bool;
  (** the file operation of a save that fails, if one does: [0] is the
      [open], [k] the [k]-th [write] *)
  write_fault : option nat
}.

Abbreviation W := (M world).

Definition WEATHER_API_URL : string := "http://api.weatherstack.com/current".

Definition datetime_now (lib : platform) : W datetime :=
  fun w => (Ret {| ticks := clock lib (clock_reads w); tzinfo := None |},
            {| cache_file := cache_file w;
               clock_reads := S (clock_reads w);
               events := events w |}).

(** [a - b] in microseconds; naive and aware operands do not mix. *)
Definition datetime_sub (a b : datetime) : outcome Z :=
  match tzinfo a, tzinfo b with
  | None, None => Ret (ticks a - ticks b)
  | Some oa, Some ob => Ret ((ticks a - oa) - (ticks b - ob))
  | _, _ => Raise TypeError
  end.

(** [timedelta(hours=2)] in microseconds. *)
Definition two_hours : Z := 2 * 3600 * 1000000.

Definition record_event (e : event) : W unit :=
  modify (fun w => {| cache_file := cache_file w;
                      clock_reads := clock_reads w;
                      events := events w ++ [e] |}).

Definition set_cache_file (text : option string) : W unit :=
  modify (fun w => {| cache_file := text;
                      clock_reads := clock_reads w;
                      events := events w |}).

(** [load_weather_cache]: the document in the file, and [{}] when the file
    is missing or cannot be read or decoded. *)
Definition load_weather_cache (lib : platform) (io : outside) : W value :=
  do loaded <-
    try_except
      (do w <- get_state;
       match cache_file w with
       | Some text =>
           if read_fault io then raise OSError
           else do document <- lift (json_load lib text); ret (Some document)
       | None => ret None
       end)
      (fun _ => ret None);
  match loaded with
  | Some document => ret document
  | None => ret (VDict [])
  end.

(** [open(cache_file, 'w')]: the file is created or emptied. *)
Definition open_for_writing (io : outside) : W unit :=
  match write_fault io with
  | Some O => raise OSError
  | _ => set_cache_file (Some "")
  end.

(** The [k]-th [f.write(chunk)]. *)
Definition file_write (io : outside) (k : nat) (chunk : string) : W unit :=
  fun w =>
    if bool_decide (write_fault io = Some k) then (Raise OSError, w)
    else
      match cache_file w with
      | Some text => set_cache_file (Some (text +:+ chunk)) w
      | None => (Raise OSError, w)
      end.

(** [json.dump(v, f, indent=2)]: the chunks of the encoder, one [write]
    each, the first of them the [k]-th write. *)
Fixpoint write_chunks (io : outside) (k : nat) (chunks : list string) : W unit :=
  match chunks with
  | [] => ret tt
  | chunk :: rest => file_write io k chunk ;; write_chunks io (S k) rest
  end.

Definition save_weather_cache (lib : platform) (io : outside) (cache_data : value) : W unit :=
  record_event (CacheSave cache_data) ;;
  try_except
    (open_for_writing io ;;
     write_chunks io 1 (iterencode lib cache_data))
    (fun _ => ret tt).

Definition is_cache_valid (lib : platform) (cached_time : value) : W bool :=
  try_except
    (do cache_time <- lift (fromisoformat lib cached_time);
     do now <- datetime_now lib;
     do age <- lift (datetime_sub now cache_time);
     ret (age <? two_hours)%Z)
    (fun _ => ret false).

Definition get_mock_weather_data (location : string) : value :=
  VDict
    [("location",
      VDict [("name", VStr location);
             ("region", VStr "Local Area");
             ("country", VStr "United States")]);
     ("current",
      VDict [("temperature", VInt 72);
             ("weather_descriptions", VList [VStr "Partly Cloudy"]);
             ("weather_icons",
              VList [VStr "https://assets.weatherstack.com/images/wsymbols01_png_64/wsymbol_0002_sunny_intervals.png"]);
             ("humidity", VInt 65);
             ("wind_speed", VInt 8);
             ("wind_dir", VStr "SW");
             ("uv_index", VInt 5);
             ("visibility", VInt 10)])].

(** The cache key of a location. *)
Definition cache_key_of (location : string) : string :=
  "weather_" +:+ replace " " "_" (lower location).

Definition is_RequestException (e : exn) : bool :=
  match e with RequestException => true | _ => false end.

Definition unavailable_response : response :=
  jsonify [("success", VBool false);
           ("error", VStr "Weather service temporarily unavailable")] 500.

(** The condition of the cache check in [get_weather]:
    [cache_key in cache and is_cache_valid(cache[cache_key].get('timestamp', ''))]. *)
Definition cache_entry_valid (lib : platform) (cache : value) (cache_key : string)
    : W bool :=
  do present <- lift (py_contains cache_key cache);
  if present then
    do entry <- lift (py_getitem cache cache_key);
    do cached_time <- lift (py_get entry "timestamp" (VStr ""));
    is_cache_valid lib cached_time
  else ret false.

(** The block "Try to fetch from API" of [get_weather], a [try] with the
    handler [except requests.exceptions.RequestException]. It yields [Some]
    response when its [return] is reached and [None] when control leaves
    the block otherwise. *)
Definition fetch_from_api (lib : platform) (io : outside)
    (location : string) (cache : value) (cache_key : string)
    : W (option response) :=
  try_except_on is_RequestException
    (let params := [("access_key", VStr (WEATHER_API_KEY lib));
                    ("query", VStr location);
                    ("units", VStr "f")] in
     record_event (ProviderGet WEATHER_API_URL params) ;;
     do response <- lift (requests_get io WEATHER_API_URL params);
     if (status_code response =? 200)%Z then
       do data <- lift (json response);
       do has_error <- lift (py_contains "error" data);
       if negb has_error then
         do stamped <- datetime_now lib;
         do cache' <-
           lift (py_setitem cache cache_key
                   (VDict [("data", data);
                           ("timestamp", VStr (isoformat lib stamped))]));
         save_weather_cache lib io cache' ;;
         do answered <- datetime_now lib;
         ret (Some (jsonify [("success", VBool true);
                             ("data", data);
                             ("cached", VBool false);
                             ("timestamp", VStr (isoformat lib answered))] 200))
       else
         (* the warning logged here formats
            data.get('error', {}).get('info', 'Unknown error') *)
         do error <- lift (py_get data "error" (VDict []));
         do info <- lift (py_get error "info" (VStr "Unknown error"));
         ret None
     else ret None)
    (fun _ => ret None).

(** [get_weather]; [location_arg] is the [location] query parameter, if the
    request has one. *)
Definition get_weather (lib : platform) (io : outside) (location_arg : option string)
    : W response :=
  try_except
    (let location := default "Miami, FL" location_arg in
     do cache <- load_weather_cache lib io;
     let cache_key := cache_key_of location in
     do valid <- cache_entry_valid lib cache cache_key;
     if valid then
       do entry <- lift (py_getitem cache cache_key);
       do data <- lift (py_getitem entry "data");
       do entry <- lift (py_getitem cache cache_key);
       do timestamp <- lift (py_getitem entry "timestamp");
       ret (jsonify [("success", VBool true);
                     ("data", data);
                     ("cached", VBool true);
                     ("timestamp", timestamp)] 200)
     else
       do returned <- fetch_from_api lib io location cache cache_key;
       match returned with
       | Some resp => ret resp
       | None =>
           let mock_data := get_mock_weather_data location in
           do answered <- datetime_now lib;
           ret (jsonify [("success", VBool true);
                         ("data", mock_data);
                         ("cached", VBool false);
                         ("mock", VBool true);
                         ("timestamp", VStr (isoformat lib answered))] 200)
       end)
    (fun _ => ret unavailable_response).

(** * Concrete collaborators for the examples *)

(** A [Service] table queried by integer key. *)
Definition table_get (services : list Service.t) (key : value)
    : outcome (option Service.t) :=
  match key with
  | VInt i => Ret (find (fun service => (Service.id service =? i)%Z) services)
  | _ => Ret None
  end.

(** 2025-06-01 09:00 on the microsecond time line. *)
Definition june_1_2025_9am : datetime :=
  {| ticks := 63884365200000000; tzinfo := None |}.

(** An environment over the freshly initialised database, with the given
    behaviour of the commit; its [strptime] knows one date. *)
Definition demo_env (commit : outcome unit) : environment :=
  {| Service_query_get := table_get init_services;
     commit_result := commit;
     current_user_id := 1;
     str_of_object := fun _ => "";
     strptime := fun text format =>
       if String.eqb text "2025-06-01 09:00" then Ret june_1_2025_9am
       else Raise ValueError |}.

Definition empty_state : app_state :=
  {| session := ∅; db := {| bookings := []; pending := [] |} |}.

(** The scenario: Weed Control with one product, on 2025-06-01 at 09:00. *)
Definition scenario : list draft_op :=
  [ chooseService (VInt 3) (VStr "Weed Control") (VFloat (float_of_Z 65));
    chooseProducts
      (VList [VDict [("id", VInt 2); ("price", VFloat (dec2 4599))]])
      (Some (VFloat (dec2 4599)));
    schedule (VStr "2025-06-01") (VStr "09:00") (Some (VStr ""));
    confirm ].

(** A complete draft: the fields the first three operations of the scenario
    put into the session object of their requests. *)
Definition scenario_draft : value :=
  VDict [("service_id", VInt 3);
         ("service_name", VStr "Weed Control");
         ("price", VFloat (float_of_Z 65));
         ("products", VList [VDict [("id", VInt 2); ("price", VFloat (dec2 4599))]]);
         ("products_total", VFloat (dec2 4599));
         ("scheduled_date", VStr "2025-06-01");
         ("scheduled_time", VStr "09:00");
         ("special_instructions", VStr "")].

(** The float [65.0 + 45.99] evaluates to: 110.99000000000001, one unit in
    the last place above the float of the literal [110.99]. *)
Definition float_110_99000000000001 : float :=
  S754_finite false 7810226916278928 (-46).

(** A session holding that complete draft. *)
Definition scenario_state : app_state :=
  {| session := {["booking_data" := scenario_draft]};
     db := {| bookings := []; pending := [] |} |}.

(** ** Notions the weather properties are stated with *)

(** The responses of [get_weather]. *)
Definition cached_response (data timestamp : value) : response :=
  jsonify [("success", VBool true); ("data", data);
           ("cached", VBool true); ("timestamp", timestamp)] 200.

Definition fresh_response (data : value) (timestamp : string) : response :=
  jsonify [("success", VBool true); ("data", data);
           ("cached", VBool false); ("timestamp", VStr timestamp)] 200.

Definition mock_response (location timestamp : string) : response :=
  jsonify [("success", VBool true); ("data", get_mock_weather_data location);
           ("cached", VBool false); ("mock", VBool true);
           ("timestamp", VStr timestamp)] 200.

(** The parameters of the provider call for a location. *)
Definition provider_params (lib : platform) (location : string) : dict :=
  [("access_key", VStr (WEATHER_API_KEY lib));
   ("query", VStr location);
   ("units", VStr "f")].

(** The field of a JSON response, if it has it. *)
Definition response_field (r : response) (k : string) : option value :=
  match r with
  | jsonify body _ => dict_get body k
  | _ => None
  end.

(** A response without the given field. *)
Definition dict_remove (k : string) (d : dict) : dict :=
  List.filter (fun kv => negb (String.eqb (fst kv) k)) d.

Definition without_field (k : string) (r : response) : response :=
  match r with
  | jsonify body status => jsonify (dict_remove k body) status
  | _ => r
  end.

(** The number of outbound provider calls among events. *)
Definition is_ProviderGet (e : event) : bool :=
  match e with ProviderGet _ _ => true | CacheSave _ => false end.

Definition provider_calls (es : list event) : nat :=
  length (List.filter is_ProviderGet es).

(** What [load_weather_cache] returns in a world. *)
Definition loaded (lib : platform) (io : outside) (w : world) : value :=
  match cache_file w with
  | Some text =>
      if read_fault io then VDict []
      else match json_load lib text with
           | Ret document => document
           | Raise _ => VDict []
           end
  | None => VDict []
  end.

(** The text a save leaves in the file when it writes the first [n] chunks. *)
Definition written (chunks : list string) (n : nat) : string :=
  String.concat "" (firstn n chunks).

(** What a save of the document [v] leaves in the file that held [old]: the
    file is untouched when the [open] fails, holds the chunks written before
    a failing [write], and the whole text otherwise. *)
Definition saved_file (lib : platform) (io : outside) (v : value)
    (old : option string) : option string :=
  match write_fault io with
  | Some O => old
  | Some (S j) => Some (written (iterencode lib v) j)
  | None => Some (String.concat "" (iterencode lib v))
  end.

(** The reading of the clock a naive [datetime.now()] carries. *)
Definition reading (lib : platform) (n : nat) : datetime :=
  {| ticks := clock lib n; tzinfo := None |}.

(** Two characters that are one letter in either case. *)
Inductive case_variant : ascii -> ascii -> Prop :=
  | same_character c : case_variant c c
  | upper_lower n :
      (65 <= n <= 90)%nat ->
      case_variant (ascii_of_nat n) (ascii_of_nat (n + 32))
  | lower_upper n :
      (65 <= n <= 90)%nat ->
      case_variant (ascii_of_nat (n + 32)) (ascii_of_nat n).

(** [str.isspace] on ASCII: space, tab, line feed, vertical tab, form feed,
    carriage return. *)
Definition is_whitespace (c : ascii) : bool :=
  let n := nat_of_ascii c in
  ((n =? 32) || ((9 <=? n) && (n <=? 13)))%nat.

(** Strings that differ only in letter case or in which whitespace
    character stands at a position. *)
Inductive differ_in_case_or_whitespace : string -> string -> Prop :=
  | dcw_empty : differ_in_case_or_whitespace "" ""
  | dcw_case c d s t :
      case_variant c d ->
      differ_in_case_or_whitespace s t ->
      differ_in_case_or_whitespace (String c s) (String d t)
  | dcw_whitespace c d s t :
      is_whitespace c = true -> is_whitespace d = true ->
      differ_in_case_or_whitespace s t ->
      differ_in_case_or_whitespace (String c s) (String d t).

(** Strings that differ only in letter case or in a space standing where
    the other has a space or an underscore. *)
Inductive differ_in_case_or_space : string -> string -> Prop :=
  | dcs_empty : differ_in_case_or_space "" ""
  | dcs_case c d s t :
      case_variant c d ->
      differ_in_case_or_space s t ->
      differ_in_case_or_space (String c s) (String d t)
  | dcs_space c d s t :
      c = " "%char \/ c = "_"%char -> d = " "%char \/ d = "_"%char ->
      differ_in_case_or_space s t ->
      differ_in_case_or_space (String c s) (String d t).

(** The ways the provider call fails for which the fallback is reached. *)
Inductive provider_failure : outcome http_response -> Prop :=
  | transport_failure : provider_failure (Raise RequestException)
  | bad_status resp :
      status_code resp <> 200 -> provider_failure (Ret resp)
  | reported_error resp body details :
      status_code resp = 200 ->
      json resp = Ret (VDict body) ->
      dict_get body "error" = Some (VDict details) ->
      provider_failure (Ret resp).

(** ** Concrete collaborators for the weather examples *)

Definition tab : ascii := ascii_of_nat 9.

(** [n] times the letter x. *)
Fixpoint unary (n : nat) : string :=
  match n with
  | O => ""
  | S n' => String "x" (unary n')
  end.

(** A platform whose clock starts at 1 and advances by one microsecond per
    reading, whose timestamps are written in unary, and whose JSON codec
    knows one document, written in three chunks as the text "{...}". *)
Definition demo_platform (document : value) : platform :=
  {| WEATHER_API_KEY := "c42d013d70735bb8b4050545852b7a4a";
     clock := fun n => Z.of_nat (S n);
     isoformat := fun t => unary (Z.to_nat (ticks t));
     fromisoformat := fun v =>
       match v with
       | VStr s => Ret {| ticks := Z.of_nat (String.length s); tzinfo := None |}
       | _ => Raise TypeError
       end;
     json_load := fun text =>
       if String.eqb text "{...}" then Ret document else Raise JSONDecodeError;
     iterencode := fun _ => ["{"; "..."; "}"] |}.

(** An outside whose provider gives the same answer to every call and whose
    file operations work. *)
Definition provider_answers (answer : outcome http_response) : outside :=
  {| requests_get := fun _ _ => answer;
     read_fault := false;
     write_fault := None |}.

(** The same, with a failing file operation during the save. *)
Definition failing_disk (answer : outcome http_response) (k : nat) : outside :=
  {| requests_get := fun _ _ => answer;
     read_fault := false;
     write_fault := Some k |}.

Definition new_world : world :=
  {| cache_file := None; clock_reads := 0; events := [] |}.

(** A provider payload. *)
Definition austin_payload : value :=
  VDict [("location", VDict [("name", VStr "Austin")]);
         ("current", VDict [("temperature", VInt 95)])].

(** The cache document after that payload was stored for "Austin, TX" at the
    first reading of the demo clock. *)
Definition austin_document : value :=
  VDict [("weather_austin,_tx",
          VDict [("data", austin_payload); ("timestamp", VStr "x")])].

(** A world whose cache file holds the text of the demo document. *)
Definition austin_world : world :=
  {| cache_file := Some "{...}"; clock_reads := 2; events := [] |}.

Definition ok_reply (data : value) : outcome http_response :=
  Ret {| status_code := 200; json := Ret data |}.

Definition status_reply (status : Z) : outcome http_response :=
  Ret {| status_code := status; json := Raise JSONDecodeError |}.

(** * Further notions and handlers *)

(** ** The draft *)

(** The keys of the draft the Finalizer reads. *)
Definition finalizer_keys : list string :=
  ["service_id"; "scheduled_date"; "scheduled_time"; "products_total";
   "special_instructions"].

(** Two drafts with the same values under the keys the Finalizer reads. *)
Definition same_for_finalizer (d1 d2 : dict) : Prop :=
  forall k, In k finalizer_keys -> dict_get d1 k = dict_get d2 k.

(** The draft of a session, if it has one, is a dict that holds the three
    fields of the service selection. *)
Definition draft_well_formed (s : app_state) : Prop :=
  match session s !! "booking_data" with
  | None => True
  | Some draft =>
      exists d, draft = VDict d
                /\ dict_mem d "service_id" = true
                /\ dict_mem d "service_name" = true
                /\ dict_mem d "price" = true
  end.

(** A state with the given draft in the session. *)
Definition with_draft (s : app_state) (draft : value) : app_state :=
  {| session := <["booking_data" := draft]> (session s); db := db s |}.

(** Python numbers among the values. *)
Definition is_number (v : value) : bool :=
  match v with
  | VInt _ | VFloat _ | VBool _ => true
  | _ => false
  end.

(** ** The weather gateway *)

(** The timestamp the cache check reads from an entry:
    [entry.get('timestamp', '')]. *)
Definition timestamp_of (entry : dict) : value :=
  match dict_get entry "timestamp" with
  | Some v => v
  | None => VStr ""
  end.

(** The entry a fetch stores. *)
Definition stored_entry (data : value) (timestamp : string) : value :=
  VDict [("data", data); ("timestamp", VStr timestamp)].

(** A string without a space and without an upper-case ASCII letter. *)
Fixpoint normalized (s : string) : bool :=
  match s with
  | EmptyString => true
  | String c s' =>
      negb (Ascii.eqb c " ")
      && negb ((65 <=? nat_of_ascii c)%nat && (nat_of_ascii c <=? 90)%nat)
      && normalized s'
  end.

(** [len(v)] *)
Definition py_len (v : value) : outcome Z :=
  match v with
  | VDict d => Ret (Z.of_nat (length d))
  | VList l => Ret (Z.of_nat (length l))
  | VStr s => Ret (Z.of_nat (String.length s))
  | _ => Raise TypeError
  end.

(** [weather_status]; [str_of_exception] is [str(e)] of the exception
    caught. *)
Definition weather_status (lib : platform) (io : outside)
    (str_of_exception : exn -> string) : W response :=
  try_except
    (do cache <- load_weather_cache lib io;
     do cache_count <- lift (py_len cache);
     do now <- datetime_now lib;
     ret (jsonify [("success", VBool true);
                   ("cache_entries", VInt cache_count);
                   ("api_key_configured",
                    VBool (negb (String.eqb (WEATHER_API_KEY lib) "")));
                   ("timestamp", VStr (isoformat lib now))] 200))
    (fun e =>
       ret (jsonify [("success", VBool false);
                     ("error", VStr (str_of_exception e))] 500)).

(** A world whose cache file holds an entry for "Austin, TX" stamped at
    time 0, read by a clock that shows exactly two hours. *)
Definition two_hours_later : platform :=
  {| WEATHER_API_KEY := "c42d013d70735bb8b4050545852b7a4a";
     clock := fun _ => two_hours;
     isoformat := fun t => unary (Z.to_nat (ticks t));
     fromisoformat := fun v =>
       match v with
       | VStr s => Ret {| ticks := Z.of_nat (String.length s); tzinfo := None |}
       | _ => Raise TypeError
       end;
     json_load := fun text =>
       if String.eqb text "{...}"
       then Ret (VDict [("weather_austin,_tx", stored_entry austin_payload "")])
       else Raise JSONDecodeError;
     iterencode := fun _ => ["{"; "..."; "}"] |}.

(** ** The session between requests *)

(** The request is a POST whose body has the three fields of a service
    selection, which is when [booking_step2] assigns a new draft to the
    session. *)
Definition selects_service (req : request) : bool :=
  is_post req
  && match get_json req with
     | Ret data =>
         match py_contains "service_id" data,
               py_getitem data "service_id",
               py_getitem data "service_name",
               py_getitem data "price" with
         | Ret true, Ret _, Ret _, Ret _ => true
         | _, _, _, _ => false
         end
     | Raise _ => false
     end.



(** An answer that refuses to confirm. *)
Definition refusal (r : outcome response) : Prop :=
  r = Ret (redirect "booking_step1")
  \/ r = Ret (fail_response "Service not found")
  \/ r = Ret (fail_response "Error confirming booking").

(** * The pages and the API over a user's bookings *)

(** [Booking.query.filter_by(...)] with [.count()] or [.all()] applied to
    it: the committed rows that meet the criteria, in table order, unless
    the query fails. A request starts with an empty unit of work, so the
    committed rows are the rows its queries see. *)
Definition Booking_query_filter_by (query : outcome unit)
    (criteria : Booking.t -> bool) : App (list Booking.t) :=
  fun s => match query with
           | Ret _ => (Ret (List.filter criteria (bookings (db s))), s)
           | Raise e => (Raise e, s)
           end.

(** [len(l)] of a list. *)
Definition len {A} (l : list A) : Z := Z.of_nat (length l).

(** [points]; [query k] says whether the [k]-th query of the request goes
    through. *)
Definition points (env : environment) (query : nat -> outcome unit) : App response :=
  try_except
    (do completed <-
       Booking_query_filter_by (query 0%nat)
         (fun b => (Booking.user_id b =? current_user_id env)
                   && String.eqb (Booking.status b) "completed");
     let completed_bookings := len completed in
     do confirmed <-
       Booking_query_filter_by (query 1%nat)
         (fun b => (Booking.user_id b =? current_user_id env)
                   && String.eqb (Booking.status b) "confirmed");
     let confirmed_bookings := len confirmed in
     let total_seeds := completed_bookings * 100 + confirmed_bookings * 25 + 500 in
     ret (render_template "points.html"
            [("user_seeds",
              VDict [("total_seeds", VInt total_seeds);
                     ("completed_bookings", VInt completed_bookings);
                     ("confirmed_bookings", VInt confirmed_bookings);
                     ("welcome_bonus", VInt 500)])]))
    (fun _ =>
       ret (render_template "points.html"
              [("user_seeds",
                VDict [("total_seeds", VInt 0);
                       ("completed_bookings", VInt 0);
                       ("confirmed_bookings", VInt 0);
                       ("welcome_bonus", VInt 0)])])).

(** The seeds page with the given figures. *)
Definition seeds_page (total completed confirmed bonus : Z) : response :=
  render_template "points.html"
    [("user_seeds",
      VDict [("total_seeds", VInt total);
             ("completed_bookings", VInt completed);
             ("confirmed_bookings", VInt confirmed);
             ("welcome_bonus", VInt bonus)])].

(** The rows of a user with a status. *)
Definition bookings_of (user : Z) (status : string) (rows : list Booking.t)
    : list Booking.t :=
  List.filter (fun b => (Booking.user_id b =? user) && String.eqb (Booking.status b) status)
    rows.

(** ** The statistics *)

(** The clock and the formatting the statistics use. *)
Record calendar : Type := {
  (** the reading the [k]-th call of [datetime.now()] of the request
      returns, in microseconds *)
  today : nat -> Z;
  (** [dt.strftime(format)] *)
  strftime : datetime -> string -> outcome string
}.

(** [a > b] on datetimes; a naive and an aware operand do not compare. *)
Definition datetime_gt (a b : datetime) : outcome bool :=
  match tzinfo a, tzinfo b with
  | None, None => Ret (ticks b <? ticks a)
  | Some oa, Some ob => Ret (ticks b - ob <? ticks a - oa)
  | _, _ => Raise TypeError
  end.

(** [a < b] *)
Definition datetime_lt (a b : datetime) : outcome bool := datetime_gt b a.

(** [sum(prices)] of floats: the start value is the [int] 0, which the first
    addition converts to a float. *)
Definition py_sum (prices : list float) : value :=
  match prices with
  | [] => VInt 0
  | p :: rest => VFloat (fold_left float_add rest (float_add (float_of_Z 0) p))
  end.

Definition status_in (statuses : list string) (b : Booking.t) : bool :=
  existsb (String.eqb (Booking.status b)) statuses.

(** [[b for b in user_bookings if b.scheduled_date > datetime.now() and
    b.status in ['confirmed', 'pending']]]; the clock is read once for each
    booking, the first time as its [k]-th reading. *)
Fixpoint upcoming (cal : calendar) (k : nat) (user_bookings : list Booking.t)
    : outcome (list Booking.t) :=
  match user_bookings with
  | [] => Ret []
  | b :: rest =>
      match datetime_gt (Booking.scheduled_date b)
              {| ticks := today cal k; tzinfo := None |} with
      | Raise e => Raise e
      | Ret later =>
          match upcoming cal (S k) rest with
          | Raise e => Raise e
          | Ret found =>
              Ret (if later && status_in ["confirmed"; "pending"] b
                   then b :: found else found)
          end
      end
  end.

(** [min(l, key=lambda x: x.scheduled_date)] for the non-empty [best :: l]:
    a later element replaces the best one when its key is less. *)
Fixpoint py_min_by_date (best : Booking.t) (l : list Booking.t) : outcome Booking.t :=
  match l with
  | [] => Ret best
  | b :: rest =>
      match datetime_lt (Booking.scheduled_date b) (Booking.scheduled_date best) with
      | Raise e => Raise e
      | Ret true => py_min_by_date b rest
      | Ret false => py_min_by_date best rest
      end
  end.

(** [obj.attr] of an object that a relationship or a nullable column
    gives, which is [None] when there is no row or no value. *)
Definition py_getattr {A B} (obj : option A) (attr : A -> B) : outcome B :=
  match obj with
  | Some a => Ret (attr a)
  | None => Raise AttributeError
  end.

(** [obj.strftime(format)] *)
Definition py_strftime (cal : calendar) (obj : option datetime) (format : string)
    : outcome string :=
  match obj with
  | Some t => strftime cal t format
  | None => Raise AttributeError
  end.

(** [get_user_stats]; [query] says whether the query of the bookings goes
    through, [created_at] is [current_user.created_at], and
    [booking.service] is loaded by the key of the booking. *)
Definition get_user_stats (env : environment) (cal : calendar)
    (query : outcome unit) (created_at : option datetime) : App response :=
  try_except
    (do user_bookings <-
       Booking_query_filter_by query
         (fun b => Booking.user_id b =? current_user_id env);
     let total_bookings := len user_bookings in
     let completed_bookings :=
       len (List.filter (fun b => String.eqb (Booking.status b) "completed") user_bookings) in
     let pending_bookings :=
       len (List.filter (fun b => String.eqb (Booking.status b) "pending") user_bookings) in
     let confirmed_bookings :=
       len (List.filter (fun b => String.eqb (Booking.status b) "confirmed") user_bookings) in
     let total_spent :=
       py_sum (map Booking.total_price
                 (List.filter (status_in ["completed"; "confirmed"]) user_bookings)) in
     do member_since <- lift (py_strftime cal created_at "%B %Y");
     do upcoming_bookings <- lift (upcoming cal 0 user_bookings);
     do next <-
       match upcoming_bookings with
       | [] => ret VNone
       | first :: others =>
           do next_booking <- lift (py_min_by_date first others);
           do service <-
             lift (Service_query_get env (VInt (Booking.service_id next_booking)));
           do service_name <- lift (py_getattr service Service.name);
           do date <-
             lift (strftime cal (Booking.scheduled_date next_booking) "%B %d, %Y");
           do time <-
             lift (strftime cal (Booking.scheduled_date next_booking) "%I:%M %p");
           ret (VDict [("service", VStr service_name);
                       ("date", VStr date);
                       ("time", VStr time)])
       end;
     ret (jsonify [("total_bookings", VInt total_bookings);
                   ("completed_bookings", VInt completed_bookings);
                   ("pending_bookings", VInt pending_bookings);
                   ("confirmed_bookings", VInt confirmed_bookings);
                   ("total_spent", total_spent);
                   ("member_since", VStr member_since);
                   ("next_booking", next)] 200))
    (fun _ => ret (jsonify [("error", VStr "Error fetching stats")] 500)).

(** The bookings of a user, in table order. *)
Definition user_bookings_of (user : Z) (rows : list Booking.t) : list Booking.t :=
  List.filter (fun b => Booking.user_id b =? user) rows.

(** The booking at position [i] of a user's bookings counts as upcoming:
    it is pending or confirmed and scheduled after the reading of the clock
    taken for it. *)
Definition is_upcoming (cal : calendar) (i : nat) (b : Booking.t) : Prop :=
  tzinfo (Booking.scheduled_date b) = None
  /\ today cal i < ticks (Booking.scheduled_date b)
  /\ (Booking.status b = "confirmed" \/ Booking.status b = "pending").

(** A calendar for the examples: the clock stands at the first of June
    2025, 9:00, and the formatting gives the format back. *)
Definition demo_calendar : calendar :=
  {| today := fun _ => ticks june_1_2025_9am;
     strftime := fun _ format => Ret format |}.

(** One day in microseconds. *)
Definition one_day : Z := 24 * 3600 * 1000000.

(** The sample bookings [init_database] creates for the demo user, when it
    runs on the first of June 2025 at 9:00 and the demo user has the key 1:
    a confirmed mowing in seven days and a fertilization completed thirty
    days ago. *)
Definition sample_bookings : list Booking.t :=
  [ {| Booking.user_id := 1;
       Booking.service_id := 1;
       Booking.scheduled_date :=
         {| ticks := ticks june_1_2025_9am + 7 * one_day; tzinfo := None |};
       Booking.status := "confirmed";
       Booking.special_instructions :=
         VStr "Please trim around the flower beds carefully";
       Booking.total_price := float_of_Z 50 |};
    {| Booking.user_id := 1;
       Booking.service_id := 2;
       Booking.scheduled_date :=
         {| ticks := ticks june_1_2025_9am - 30 * one_day; tzinfo := None |};
       Booking.status := "completed";
       Booking.special_instructions := VStr "Spring fertilization";
       Booking.total_price := float_of_Z 75 |} ].

Definition sample_state : app_state :=
  {| session := ∅; db := {| bookings := sample_bookings; pending := [] |} |}.

(** The bookings with a status the statistics have no figure for. *)
Definition other_status (b : Booking.t) : bool :=
  negb (status_in ["completed"; "pending"; "confirmed"] b).

(** * Accounts *)

(** The columns of [User] the handlers set. An object in memory holds the
    values of the request as they are, so they are Python values; a row
    holds what the storage layer made of them ([stored_row] below). [id]
    and [created_at] are filled in by the storage layer. *)
Module User.
Record t : Type := {
  username : value;
  email : value;
  password_hash : string;
  full_name : value;
  phone : value;
  address : value
}.
End User.

(** What registration and login work on: the committed rows of the user
    table in table order, the objects added to the unit of work and not yet
    committed, the user [login_user] was last called with, and the messages
    flashed so far, each with its category. *)
Record accounts : Type := {
  users : list User.t;
  added : list User.t;
  logged_in : option User.t;
  flashed : list (string * string)
}.

(** The collaborators of registration and login. *)
Record directory : Type := {
  (** [User.query.filter_by(column=key).first()] over the rows of the table *)
  User_query_first : string -> value -> list User.t -> outcome (option User.t);
  (** [generate_password_hash(password)] *)
  generate_password_hash : value -> outcome string;
  (** [check_password_hash(pwhash, password)] *)
  check_password_hash : string -> value -> outcome bool;
  (** whether [db.session.commit()] goes through in this request *)
  commit_outcome : outcome unit;
  (** the row the table holds for an object once a commit has written it,
      which is how the object reads afterwards: the columns are String and
      Text columns, so that a number or a bool bound to one of them reads
      back as text *)
  stored_row : User.t -> User.t
}.

(** A request as [register] and [login] see it. *)
Record form_request : Type := {
  verb : http_method;
  (** [request.is_json] *)
  is_json : bool;
  (** [request.get_json()] *)
  json_body : outcome value;
  (** [request.form.to_dict()] *)
  form : dict
}.

Abbreviation Acc := (M accounts).

(** [bool(v)] *)
Definition py_truthy (v : value) : bool :=
  match v with
  | VNone => false
  | VBool b => b
  | VInt z => negb (z =? 0)
  | VFloat f => negb (float_eqb f (float_of_Z 0))
  | VStr s => negb (String.eqb s "")
  | VList l => match l with [] => false | _ :: _ => true end
  | VDict d => match d with [] => false | _ :: _ => true end
  end.

(** [data = request.get_json() if request.is_json else request.form.to_dict()] *)
Definition request_data (req : form_request) : outcome value :=
  if is_json req then json_body req else Ret (VDict (form req)).

Definition posted (req : form_request) : bool :=
  match verb req with POST => true | GET => false end.

Definition User_query_filter_by (dir : directory) (column : string) (key : value)
    : Acc (option User.t) :=
  fun s => (User_query_first dir column key (users s), s).

Definition users_add (u : User.t) : Acc unit :=
  modify (fun s => {| users := users s;
                      added := added s ++ [u];
                      logged_in := logged_in s;
                      flashed := flashed s |}).

Definition users_commit (dir : directory) : Acc unit :=
  fun s => match commit_outcome dir with
           | Ret _ => (Ret tt, {| users := users s ++ map (stored_row dir) (added s);
                                  added := [];
                                  logged_in := logged_in s;
                                  flashed := flashed s |})
           | Raise e => (Raise e, s)
           end.

Definition users_rollback : Acc unit :=
  modify (fun s => {| users := users s;
                      added := [];
                      logged_in := logged_in s;
                      flashed := flashed s |}).

Definition login_user (u : User.t) : Acc unit :=
  modify (fun s => {| users := users s;
                      added := added s;
                      logged_in := Some u;
                      flashed := flashed s |}).

(** [flash(message, category)] *)
Definition flash (message category : string) : Acc unit :=
  modify (fun s => {| users := users s;
                      added := added s;
                      logged_in := logged_in s;
                      flashed := flashed s ++ [(category, message)] |}).

Definition required_fields : list string :=
  ["username"; "email"; "password"; "full_name"].

(** The loop over the required fields: the first [field] for which
    [not data.get(field)] holds, if there is one. *)
Fixpoint first_missing (data : value) (fields : list string) : outcome (option string) :=
  match fields with
  | [] => Ret None
  | field :: rest =>
      match py_get data field VNone with
      | Raise e => Raise e
      | Ret v => if negb (py_truthy v) then Ret (Some field) else first_missing data rest
      end
  end.

Definition message_response (success : bool) (message : string) : response :=
  jsonify [("success", VBool success); ("message", VStr message)] 200.

Definition is_some {A} (o : option A) : bool :=
  match o with Some _ => true | None => false end.

(** [register] *)
Definition register (dir : directory) (req : form_request) : Acc response :=
  if posted req then
    try_except
      (do data <- lift (request_data req);
       do missing <- lift (first_missing data required_fields);
       match missing with
       | Some field => ret (message_response false (field +:+ " is required"))
       | None =>
           do key <- lift (py_getitem data "email");
           do found <- User_query_filter_by dir "email" key;
           if is_some found then ret (message_response false "Email already registered")
           else
             do key <- lift (py_getitem data "username");
             do found <- User_query_filter_by dir "username" key;
             if is_some found then ret (message_response false "Username already taken")
             else
               do username <- lift (py_getitem data "username");
               do email <- lift (py_getitem data "email");
               do password <- lift (py_getitem data "password");
               do password_hash <- lift (generate_password_hash dir password);
               do full_name <- lift (py_getitem data "full_name");
               do phone <- lift (py_get data "phone" (VStr ""));
               do address <- lift (py_get data "address" (VStr ""));
               let user := {| User.username := username;
                              User.email := email;
                              User.password_hash := password_hash;
                              User.full_name := full_name;
                              User.phone := phone;
                              User.address := address |} in
               users_add user ;;
               users_commit dir ;;
               (* after the commit [user] reads as its row *)
               login_user (stored_row dir user) ;;
               ret (message_response true "Registration successful")
       end)
      (fun _ =>
         users_rollback ;;
         ret (message_response false "Registration failed. Please try again."))
  else ret (render_template "register.html" []).

(** [login]. The [try] block and its handler yield [Some] response when one
    of their [return]s is reached and [None] when control leaves them at
    the end. *)
Definition login (dir : directory) (req : form_request) : Acc response :=
  do returned <-
    (if posted req then
       try_except
         (do data <- lift (request_data req);
          do key <- lift (py_getitem data "email");
          do user <- User_query_filter_by dir "email" key;
          do verified <-
            match user with
            | Some u =>
                do password <- lift (py_getitem data "password");
                do matches <- lift (check_password_hash dir (User.password_hash u) password);
                ret (if matches then Some u else None)
            | None => ret None
            end;
          match verified with
          | Some u =>
              login_user u ;;
              if is_json req
              then ret (Some (message_response true "Login successful"))
              else ret (Some (redirect "dashboard"))
          | None =>
              if is_json req
              then ret (Some (message_response false "Invalid credentials"))
              else flash "Invalid credentials" "error" ;; ret None
          end)
         (fun _ =>
            if is_json req
            then ret (Some (message_response false "Login failed. Please try again."))
            else flash "Login failed. Please try again." "error" ;; ret None)
     else ret None);
  match returned with
  | Some resp => ret resp
  | None => ret (render_template "login.html" [])
  end.

(** ** The profile *)

(** What [update_profile] works on: the attributes of [current_user] in
    memory and the row of that user as committed. *)
Record profile_state : Type := {
  current_user : User.t;
  row : User.t
}.

(** [current_user.attr = v] for the three attributes of the profile. *)
Definition set_full_name (v : value) : M profile_state unit :=
  modify (fun s =>
    {| current_user :=
         {| User.username := User.username (current_user s);
            User.email := User.email (current_user s);
            User.password_hash := User.password_hash (current_user s);
            User.full_name := v;
            User.phone := User.phone (current_user s);
            User.address := User.address (current_user s) |};
       row := row s |}).

Definition set_phone (v : value) : M profile_state unit :=
  modify (fun s =>
    {| current_user :=
         {| User.username := User.username (current_user s);
            User.email := User.email (current_user s);
            User.password_hash := User.password_hash (current_user s);
            User.full_name := User.full_name (current_user s);
            User.phone := v;
            User.address := User.address (current_user s) |};
       row := row s |}).

Definition set_address (v : value) : M profile_state unit :=
  modify (fun s =>
    {| current_user :=
         {| User.username := User.username (current_user s);
            User.email := User.email (current_user s);
            User.password_hash := User.password_hash (current_user s);
            User.full_name := User.full_name (current_user s);
            User.phone := User.phone (current_user s);
            User.address := v |};
       row := row s |}).

(** [db.session.commit()]: the row becomes what the storage layer holds
    for the attributes in memory ([stored], as [stored_row] above), and the
    attributes in memory are expired, so that they read as the row. *)
Definition profile_commit (commit : outcome unit) (stored : User.t -> User.t)
    : M profile_state unit :=
  fun s => match commit with
           | Ret _ => (Ret tt, {| current_user := stored (current_user s);
                                  row := stored (current_user s) |})
           | Raise e => (Raise e, s)
           end.

(** [db.session.rollback()]: the attributes in memory are expired, so that
    they read as the row again. *)
Definition profile_rollback : M profile_state unit :=
  modify (fun s => {| current_user := row s; row := row s |}).

(** [update_profile]; [commit] says whether the commit goes through and
    [stored] what the row then holds. *)
Definition update_profile (commit : outcome unit) (stored : User.t -> User.t)
    (req : request) : M profile_state response :=
  try_except
    (do data <- lift (get_json req);
     do s <- get_state;
     do full_name <- lift (py_get data "full_name" (User.full_name (current_user s)));
     set_full_name full_name ;;
     do s <- get_state;
     do phone <- lift (py_get data "phone" (User.phone (current_user s)));
     set_phone phone ;;
     do s <- get_state;
     do address <- lift (py_get data "address" (User.address (current_user s)));
     set_address address ;;
     profile_commit commit stored ;;
     ret (message_response true "Profile updated successfully"))
    (fun _ =>
       profile_rollback ;;
       ret (message_response false "Error updating profile")).

(** [body.get(k, old)] for a dict. *)
Definition field_or (body : dict) (k : string) (old : value) : value :=
  match dict_get body k with Some v => v | None => old end.

(** The attributes of a user after the three assignments of
    [update_profile] from the body [d]. *)
Definition with_profile (u : User.t) (d : dict) : User.t :=
  {| User.username := User.username u;
     User.email := User.email u;
     User.password_hash := User.password_hash u;
     User.full_name := field_or d "full_name" (User.full_name u);
     User.phone := field_or d "phone" (User.phone u);
     User.address := field_or d "address" (User.address u) |}.

(** The object [register] builds from the data of a request. *)
Definition new_user (username email : value) (password_hash : string)
    (full_name phone address : value) : User.t :=
  {| User.username := username;
     User.email := email;
     User.password_hash := password_hash;
     User.full_name := full_name;
     User.phone := phone;
     User.address := address |}.

(** ** Concrete collaborators for the examples *)

Definition value_is (text : string) (v : value) : bool :=
  match v with VStr s => String.eqb s text | _ => false end.

(** What a text column holds for a value in the examples: text as it is,
    and an integer in decimal. *)
Definition as_text (v : value) : value :=
  match v with
  | VInt z => VStr (pretty z)
  | _ => v
  end.

Definition text_row (u : User.t) : User.t :=
  {| User.username := as_text (User.username u);
     User.email := as_text (User.email u);
     User.password_hash := User.password_hash u;
     User.full_name := as_text (User.full_name u);
     User.phone := as_text (User.phone u);
     User.address := as_text (User.address u) |}.

(** A directory that compares strings, whose hash of a password is the
    password, and whose commit goes through. *)
Definition demo_directory : directory :=
  {| User_query_first := fun column key rows =>
       match key with
       | VStr text =>
           Ret (find (fun u =>
                        value_is text
                          (if String.eqb column "email" then User.email u
                           else User.username u))
                  rows)
       | _ => Ret None
       end;
     generate_password_hash := fun password =>
       match password with VStr s => Ret s | _ => Raise AttributeError end;
     check_password_hash := fun pwhash password =>
       match password with VStr s => Ret (String.eqb pwhash s) | _ => Raise AttributeError end;
     commit_outcome := Ret tt;
     stored_row := text_row |}.

(** The demo user [init_database] creates. *)
Definition demo_user : User.t :=
  {| User.username := VStr "demo_user";
     User.email := VStr "demo@dudeandirt.com";
     User.password_hash := "demo123";
     User.full_name := VStr "Demo User";
     User.phone := VStr "(555) 123-4567";
     User.address := VStr "123 Demo Street, Demo City, DC 12345" |}.

Definition demo_accounts : accounts :=
  {| users := [demo_user]; added := []; logged_in := None; flashed := [] |}.

Definition json_post (body : dict) : form_request :=
  {| verb := POST; is_json := true; json_body := Ret (VDict body); form := [] |}.

Definition demo_profile : profile_state :=
  {| current_user := demo_user; row := demo_user |}.
(** * Properties of the booking wizard *)

Ltac unfold_app :=
  unfold session_contains, session_getitem, session_setitem, session_pop,
    db_session_add, db_session_commit, db_session_rollback,
    try_except, bind, ret, raise, lift, modify, get_state in *.

Lemma py_getitem_dict v k x :
  py_getitem v k = Ret x -> exists d, v = VDict d /\ dict_get d k = Some x.
Proof.
  destruct v; simpl; try discriminate.
  destruct (dict_get d k) eqn:E; intros H; inversion H; subst; eauto.
Qed.

Lemma py_getitem_contains v k x :
  py_getitem v k = Ret x -> py_contains k v = Ret true.
Proof.
  intros H. apply py_getitem_dict in H as (d & -> & H).
  simpl. unfold dict_mem. now rewrite H.
Qed.

(** Selecting a service overwrites the draft, whatever the session holds. *)
Lemma booking_step2_service req s data service_id service_name price :
  method req = POST ->
  get_json req = Ret data ->
  py_getitem data "service_id" = Ret service_id ->
  py_getitem data "service_name" = Ret service_name ->
  py_getitem data "price" = Ret price ->
  booking_step2 req s =
    (Ret ok_response,
     {| session := <["booking_data" :=
                      VDict [("service_id", service_id);
                             ("service_name", service_name);
                             ("price", price)]]> (session s);
        db := db s |}).
Proof.
  intros Hm Hj Hid Hname Hprice.
  unfold booking_step2, is_post. rewrite Hm, Hj.
  unfold_app. rewrite (py_getitem_contains _ _ _ Hid), Hid, Hname, Hprice.
  reflexivity.
Qed.

Lemma py_getitem_get v k x default :
  py_getitem v k = Ret x -> py_get v k default = Ret x.
Proof.
  intros H. apply py_getitem_dict in H as (d & -> & H). simpl. now rewrite H.
Qed.

(** Attaching products to an existing draft. *)
Lemma booking_step2_products req s data d products total :
  method req = POST ->
  get_json req = Ret data ->
  py_contains "service_id" data = Ret false ->
  py_getitem data "products" = Ret products ->
  py_get data "products_total" (VInt 0) = Ret total ->
  session s !! "booking_data" = Some (VDict d) ->
  booking_step2 req s =
    (Ret ok_response,
     {| session := <["booking_data" :=
                      VDict (dict_set (dict_set d "products" products)
                                      "products_total" total)]> (session s);
        db := db s |}).
Proof.
  intros Hm Hj Hno Hp Ht Hs.
  unfold booking_step2, is_post. rewrite Hm, Hj.
  unfold_app. rewrite Hno, (py_getitem_contains _ _ _ Hp), Hp.
  repeat first [ progress cbn [session db negb py_setitem]
               | rewrite Hs | rewrite Ht
               | rewrite lookup_insert_eq | rewrite insert_insert_eq ].
  reflexivity.
Qed.


(** The Finalizer on a complete draft whose commit goes through. *)
Lemma booking_step4_confirm env req s draft key service date time at_ total instructions :
  method req = POST ->
  session s !! "booking_data" = Some draft ->
  py_getitem draft "service_id" = Ret key ->
  Service_query_get env key = Ret (Some service) ->
  py_getitem draft "scheduled_date" = Ret date ->
  py_getitem draft "scheduled_time" = Ret time ->
  strptime env (py_str env date +:+ " " +:+ py_str env time) "%Y-%m-%d %H:%M" = Ret at_ ->
  py_float_add (Service.price service)
    (match py_get draft "products_total" (VInt 0) with Ret v => v | Raise _ => VNone end)
    = Ret total ->
  py_get draft "special_instructions" (VStr "") = Ret instructions ->
  commit_result env = Ret tt ->
  booking_step4 env req s =
    (Ret confirmed_response,
     {| session := delete "booking_data" (session s);
        db := {| bookings :=
                   bookings (db s) ++ pending (db s) ++
                   [{| Booking.user_id := current_user_id env;
                       Booking.service_id := Service.id service;
                       Booking.scheduled_date := at_;
                       Booking.status := "confirmed";
                       Booking.special_instructions := instructions;
                       Booking.total_price := total |}];
                 pending := [] |} |}).
Proof.
  intros Hm Hs Hk Hq Hd Ht Hp Hsum Hi Hc.
  unfold booking_step4, is_post. rewrite Hm.
  unfold_app.
  repeat first [ progress cbn [session db negb]
               | rewrite Hs | rewrite Hk | rewrite Hq | rewrite Hd | rewrite Ht
               | rewrite Hp ].
  destruct (py_getitem_dict _ _ _ Hk) as (d & -> & _).
  cbn [py_get] in *.
  destruct (dict_get d "products_total") as [v|]; rewrite Hsum;
    rewrite Hi; cbn [session db bookings pending]; rewrite Hc;
    reflexivity.
Qed.

(** What a confirmed Finalizer call has done: every step of the handler
    went through, on these intermediate values. *)
Lemma booking_step4_confirmed_inv env req s s' :
  booking_step4 env req s = (Ret confirmed_response, s') ->
  exists draft key service date time at_ products_total total instructions,
    method req = POST /\
    session s !! "booking_data" = Some draft /\
    py_getitem draft "service_id" = Ret key /\
    Service_query_get env key = Ret (Some service) /\
    py_getitem draft "scheduled_date" = Ret date /\
    py_getitem draft "scheduled_time" = Ret time /\
    strptime env (py_str env date +:+ " " +:+ py_str env time) "%Y-%m-%d %H:%M" = Ret at_ /\
    py_get draft "products_total" (VInt 0) = Ret products_total /\
    py_float_add (Service.price service) products_total = Ret total /\
    py_get draft "special_instructions" (VStr "") = Ret instructions /\
    commit_result env = Ret tt /\
    s' = {| session := delete "booking_data" (session s);
            db := {| bookings :=
                       bookings (db s) ++ pending (db s) ++
                       [{| Booking.user_id := current_user_id env;
                           Booking.service_id := Service.id service;
                           Booking.scheduled_date := at_;
                           Booking.status := "confirmed";
                           Booking.special_instructions := instructions;
                           Booking.total_price := total |}];
                     pending := [] |} |}.
Proof.
  unfold booking_step4, is_post, confirmed_response, fail_response. unfold_app.
  destruct (session s !! "booking_data") as [draft|] eqn:Hs;
    cbn [negb]; [|discriminate].
  destruct (method req) eqn:Hm; cbn [session db]; rewrite Hs; [discriminate|].
  destruct (py_getitem draft "service_id") as [key|] eqn:Hk; [|discriminate].
  destruct (Service_query_get env key) as [[service|]|] eqn:Hq; try discriminate.
  destruct (py_getitem draft "scheduled_date") as [date|] eqn:Hd; [|discriminate].
  destruct (py_getitem draft "scheduled_time") as [time|] eqn:Ht; [|discriminate].
  destruct (strptime env _ _) as [at_|] eqn:Hp; [|discriminate].
  destruct (py_get draft "products_total" (VInt 0)) as [pt|] eqn:Hpt; [|discriminate].
  destruct (py_float_add _ pt) as [total|] eqn:Hsum; [|discriminate].
  destruct (py_get draft "special_instructions" _) as [instructions|] eqn:Hi;
    [|discriminate].
  cbn [session db bookings pending].
  destruct (commit_result env) as [[]|] eqn:Hc; [|discriminate].
  intros [= <-].
  exists draft, key, service, date, time, at_, pt, total, instructions.
  repeat split; assumption.
Qed.

(** Whatever else a Finalizer call answers, it answers without raising and
    leaves a state with nothing pending as it found it. *)
Lemma booking_step4_unconfirmed env req s r s' :
  pending (db s) = [] ->
  booking_step4 env req s = (r, s') ->
  r <> Ret confirmed_response ->
  s' = s /\
  (r = Ret (redirect "booking_step1")
   \/ r = Ret (fail_response "Service not found")
   \/ r = Ret (fail_response "Error confirming booking")
   \/ method req = GET).
Proof.
  intros Hpend. destruct s as [sess [rows pend]]. cbn in Hpend. subst pend.
  unfold booking_step4, is_post. unfold_app. cbn [session db bookings pending].
  destruct (sess !! "booking_data") as [draft|] eqn:Hs; cbn [negb].
  2:{ intros [= <- <-] _. auto. }
  destruct (method req) eqn:Hm; cbn [session db bookings pending]; rewrite ?Hs.
  { intros [= <- <-] _. auto 6. }
  assert (Hfail : forall (x : response) (st : app_state),
             st = {| session := sess; db := {| bookings := rows; pending := [] |} |} ->
             (x = fail_response "Service not found"
              \/ x = fail_response "Error confirming booking") ->
             (Ret x, st) = (r, s') -> r <> Ret confirmed_response ->
             s' = {| session := sess; db := {| bookings := rows; pending := [] |} |}
             /\ (r = Ret (redirect "booking_step1")
                 \/ r = Ret (fail_response "Service not found")
                 \/ r = Ret (fail_response "Error confirming booking")
                 \/ POST = GET)).
  { intros x st -> Hx [= <- <-] _. split; [reflexivity|].
    destruct Hx as [-> | ->]; auto. }
  destruct (py_getitem draft "service_id") as [key|]; [|apply Hfail; auto].
  destruct (Service_query_get env key) as [[service|]|]; try (apply Hfail; now auto).
  destruct (py_getitem draft "scheduled_date") as [date|]; [|apply Hfail; auto].
  destruct (py_getitem draft "scheduled_time") as [time|]; [|apply Hfail; auto].
  destruct (strptime env _ _) as [at_|]; [|apply Hfail; auto].
  destruct (py_get draft "products_total" (VInt 0)) as [pt|]; [|apply Hfail; auto].
  destruct (py_float_add _ pt) as [total|]; [|apply Hfail; auto].
  destruct (py_get draft "special_instructions" _) as [instructions|];
    [|apply Hfail; auto].
  cbn [session db bookings pending].
  destruct (commit_result env) as [[]|]; [|apply Hfail; auto].
  intros [= <- <-] Hne. now contradiction Hne.
Qed.

(** The Finalizer on a complete draft whose commit raises: the pending
    booking is rolled back and the draft stays. *)
Lemma booking_step4_commit_fails env req s draft key service date time at_
    products_total total instructions e :
  method req = POST ->
  session s !! "booking_data" = Some draft ->
  py_getitem draft "service_id" = Ret key ->
  Service_query_get env key = Ret (Some service) ->
  py_getitem draft "scheduled_date" = Ret date ->
  py_getitem draft "scheduled_time" = Ret time ->
  strptime env (py_str env date +:+ " " +:+ py_str env time) "%Y-%m-%d %H:%M" = Ret at_ ->
  py_get draft "products_total" (VInt 0) = Ret products_total ->
  py_float_add (Service.price service) products_total = Ret total ->
  py_get draft "special_instructions" (VStr "") = Ret instructions ->
  commit_result env = Raise e ->
  booking_step4 env req s =
    (Ret (fail_response "Error confirming booking"),
     {| session := session s;
        db := {| bookings := bookings (db s); pending := [] |} |}).
Proof.
  intros Hm Hs Hk Hq Hd Ht Hp Hpt Hsum Hi Hc.
  unfold booking_step4, is_post. rewrite Hm.
  unfold_app.
  repeat first [ progress cbn [session db negb bookings pending]
               | rewrite Hs | rewrite Hk | rewrite Hq | rewrite Hd | rewrite Ht
               | rewrite Hp | rewrite Hpt | rewrite Hsum | rewrite Hi | rewrite Hc ].
  reflexivity.
Qed.

Lemma booking_step4_no_draft env req s :
  session s !! "booking_data" = None ->
  booking_step4 env req s = (Ret (redirect "booking_step1"), s).
Proof.
  intros Hs. unfold booking_step4. unfold_app. now rewrite Hs.
Qed.

Lemma booking_step3_no_draft req s :
  (method req = POST -> exists data, get_json req = Ret data) ->
  session s !! "booking_data" = None ->
  (booking_step3 req s = (Ret (fail_response "No booking data found"), s)
   /\ method req = POST)
  \/ (booking_step3 req s = (Ret (redirect "booking_step1"), s)
      /\ method req = GET).
Proof.
  intros Hj Hs. unfold booking_step3, is_post. unfold_app.
  destruct (method req).
  - right. now rewrite Hs.
  - left. destruct Hj as [data ->]; [reflexivity|]. now rewrite Hs.
Qed.

Lemma booking_step2_no_draft_get req s :
  method req = GET ->
  session s !! "booking_data" = None ->
  booking_step2 req s = (Ret (redirect "booking_step1"), s).
Proof.
  intros Hm Hs. unfold booking_step2, is_post. rewrite Hm.
  unfold_app. now rewrite Hs.
Qed.

Lemma booking_step2_no_draft_products req s data products :
  method req = POST ->
  get_json req = Ret data ->
  py_contains "service_id" data = Ret false ->
  py_getitem data "products" = Ret products ->
  session s !! "booking_data" = None ->
  booking_step2 req s = (Ret (fail_response "No booking data found"), s).
Proof.
  intros Hm Hj Hno Hp Hs. unfold booking_step2, is_post. rewrite Hm, Hj.
  unfold_app. rewrite Hno, (py_getitem_contains _ _ _ Hp). cbn [session].
  now rewrite Hs.
Qed.

(** An operation other than [chooseService], issued without a draft, is
    answered with the no-draft response and changes nothing. *)
Lemma perform_no_draft env op s :
  is_chooseService op = false ->
  session s !! "booking_data" = None ->
  exists r, perform env op s = (r, s) /\ no_draft_response r.
Proof.
  intros Hop Hs. unfold no_draft_response.
  destruct op as [? ? ?|products total|date time instructions|[] |];
    try discriminate; cbn [perform].
  - eexists; split; [|left; reflexivity].
    eapply booking_step2_no_draft_products; try reflexivity; try assumption.
    destruct total; reflexivity.
  - destruct (booking_step3_no_draft
                (http_post (("scheduled_date", date) :: ("scheduled_time", time)
                            :: optional_field "special_instructions" instructions))
                s) as [[-> _] | [_ [=]]]; eauto.
  - eexists; split; [|right; reflexivity].
    now apply booking_step2_no_draft_get.
  - destruct (booking_step3_no_draft http_get s) as [[_ [=]] | [-> _]]; eauto.
    intros [=].
  - eexists; split; [|right; reflexivity]. now apply booking_step4_no_draft.
  - eexists; split; [|right; reflexivity]. now apply booking_step4_no_draft.
Qed.

(** The products page is a second way into the wizard: after it, products
    can be attached although no service was chosen. *)
Lemma products_page_starts_a_draft env s chosen total :
  exists s1 s2,
    products s = (Ret (render_template "products.html" []), s1)
    /\ session s1 !! "booking_data"
       = Some (VDict [("service_id", VInt 1);
                      ("service_name", VStr "Product Purchase");
                      ("price", VInt 0)])
    /\ perform env (chooseProducts chosen total) s1 = (Ret ok_response, s2).
Proof.
  destruct total as [total|];
    (eexists _, _; split; [reflexivity|];
     cbn [session]; split; [apply lookup_insert_eq|];
     cbn [perform];
     eapply booking_step2_products;
     [reflexivity | reflexivity | reflexivity | reflexivity | reflexivity
     | cbn [session]; apply lookup_insert_eq]).
Qed.

(** ** The session between requests *)

Ltac unfold_tracked :=
  unfold serve, Tracked.session_contains, Tracked.session_getitem,
    Tracked.session_setitem, Tracked.session_changed_in_place, Tracked.session_pop,
    Tracked.db_session_add, Tracked.db_session_commit, Tracked.db_session_rollback,
    unflagged, flagged in *.

(** Case analysis on the scrutinees of a goal, outermost first. *)
Ltac crunch :=
  repeat (cbn [live modified session db bookings pending fst snd negb orb];
          match goal with
          | |- context [match ?x with _ => _ end] =>
              lazymatch x with
              | context [match _ with _ => _ end] => fail
              | _ => destruct x eqn:?
              end
          end);
  cbn [live modified session db bookings pending fst snd negb orb].

(** The Finalizer changes the session by its [pop] alone, so the cookie
    after its request is the session object it left. *)
Lemma serve_booking_step4 env req s :
  serve (Tracked.booking_step4 env req) s = booking_step4 env req s.
Proof.
  destruct s as [sess d].
  unfold Tracked.booking_step4, booking_step4, is_post. unfold_tracked. unfold_app.
  crunch; try reflexivity; try (cbn in *; congruence).
Qed.

(** Step 3 changes the session only inside the draft, so the cookie after
    its request is the cookie before, and it never touches the database. *)
Lemma serve_booking_step3 req s :
  serve (Tracked.booking_step3 req) s = (fst (booking_step3 req s), s).
Proof.
  destruct s as [sess d].
  unfold Tracked.booking_step3, booking_step3, is_post. unfold_tracked. unfold_app.
  crunch; try reflexivity; try (cbn in *; congruence).
Qed.

(** Step 2 assigns to the session when the request selects a service and
    changes it only inside the draft otherwise. *)
Lemma serve_booking_step2 req s :
  serve (Tracked.booking_step2 req) s
  = (fst (booking_step2 req s),
     if selects_service req then snd (booking_step2 req s) else s).
Proof.
  destruct s as [sess d].
  unfold Tracked.booking_step2, booking_step2, selects_service, is_post.
  unfold_tracked. unfold_app.
  crunch; try reflexivity; try (cbn in *; congruence).
Qed.


(** Without a draft, an operation other than the service selection is
    answered with the no-draft response and leaves the cookie and the
    database as they are. *)
Lemma serve_no_draft env op s :
  is_chooseService op = false ->
  session s !! "booking_data" = None ->
  exists r, serve (tracked_perform env op) s = (r, s) /\ no_draft_response r.
Proof.
  intros Hop Hs. destruct (perform_no_draft env op s Hop Hs) as (r & Hrun & Hr).
  exists r. split; [|exact Hr].
  destruct op as [? ? ?|? ?|? ? ?|[| |]|]; try discriminate;
    cbn [tracked_perform perform] in *;
    rewrite ?serve_booking_step2, ?serve_booking_step3, ?serve_booking_step4, ?Hrun;
    cbn [fst snd]; try reflexivity;
    match goal with |- context [if ?b then _ else _] => now destruct b end.
Qed.

(** ** The claims about the booking wizard *)

(** C1, the write fails: when the commit raises on a draft that a working
    commit would confirm, the Finalizer reports "Error confirming booking"
    and the state is as before the call: the pending booking is rolled
    back, no booking row exists and the draft is intact. C1, success: a
    confirmed call had a working commit, added exactly one booking row and
    deleted the draft. C1, in general: a call that does not confirm answers
    without raising and changes nothing. *)
Theorem finalizer_is_atomic env req s :
  method req = POST ->
  pending (db s) = [] ->
  (forall e s_ok,
     commit_result env = Raise e ->
     booking_step4 (with_commit env (Ret tt)) req s = (Ret confirmed_response, s_ok) ->
     booking_step4 env req s = (Ret (fail_response "Error confirming booking"), s))
  /\ (forall s',
        booking_step4 env req s = (Ret confirmed_response, s') ->
        commit_result env = Ret tt
        /\ (exists b, db s' = {| bookings := bookings (db s) ++ [b]; pending := [] |})
        /\ session s' = delete "booking_data" (session s))
  /\ (forall r s',
        booking_step4 env req s = (r, s') ->
        r <> Ret confirmed_response ->
        s' = s /\ exists x, r = Ret x /\ x <> confirmed_response).
Proof.
  intros Hm Hpend. split; [|split].
  - intros e s_ok Hc Hok.
    apply booking_step4_confirmed_inv in Hok
      as (draft & key & service & date & time & at_ & pt & total & instr
          & _ & Hs & Hk & Hq & Hd & Ht & Hp & Hpt & Hsum & Hi & _ & _).
    cbn [with_commit Service_query_get strptime str_of_object py_str] in *.
    rewrite (booking_step4_commit_fails env req s draft key service date time at_
               pt total instr e); try assumption.
    destruct s as [sess [rows pend]]. cbn in *. now subst.
  - intros s' Hok.
    apply booking_step4_confirmed_inv in Hok
      as (draft & key & service & date & time & at_ & pt & total & instr
          & _ & Hs & Hk & Hq & Hd & Ht & Hp & Hpt & Hsum & Hi & Hc & ->).
    cbn [session db]. rewrite Hpend. cbn [app]. eauto.
  - intros r s' Hrun Hne.
    destruct (booking_step4_unconfirmed env req s r s' Hpend Hrun Hne)
      as [-> Hr].
    split; [reflexivity|].
    destruct Hr as [-> | [-> | [-> | Hget]]];
      try (eexists; split; [reflexivity | discriminate]).
    congruence.
Qed.

Lemma finalizer_is_atomic_witness :
  booking_step4 (demo_env (Raise DatabaseError)) (http_post []) scenario_state
  = (Ret (fail_response "Error confirming booking"), scenario_state).
Proof.
  destruct (finalizer_is_atomic (demo_env (Raise DatabaseError)) (http_post [])
              scenario_state eq_refl eq_refl) as [Hfails _].
  eapply (Hfails DatabaseError); [reflexivity | vm_compute; reflexivity].
Defined.

(** C5: after a confirmed Finalizer call the draft is gone, so the next
    Finalizer call, whatever its request and collaborators, is answered
    with the redirect to step 1 and changes nothing. *)
Theorem second_confirm_redirects env1 env2 req1 req2 s s1 :
  booking_step4 env1 req1 s = (Ret confirmed_response, s1) ->
  session s1 !! "booking_data" = None
  /\ booking_step4 env2 req2 s1 = (Ret (redirect "booking_step1"), s1).
Proof.
  intros Hok.
  apply booking_step4_confirmed_inv in Hok
    as (draft & key & service & date & time & at_ & pt & total & instr
        & _ & _ & _ & _ & _ & _ & _ & _ & _ & _ & _ & ->).
  assert (Hgone : delete "booking_data" (session s) !! "booking_data" = None)
    by apply lookup_delete_eq.
  split; [exact Hgone|]. now apply booking_step4_no_draft.
Qed.

Lemma second_confirm_redirects_witness :
  exists s1,
    booking_step4 (demo_env (Ret tt)) (http_post []) scenario_state
      = (Ret confirmed_response, s1)
    /\ booking_step4 (demo_env (Ret tt)) (http_post []) s1
      = (Ret (redirect "booking_step1"), s1).
Proof.
  eexists. split; [vm_compute; reflexivity|].
  eapply (second_confirm_redirects (demo_env (Ret tt)) (demo_env (Ret tt))
            (http_post []) (http_post []) scenario_state).
  vm_compute; reflexivity.
Defined.

(** C6: in a client session that starts without a draft and never calls
    [chooseService], every operation is answered with the no-draft
    response ("No booking data found" or the redirect to step 1), and the
    state at the end is the state at the start: no draft, no booking. *)
Theorem no_draft_without_chooseService (ops : list (environment * draft_op)) s :
  session s !! "booking_data" = None ->
  forallb (fun step => negb (is_chooseService (snd step))) ops = true ->
  exists rs,
    perform_all ops s = (rs, s)
    /\ length rs = length ops
    /\ Forall no_draft_response rs.
Proof.
  intros Hs. induction ops as [|[env op] ops IH]; cbn [forallb perform_all snd].
  - intros _. exists []. repeat split. constructor.
  - intros [Hop Hrest]%andb_prop. apply negb_true_iff in Hop.
    destruct (serve_no_draft env op s Hop Hs) as (r & -> & Hr).
    destruct (IH Hrest) as (rs & -> & Hlen & Hall).
    exists (r :: rs). cbn [length]. repeat split; [congruence | now constructor].
Qed.

Lemma no_draft_without_chooseService_witness :
  perform_all
    [ (demo_env (Ret tt), chooseProducts (VList []) (Some (VInt 0)));
      (demo_env (Ret tt), schedule (VStr "2025-06-01") (VStr "09:00") None);
      (demo_env (Ret tt), confirm) ]
    empty_state
  = ([ Ret (fail_response "No booking data found");
       Ret (fail_response "No booking data found");
       Ret (redirect "booking_step1") ],
     empty_state).
Proof.
  destruct (no_draft_without_chooseService
              [ (demo_env (Ret tt), chooseProducts (VList []) (Some (VInt 0)));
                (demo_env (Ret tt), schedule (VStr "2025-06-01") (VStr "09:00") None);
                (demo_env (Ret tt), confirm) ]
              empty_state eq_refl eq_refl) as (rs & Hrun & _ & _).
  rewrite Hrun. vm_compute in Hrun. now inversion Hrun.
Defined.

(** C10, as stated, fails: a request that carries [service_id] without
    [service_name] is answered "Error processing request", and the session
    stays as it was. *)
Lemma service_id_alone_is_rejected :
  py_contains "service_id" (VDict [("service_id", VInt 1)]) = Ret true
  /\ booking_step2 (http_post [("service_id", VInt 1)]) empty_state
     = (Ret (fail_response "Error processing request"), empty_state)
  /\ fail_response "Error processing request" <> ok_response.
Proof.
  split; [reflexivity|]. split; [vm_compute; reflexivity | discriminate].
Qed.

(** C10, amended: a POST whose body carries [service_id], [service_name]
    and [price] succeeds from every session state; afterwards the draft is
    the dict of exactly these three fields, so it has none of the fields a
    prior draft held, every other session key is as before and so is the
    database. *)
Theorem choose_service_replaces_draft req s data service_id service_name price :
  method req = POST ->
  get_json req = Ret data ->
  py_getitem data "service_id" = Ret service_id ->
  py_getitem data "service_name" = Ret service_name ->
  py_getitem data "price" = Ret price ->
  exists s',
    booking_step2 req s = (Ret ok_response, s')
    /\ session s' !! "booking_data"
       = Some (VDict [("service_id", service_id);
                      ("service_name", service_name);
                      ("price", price)])
    /\ (forall k, k <> "booking_data" -> session s' !! k = session s !! k)
    /\ db s' = db s.
Proof.
  intros Hm Hj Hid Hname Hprice.
  eexists. split.
  { exact (booking_step2_service req s data service_id service_name price
             Hm Hj Hid Hname Hprice). }
  cbn [session db]. split; [apply lookup_insert_eq|].
  split; [|reflexivity]. intros k Hk. now apply lookup_insert_ne.
Qed.

Lemma choose_service_replaces_draft_witness :
  exists s',
    booking_step2
      (http_post [("service_id", VInt 1); ("service_name", VStr "Lawn Mowing");
                  ("price", VFloat (float_of_Z 50))])
      scenario_state = (Ret ok_response, s')
    /\ session s' !! "booking_data"
       = Some (VDict [("service_id", VInt 1); ("service_name", VStr "Lawn Mowing");
                      ("price", VFloat (float_of_Z 50))]).
Proof.
  destruct (choose_service_replaces_draft
              (http_post [("service_id", VInt 1); ("service_name", VStr "Lawn Mowing");
                          ("price", VFloat (float_of_Z 50))])
              scenario_state _ (VInt 1) (VStr "Lawn Mowing") (VFloat (float_of_Z 50))
              eq_refl eq_refl eq_refl eq_refl eq_refl)
    as (s' & Hrun & Hdraft & _).
  exists s'. split; assumption.
Defined.

(** The sum the scenario computes. *)
Lemma sixty_five_plus_45_99 :
  float_add (float_of_Z 65) (dec2 4599) = float_110_99000000000001
  /\ dec2 11099 = S754_finite false 7810226916278927 (-46).
Proof. split; vm_compute; reflexivity. Qed.

(** When a Finalizer call is confirmed, it has added one booking with
    status "confirmed" whose [total_price] is the price of the service the
    draft's [service_id] refers to plus the draft's [products_total], taken
    as the integer 0 when the draft has none, the sum being Python's float
    addition. *)
Lemma finalizer_charges_price_plus_products env req s s' :
  pending (db s) = [] ->
  booking_step4 env req s = (Ret confirmed_response, s') ->
  exists draft key service b,
    session s !! "booking_data" = Some (VDict draft)
    /\ dict_get draft "service_id" = Some key
    /\ Service_query_get env key = Ret (Some service)
    /\ bookings (db s') = bookings (db s) ++ [b]
    /\ Booking.status b = "confirmed"
    /\ py_float_add (Service.price service)
         (match dict_get draft "products_total" with
          | Some total => total
          | None => VInt 0
          end)
       = Ret (Booking.total_price b).
Proof.
  intros Hpend Hok.
  apply booking_step4_confirmed_inv in Hok
    as (draft & key & service & date & time & at_ & pt & total & instr
        & _ & Hs & Hk & Hq & _ & _ & _ & Hpt & Hsum & _ & _ & ->).
  apply py_getitem_dict in Hk as (d & -> & Hk).
  eexists d, key, service, _. cbn [session db bookings].
  rewrite Hpend. cbn [app Booking.status Booking.total_price].
  repeat split; try eassumption.
  cbn [py_get] in Hpt.
  destruct (dict_get d "products_total"); injection Hpt as <-; exact Hsum.
Qed.

(** C2: the scenario of the specification does not produce a booking. On
    the freshly initialised database, with every collaborator working, the
    service selection, the products selection and the schedule are each
    answered [success: true], but the products and the schedule are changes
    made inside the draft, which the session cookie does not keep; the
    Finalizer receives the draft of the service selection, finds no
    [scheduled_date] in it and answers "Error confirming booking". No
    booking exists afterwards and the draft of the service selection is
    still in the session. *)
Theorem scenario_confirm_is_refused :
  perform_all (map (pair (demo_env (Ret tt))) scenario) empty_state
  = ([Ret ok_response; Ret ok_response; Ret ok_response;
      Ret (fail_response "Error confirming booking")],
     {| session :=
          {["booking_data" := VDict [("service_id", VInt 3);
                                     ("service_name", VStr "Weed Control");
                                     ("price", VFloat (float_of_Z 65))]]};
        db := {| bookings := []; pending := [] |} |}).
Proof. vm_compute. reflexivity. Qed.

(** * Properties of the weather gateway *)

Ltac unfold_w :=
  unfold load_weather_cache, save_weather_cache, is_cache_valid,
    open_for_writing, datetime_now, record_event, set_cache_file,
    try_except, try_except_on, bind, ret, raise, lift, modify, get_state in *.

Lemma append_assoc (a b c : string) : (a +:+ b) +:+ c = a +:+ (b +:+ c).
Proof.
  induction a as [|x a IH]; [reflexivity|].
  change (String x ((a +:+ b) +:+ c) = String x (a +:+ (b +:+ c))). congruence.
Qed.

Lemma append_empty_r (a : string) : a +:+ "" = a.
Proof.
  induction a as [|x a IH]; [reflexivity|].
  change (String x (a +:+ "") = String x a). congruence.
Qed.

Lemma concat_cons (x : string) (l : list string) :
  String.concat "" (x :: l) = x +:+ String.concat "" l.
Proof.
  destruct l as [|y l]; cbn [String.concat]; [now rewrite append_empty_r|].
  reflexivity.
Qed.

(** [load_weather_cache] never raises and touches nothing. *)
Lemma load_weather_cache_loaded lib io w :
  load_weather_cache lib io w = (Ret (loaded lib io w), w).
Proof.
  unfold loaded. unfold_w.
  destruct (cache_file w) as [text|]; [|reflexivity].
  destruct (read_fault io); [reflexivity|].
  destruct (json_load lib text); reflexivity.
Qed.

(** [is_cache_valid] never raises; it reads the clock at most once and
    says yes only for a naive time less than two hours before that
    reading. *)
Lemma is_cache_valid_spec lib cached_time w :
  exists b w',
    is_cache_valid lib cached_time w = (Ret b, w')
    /\ cache_file w' = cache_file w
    /\ events w' = events w
    /\ (clock_reads w <= clock_reads w' <= S (clock_reads w))%nat
    /\ (b = true ->
        exists t, fromisoformat lib cached_time = Ret t
                  /\ tzinfo t = None
                  /\ clock lib (clock_reads w) - ticks t < two_hours).
Proof.
  unfold_w. unfold datetime_sub. cbn [ticks tzinfo].
  destruct (fromisoformat lib cached_time) as [t|e].
  2:{ eexists _, _. repeat split; try lia; discriminate. }
  destruct (tzinfo t) as [offset|] eqn:Htz.
  { eexists _, _. repeat split; cbn; try lia; discriminate. }
  eexists _, _. split; [reflexivity|]. repeat split; cbn; try lia.
  intros Hlt%Z.ltb_lt. exists t. auto.
Qed.

(** A fresh entry is found valid. *)
Lemma is_cache_valid_fresh lib cached_time w t :
  fromisoformat lib cached_time = Ret t ->
  tzinfo t = None ->
  clock lib (clock_reads w) - ticks t < two_hours ->
  is_cache_valid lib cached_time w
  = (Ret true, {| cache_file := cache_file w;
                  clock_reads := S (clock_reads w);
                  events := events w |}).
Proof.
  intros Hparse Htz Hlt. unfold_w. unfold datetime_sub. cbn [ticks tzinfo].
  rewrite Hparse, Htz. apply Z.ltb_lt in Hlt. now rewrite Hlt.
Qed.

(** Writing chunks appends them to the file until the failing write. *)
Lemma write_chunks_spec io chunks : forall k text w,
  cache_file w = Some text ->
  exists o n,
    write_chunks io k chunks w
    = (o, {| cache_file := Some (text +:+ written chunks n);
             clock_reads := clock_reads w;
             events := events w |})
    /\ (n <= length chunks)%nat
    /\ (write_fault io = None -> n = length chunks /\ o = Ret tt)
    /\ (forall j, write_fault io = Some j ->
          (n = j - k /\ k <= j < k + length chunks /\ o = Raise OSError)%nat
          \/ (n = length chunks /\ (j < k \/ k + length chunks <= j)%nat /\ o = Ret tt)).
Proof.
  induction chunks as [|chunk rest IH]; intros k text w Hfile.
  - exists (Ret tt), 0%nat. cbn. rewrite append_empty_r.
    destruct w; cbn in *; subst. repeat split; auto.
    intros j _. right. repeat split. lia.
  - cbn [write_chunks]. unfold bind at 1. unfold file_write at 1.
    case_bool_decide as Hfault.
    + exists (Raise OSError), 0%nat. cbn. rewrite append_empty_r.
      destruct w; cbn in *; subst. repeat split; try lia; try congruence.
      intros j Hj. rewrite Hfault in Hj. injection Hj as <-.
      left. repeat split; lia.
    + rewrite Hfile. unfold set_cache_file, modify.
      destruct (IH (S k) (text +:+ chunk)
                  {| cache_file := Some (text +:+ chunk);
                     clock_reads := clock_reads w; events := events w |}
                  eq_refl) as (o & n & -> & Hn & Hnone & Hsome).
      exists o, (S n). cbn [cache_file clock_reads events].
      unfold written. cbn [firstn length].
      rewrite concat_cons, <- append_assoc. fold (written rest n).
      split; [reflexivity|]. split; [lia|]. split.
      * intros H. destruct (Hnone H) as [-> ->]. auto.
      * intros j Hj. destruct (Hsome j Hj) as [(-> & ? & ->) | (-> & ? & ->)].
        -- left. repeat split; try lia.
        -- right. repeat split; try lia.
           assert (j <> k) by congruence. lia.
Qed.

Lemma written_all (chunks : list string) n :
  (length chunks <= n)%nat -> written chunks n = String.concat "" chunks.
Proof. intros H. unfold written. now rewrite firstn_all2. Qed.

(** [save_weather_cache] never raises; it leaves the clock alone, records
    itself, and leaves in the file what [saved_file] says. *)
Lemma save_weather_cache_spec lib io v w :
  save_weather_cache lib io v w
  = (Ret tt, {| cache_file := saved_file lib io v (cache_file w);
                clock_reads := clock_reads w;
                events := events w ++ [CacheSave v] |}).
Proof.
  unfold save_weather_cache, saved_file, open_for_writing, record_event,
    set_cache_file, try_except, bind, modify, raise, ret.
  destruct (write_fault io) as [[|j]|] eqn:Hfault;
    cbn [cache_file clock_reads events]; [reflexivity| |].
  - destruct (write_chunks_spec io (iterencode lib v) 1 ""
                {| cache_file := Some ""; clock_reads := clock_reads w;
                   events := events w ++ [CacheSave v] |} eq_refl)
      as (o & n & -> & Hn & _ & Hsome).
    cbn [cache_file clock_reads events].
    change ("" +:+ written (iterencode lib v) n) with (written (iterencode lib v) n).
    destruct (Hsome (S j) Hfault) as [(-> & ? & ->) | (-> & ? & ->)].
    + replace (S j - 1)%nat with j by lia. reflexivity.
    + rewrite (written_all _ j) by lia. now rewrite written_all by lia.
  - destruct (write_chunks_spec io (iterencode lib v) 1 ""
                {| cache_file := Some ""; clock_reads := clock_reads w;
                   events := events w ++ [CacheSave v] |} eq_refl)
      as (o & n & -> & Hn & Hnone & _).
    destruct (Hnone Hfault) as [-> ->].
    cbn [cache_file clock_reads events].
    change ("" +:+ ?x) with x. now rewrite written_all by lia.
Qed.

(** The cache check never changes the file or the events, and says yes
    only for an entry with a fresh naive timestamp. *)
Lemma cache_entry_valid_spec lib cache key w :
  exists o w',
    cache_entry_valid lib cache key w = (o, w')
    /\ cache_file w' = cache_file w
    /\ events w' = events w
    /\ (clock_reads w <= clock_reads w' <= S (clock_reads w))%nat
    /\ (o = Ret true ->
        exists entry cached_time t,
          py_getitem cache key = Ret entry
          /\ py_get entry "timestamp" (VStr "") = Ret cached_time
          /\ fromisoformat lib cached_time = Ret t
          /\ tzinfo t = None
          /\ clock lib (clock_reads w) - ticks t < two_hours).
Proof.
  unfold cache_entry_valid, bind, lift, ret.
  destruct (py_contains key cache) as [[|]|e].
  2,3: eexists _, _; repeat split; try lia; discriminate.
  destruct (py_getitem cache key) as [entry|e] eqn:Hentry.
  2: eexists _, _; repeat split; try lia; discriminate.
  destruct (py_get entry "timestamp" (VStr "")) as [cached_time|e] eqn:Htime.
  2: eexists _, _; repeat split; try lia; discriminate.
  destruct (is_cache_valid_spec lib cached_time w)
    as (b & w' & Hrun & Hfile & Hev & Hclock & Hvalid).
  rewrite Hrun. eexists _, _. split; [reflexivity|].
  repeat split; try assumption; try lia.
  intros [= ->]. destruct (Hvalid eq_refl) as (t & ? & ? & ?).
  exists entry, cached_time, t. auto.
Qed.

(** The fetch block never raises anything but what is not a
    [RequestException]; it stores the payload only when it answers. *)
Lemma fetch_from_api_spec lib io location cache key w :
  let params := provider_params lib location in
  let called := events w ++ [ProviderGet WEATHER_API_URL params] in
  exists o w',
    fetch_from_api lib io location cache key w = (o, w')
    /\ ((exists resp data cache',
           requests_get io WEATHER_API_URL params = Ret resp
           /\ status_code resp = 200
           /\ json resp = Ret data
           /\ py_contains "error" data = Ret false
           /\ py_setitem cache key
                (VDict [("data", data);
                        ("timestamp", VStr (isoformat lib (reading lib (clock_reads w))))])
              = Ret cache'
           /\ o = Ret (Some (fresh_response data
                               (isoformat lib (reading lib (S (clock_reads w))))))
           /\ w' = {| cache_file := saved_file lib io cache' (cache_file w);
                      clock_reads := S (S (clock_reads w));
                      events := called ++ [CacheSave cache'] |})
        \/ ((o = Ret None \/ exists e, o = Raise e)
            /\ cache_file w' = cache_file w
            /\ events w' = called
            /\ (clock_reads w <= clock_reads w' <= S (clock_reads w))%nat)).
Proof.
  intros params called. unfold provider_params in params. subst params.
  unfold fetch_from_api, try_except_on, record_event, bind, lift, modify, ret.
  cbn [cache_file clock_reads events]. fold called.
  assert (Hleave : forall (o : outcome (option response)) (n : nat),
            (o = Ret None \/ exists e, o = Raise e) ->
            (n = clock_reads w \/ n = S (clock_reads w)) ->
            (o = Ret None \/ exists e, o = Raise e)
            /\ cache_file {| cache_file := cache_file w; clock_reads := n;
                             events := called |} = cache_file w
            /\ events {| cache_file := cache_file w; clock_reads := n;
                         events := called |} = called
            /\ (clock_reads w
                <= clock_reads {| cache_file := cache_file w; clock_reads := n;
                                  events := called |}
                <= S (clock_reads w))%nat).
  { intros o n Ho Hn. cbn. repeat split; try assumption; lia. }
  destruct (requests_get io WEATHER_API_URL _) as [resp|e] eqn:Hget.
  2:{ destruct (is_RequestException e); eexists _, _; (split; [reflexivity|]);
      right; apply Hleave; eauto. }
  destruct (status_code resp =? 200)%Z eqn:Hstatus.
  2:{ eexists _, _. split; [reflexivity|]. right. apply Hleave; eauto. }
  apply Z.eqb_eq in Hstatus.
  destruct (json resp) as [data|e] eqn:Hjson.
  2:{ destruct (is_RequestException e); eexists _, _; (split; [reflexivity|]);
      right; apply Hleave; eauto. }
  destruct (py_contains "error" data) as [[|]|e] eqn:Herror; cbn [negb].
  - destruct (py_get data "error" (VDict [])) as [error|e].
    2:{ destruct (is_RequestException e); eexists _, _; (split; [reflexivity|]);
        right; apply Hleave; eauto. }
    destruct (py_get error "info" (VStr "Unknown error")) as [info|e].
    2:{ destruct (is_RequestException e); eexists _, _; (split; [reflexivity|]);
        right; apply Hleave; eauto. }
    eexists _, _. split; [reflexivity|]. right. apply Hleave; eauto.
  - unfold datetime_now at 1. cbn [cache_file clock_reads events].
    fold (reading lib (clock_reads w)).
    destruct (py_setitem cache key _) as [cache'|e] eqn:Hset.
    2:{ destruct (is_RequestException e); eexists _, _; (split; [reflexivity|]);
        right; apply Hleave; eauto. }
    rewrite save_weather_cache_spec. cbn [cache_file clock_reads events].
    unfold datetime_now. cbn [cache_file clock_reads events].
    fold (reading lib (S (clock_reads w))).
    eexists _, _. split; [reflexivity|]. left.
    exists resp, data, cache'. repeat split; assumption.
  - destruct (is_RequestException e); eexists _, _; (split; [reflexivity|]);
      right; apply Hleave; eauto.
Qed.

(** The four ways [get_weather] answers; it never raises. *)
Lemma get_weather_cases lib io location_arg w :
  let location := default "Miami, FL" location_arg in
  let key := cache_key_of location in
  let cache := loaded lib io w in
  let call := ProviderGet WEATHER_API_URL (provider_params lib location) in
  exists r w',
    get_weather lib io location_arg w = (Ret r, w')
    /\ ((exists entry data timestamp t,
           py_getitem cache key = Ret entry
           /\ py_getitem entry "data" = Ret data
           /\ py_getitem entry "timestamp" = Ret timestamp
           /\ fromisoformat lib timestamp = Ret t
           /\ tzinfo t = None
           /\ clock lib (clock_reads w) - ticks t < two_hours
           /\ r = cached_response data timestamp
           /\ cache_file w' = cache_file w
           /\ events w' = events w)
        \/ (exists resp data cache' n,
              requests_get io WEATHER_API_URL (provider_params lib location) = Ret resp
              /\ status_code resp = 200
              /\ json resp = Ret data
              /\ py_contains "error" data = Ret false
              /\ (clock_reads w <= n <= S (clock_reads w))%nat
              /\ py_setitem cache key
                   (VDict [("data", data);
                           ("timestamp", VStr (isoformat lib (reading lib n)))])
                 = Ret cache'
              /\ r = fresh_response data (isoformat lib (reading lib (S n)))
              /\ w' = {| cache_file := saved_file lib io cache' (cache_file w);
                         clock_reads := S (S n);
                         events := events w ++ [call; CacheSave cache'] |})
        \/ (exists n,
              r = mock_response location (isoformat lib (reading lib n))
              /\ cache_file w' = cache_file w
              /\ events w' = events w ++ [call])
        \/ (r = unavailable_response
            /\ cache_file w' = cache_file w
            /\ (events w' = events w \/ events w' = events w ++ [call]))).
Proof.
  intros location key cache call.
  unfold get_weather, try_except. fold location. fold key.
  unfold bind at 1. rewrite load_weather_cache_loaded. fold cache.
  unfold bind at 1.
  destruct (cache_entry_valid_spec lib cache key w)
    as (o & w1 & -> & Hfile1 & Hev1 & Hclock1 & Hvalid).
  destruct o as [[|]|e].
  - (* the entry is valid *)
    destruct (Hvalid eq_refl) as (entry & cached_time & t & Hentry & Htime & Ht & Htz & Hage).
    unfold bind, lift, ret. rewrite Hentry.
    destruct (py_getitem entry "data") as [data|e] eqn:Hdata.
    2:{ eexists _, _. split; [reflexivity|]. do 3 right. auto. }
    destruct (py_getitem entry "timestamp") as [timestamp|e] eqn:Hstamp.
    2:{ eexists _, _. split; [reflexivity|]. do 3 right. auto. }
    rewrite (py_getitem_get _ _ _ (VStr "") Hstamp) in Htime.
    injection Htime as <-.
    eexists _, _. split; [reflexivity|]. left.
    exists entry, data, timestamp, t. repeat split; assumption.
  - (* no valid entry: the provider is asked *)
    unfold bind at 1.
    destruct (fetch_from_api_spec lib io location cache key w1)
      as (o & w2 & -> & Hfetch).
    destruct Hfetch
      as [(resp & data & cache' & Hget & Hstatus & Hjson & Herror & Hset & -> & ->)
         | (Ho & Hfile2 & Hev2 & Hclock2)].
    + eexists _, _. split; [reflexivity|]. right. left.
      exists resp, data, cache', (clock_reads w1).
      rewrite Hfile1, Hev1, <- app_assoc. repeat split; try assumption; lia.
    + destruct Ho as [-> | [e ->]].
      * unfold bind, datetime_now, ret.
        eexists _, _. split; [reflexivity|]. do 2 right. left.
        exists (clock_reads w2). cbn [cache_file events].
        split; [reflexivity|]. split; [congruence|].
        cbn zeta in Hev2. rewrite Hev2, Hev1. reflexivity.
      * eexists _, _. split; [reflexivity|]. do 3 right.
        repeat split; [congruence|]. right.
        cbn zeta in Hev2. rewrite Hev2, Hev1. reflexivity.
  - (* the check itself raised *)
    eexists _, _. split; [reflexivity|]. do 3 right.
    repeat split; [congruence|]. left. congruence.
Qed.

Lemma dict_get_set_eq (d : dict) k v : dict_get (dict_set d k v) k = Some v.
Proof.
  induction d as [|[k' v'] d IH]; cbn [dict_set dict_get].
  - now rewrite String.eqb_refl.
  - destruct (String.eqb k' k) eqn:E; cbn [dict_get]; rewrite E; auto.
Qed.

(** A valid entry is served from the cache: one reading of the clock, no
    event, the file untouched. *)
Lemma get_weather_hit lib io location_arg w entries entry data timestamp t :
  loaded lib io w = VDict entries ->
  dict_get entries (cache_key_of (default "Miami, FL" location_arg))
    = Some (VDict entry) ->
  dict_get entry "timestamp" = Some timestamp ->
  dict_get entry "data" = Some data ->
  fromisoformat lib timestamp = Ret t ->
  tzinfo t = None ->
  clock lib (clock_reads w) - ticks t < two_hours ->
  get_weather lib io location_arg w
  = (Ret (cached_response data timestamp),
     {| cache_file := cache_file w;
        clock_reads := S (clock_reads w);
        events := events w |}).
Proof.
  intros Hload Hentry Hstamp Hdata Hparse Htz Hage.
  unfold get_weather, try_except.
  unfold bind at 1. rewrite load_weather_cache_loaded, Hload.
  unfold cache_entry_valid, bind, lift, ret.
  cbn [py_contains py_getitem py_get]. unfold dict_mem.
  rewrite Hentry. cbn [py_get py_getitem]. rewrite Hstamp.
  rewrite (is_cache_valid_fresh lib timestamp w t Hparse Htz Hage).
  now rewrite Hdata.
Qed.

(** Without a valid entry, a failing provider call is answered with the
    mock payload: one provider call, nothing saved. *)
Lemma get_weather_falls_back lib io location_arg w w1 :
  let location := default "Miami, FL" location_arg in
  cache_entry_valid lib (loaded lib io w) (cache_key_of location) w = (Ret false, w1) ->
  provider_failure (requests_get io WEATHER_API_URL (provider_params lib location)) ->
  get_weather lib io location_arg w
  = (Ret (mock_response location (isoformat lib (reading lib (clock_reads w1)))),
     {| cache_file := cache_file w1;
        clock_reads := S (clock_reads w1);
        events := events w1 ++ [ProviderGet WEATHER_API_URL (provider_params lib location)] |}).
Proof.
  intros location. subst location. intros Hmiss Hfail.
  unfold get_weather, try_except.
  unfold bind at 1. rewrite load_weather_cache_loaded.
  unfold bind at 1. rewrite Hmiss.
  unfold fetch_from_api, try_except_on, record_event, datetime_now,
    bind, lift, modify, ret.
  cbn [cache_file clock_reads events]. unfold provider_params in *.
  inversion Hfail as [Hget | resp Hstatus Hget | resp body details Hstatus Hjson Herror Hget];
    cbn [is_RequestException].
  - reflexivity.
  - apply Z.eqb_neq in Hstatus. rewrite Hstatus. reflexivity.
  - apply Z.eqb_eq in Hstatus. rewrite Hstatus, Hjson.
    cbn [py_contains py_get]. unfold dict_mem. rewrite Herror.
    cbn [negb py_get]. destruct (dict_get details "info"); reflexivity.
Qed.

(** ** The claims about the weather gateway *)

(** C3, the failing input: the provider answers HTTP 200 with the body
    [{"error": "quota exceeded"}]. The body has the key 'error', so the
    fetch block takes its warning branch, and formatting the warning calls
    [.get] on the string: the [AttributeError] is not a
    [RequestException], leaves the block, and is answered by the outer
    handler with [success: false] and status 500 instead of the mock
    payload. *)
Theorem error_string_body_is_answered_500 :
  py_contains "error" (VDict [("error", VStr "quota exceeded")]) = Ret true
  /\ get_weather (demo_platform VNone)
       (provider_answers (ok_reply (VDict [("error", VStr "quota exceeded")])))
       (Some "Nowhere") new_world
     = (Ret unavailable_response,
        {| cache_file := None;
           clock_reads := 0;
           events := [ProviderGet WEATHER_API_URL
                        (provider_params (demo_platform VNone) "Nowhere")] |}).
Proof. split; vm_compute; reflexivity. Qed.

(** The scenario of the specification: "Nowhere" with the provider
    answering HTTP 500 is answered with the mock payload, temperature 72. *)
Example nowhere_with_http_500 :
  exists r w',
    get_weather (demo_platform VNone) (provider_answers (status_reply 500))
      (Some "Nowhere") new_world = (Ret r, w')
    /\ response_field r "success" = Some (VBool true)
    /\ response_field r "mock" = Some (VBool true)
    /\ response_field r "data" = Some (get_mock_weather_data "Nowhere")
    /\ py_getitem (get_mock_weather_data "Nowhere") "current"
       = Ret (VDict [("temperature", VInt 72);
                     ("weather_descriptions", VList [VStr "Partly Cloudy"]);
                     ("weather_icons",
                      VList [VStr "https://assets.weatherstack.com/images/wsymbols01_png_64/wsymbol_0002_sunny_intervals.png"]);
                     ("humidity", VInt 65);
                     ("wind_speed", VInt 8);
                     ("wind_dir", VStr "SW");
                     ("uv_index", VInt 5);
                     ("visibility", VInt 10)]).
Proof.
  eexists _, _. split.
  - apply (get_weather_falls_back (demo_platform VNone)
             (provider_answers (status_reply 500)) (Some "Nowhere") new_world new_world).
    + reflexivity.
    + apply bad_status. discriminate.
  - repeat split.
Qed.

(** C9: take any call of [get_weather] and the events it adds. If the
    answer carries [mock: true], the cache file is as before and no save
    is among the added events. A save is among them only if the provider
    answered HTTP 200 with a body without 'error', in which case the answer
    carries that body and no [mock] field. And the file differs from before
    only if a save is among the added events. *)
Theorem mock_answer_leaves_cache_alone lib io location_arg w r w' :
  get_weather lib io location_arg w = (Ret r, w') ->
  exists added,
    events w' = events w ++ added
    /\ (response_field r "mock" = Some (VBool true) ->
        cache_file w' = cache_file w
        /\ forall v, ~ In (CacheSave v) added)
    /\ (forall v, In (CacheSave v) added ->
        exists resp data,
          requests_get io WEATHER_API_URL
            (provider_params lib (default "Miami, FL" location_arg)) = Ret resp
          /\ status_code resp = 200
          /\ json resp = Ret data
          /\ py_contains "error" data = Ret false
          /\ response_field r "data" = Some data
          /\ response_field r "mock" = None)
    /\ (cache_file w' <> cache_file w -> exists v, In (CacheSave v) added).
Proof.
  intros Hrun.
  destruct (get_weather_cases lib io location_arg w) as (r0 & w0 & Hrun0 & Hcases).
  rewrite Hrun in Hrun0. injection Hrun0 as <- <-.
  destruct Hcases
    as [(entry & data & timestamp & t & _ & _ & _ & _ & _ & _ & -> & Hfile & Hev)
       |[(resp & data & cache' & n & Hget & Hstatus & Hjson & Herror & _ & _ & -> & ->)
       |[(n & -> & Hfile & Hev)
       | (-> & Hfile & Hev)]]].
  - exists []. rewrite app_nil_r. split; [assumption|].
    split; [discriminate|]. split; [intros v []|]. congruence.
  - eexists. split; [reflexivity|]. split; [discriminate|]. split.
    + intros v _. exists resp, data. repeat split; assumption.
    + intros _. exists cache'. right. left. reflexivity.
  - eexists. split; [exact Hev|]. split.
    + intros _. split; [assumption|]. intros v [[=]|[]].
    + split; [intros v [[=]|[]]|]. congruence.
  - destruct Hev as [Hev | Hev].
    + exists []. rewrite app_nil_r. split; [assumption|].
      split; [discriminate|]. split; [intros v []|]. congruence.
    + eexists. split; [exact Hev|]. split; [discriminate|].
      split; [intros v [[=]|[]]|]. congruence.
Qed.

Lemma mock_answer_leaves_cache_alone_witness :
  exists r w',
    get_weather (demo_platform austin_document) (provider_answers (status_reply 500))
      (Some "Nowhere") austin_world = (Ret r, w')
    /\ response_field r "mock" = Some (VBool true)
    /\ cache_file w' = cache_file austin_world.
Proof.
  eexists _, _. split; [vm_compute; reflexivity|]. split; [reflexivity|].
  destruct (mock_answer_leaves_cache_alone
              (demo_platform austin_document) (provider_answers (status_reply 500))
              (Some "Nowhere") austin_world _ _ eq_refl)
    as (added & _ & Hmock & _).
  apply Hmock. reflexivity.
Defined.

Lemma case_variant_lower c d : case_variant c d -> lower_ascii c = lower_ascii d.
Proof.
  assert (Hup : forall n, (65 <= n <= 90)%nat ->
            lower_ascii (ascii_of_nat n) = ascii_of_nat (n + 32)).
  { intros n Hn. unfold lower_ascii.
    rewrite nat_ascii_embedding by lia.
    destruct (Nat.leb_spec 65 n), (Nat.leb_spec n 90); try lia. reflexivity. }
  assert (Hlow : forall n, (65 <= n <= 90)%nat ->
            lower_ascii (ascii_of_nat (n + 32)) = ascii_of_nat (n + 32)).
  { intros n Hn. unfold lower_ascii.
    rewrite nat_ascii_embedding by lia.
    destruct (Nat.leb_spec 65 (n + 32)), (Nat.leb_spec (n + 32) 90); try lia;
      reflexivity. }
  intros [c'|n Hn|n Hn]; [reflexivity| |]; now rewrite (Hup n Hn), (Hlow n Hn).
Qed.

(** C8, as stated, fails: "Austin, TX" written with a tab instead of the
    space differs from it only in a whitespace character, and the two get
    different cache keys, the tab being kept in the key. Likewise every
    space gives an underscore of its own, so that two spaces instead of
    one give another key again. *)
Lemma tab_and_space_get_distinct_keys :
  differ_in_case_or_whitespace "Austin, TX" ("Austin," +:+ String tab "TX")
  /\ cache_key_of "Austin, TX" = "weather_austin,_tx"
  /\ cache_key_of ("Austin," +:+ String tab "TX") = "weather_austin," +:+ String tab "tx"
  /\ cache_key_of "Austin, TX" <> cache_key_of ("Austin," +:+ String tab "TX")
  /\ cache_key_of "Austin,  TX" = "weather_austin,__tx".
Proof.
  split.
  - repeat first [ apply dcw_empty
                 | apply dcw_case; [apply same_character|]
                 | apply dcw_whitespace; [reflexivity | reflexivity |] ].
  - repeat split; try (vm_compute; reflexivity). vm_compute. discriminate.
Qed.

(** C8, amended: for ASCII locations the key is the location with the
    letters A to Z lowered and every space replaced by an underscore. Two
    ASCII locations that differ only in the case of letters, or in a space
    standing where the other has a space or an underscore, get the same
    key. *)
Theorem cache_key_ignores_case_and_space a b :
  is_ascii a = true ->
  is_ascii b = true ->
  differ_in_case_or_space a b -> cache_key_of a = cache_key_of b.
Proof.
  intros _ _ H. unfold cache_key_of. f_equal.
  induction H as [|c d s t Hcd _ IH|c d s t Hc Hd _ IH]; cbn [lower replace].
  - reflexivity.
  - now rewrite (case_variant_lower c d Hcd), IH.
  - rewrite IH. f_equal.
    destruct Hc as [-> | ->], Hd as [-> | ->]; reflexivity.
Qed.

Lemma cache_key_ignores_case_and_space_witness :
  cache_key_of "Austin, TX" = cache_key_of "aUSTIN,_tx".
Proof.
  apply cache_key_ignores_case_and_space; [reflexivity | reflexivity |].
  apply dcs_case; [exact (upper_lower 65 ltac:(lia))|].
  apply dcs_case; [exact (lower_upper 85 ltac:(lia))|].
  apply dcs_case; [exact (lower_upper 83 ltac:(lia))|].
  apply dcs_case; [exact (lower_upper 84 ltac:(lia))|].
  apply dcs_case; [exact (lower_upper 73 ltac:(lia))|].
  apply dcs_case; [exact (lower_upper 78 ltac:(lia))|].
  apply dcs_case; [apply same_character|].
  apply dcs_space; [now left | now right |].
  apply dcs_case; [exact (upper_lower 84 ltac:(lia))|].
  apply dcs_case; [exact (upper_lower 88 ltac:(lia))|].
  apply dcs_empty.
Defined.

(** The chunks written before a failure are a prefix of the whole text. *)
Lemma written_is_prefix (chunks : list string) n :
  String.concat "" chunks = written chunks n +:+ String.concat "" (skipn n chunks).
Proof.
  unfold written. revert n.
  induction chunks as [|chunk rest IH]; intros [|n]; try reflexivity.
  cbn [firstn skipn]. rewrite !concat_cons, (IH n). now rewrite append_assoc.
Qed.

(** C7, as stated, fails: a save whose second write fails leaves the file
    holding the first chunk only, which is neither the text the file held
    nor the text of the new document; the decoder rejects it and the next
    load takes the cache for empty. *)
Lemma interrupted_save_leaves_torn_file :
  let lib := demo_platform austin_document in
  let io := failing_disk (status_reply 500) 2 in
  exists w',
    save_weather_cache lib io austin_document austin_world = (Ret tt, w')
    /\ cache_file austin_world = Some "{...}"
    /\ String.concat "" (iterencode lib austin_document) = "{...}"
    /\ cache_file w' = Some "{"
    /\ json_load lib "{" = Raise JSONDecodeError
    /\ loaded lib io austin_world = austin_document
    /\ loaded lib io w' = VDict [].
Proof. eexists. repeat split. Qed.

(** C7, amended: [save_weather_cache] rewrites the cache file in place. It
    never raises. When the [open] fails the file is as before; otherwise
    the file is emptied and the chunks of the new text are appended to it
    one by one, so that a save stopped by a failing write leaves a prefix
    of the new text, and a save that is not stopped leaves the whole new
    text. *)
Theorem save_rewrites_file_in_place lib io v w :
  exists w',
    save_weather_cache lib io v w = (Ret tt, w')
    /\ (write_fault io = Some 0%nat -> cache_file w' = cache_file w)
    /\ (forall j, write_fault io = Some (S j) ->
          cache_file w' = Some (written (iterencode lib v) j)
          /\ exists rest,
               String.concat "" (iterencode lib v)
               = written (iterencode lib v) j +:+ rest)
    /\ (write_fault io = None ->
          cache_file w' = Some (String.concat "" (iterencode lib v))).
Proof.
  eexists. split; [apply save_weather_cache_spec|].
  cbn [cache_file]. unfold saved_file.
  split; [now intros ->|]. split; [|now intros ->].
  intros j ->. split; [reflexivity|].
  eexists. apply written_is_prefix.
Qed.

Lemma save_rewrites_file_in_place_witness :
  exists w',
    save_weather_cache (demo_platform austin_document)
      (failing_disk (status_reply 500) 2) austin_document austin_world = (Ret tt, w')
    /\ cache_file w' = Some "{".
Proof.
  destruct (save_rewrites_file_in_place (demo_platform austin_document)
              (failing_disk (status_reply 500) 2) austin_document austin_world)
    as (w' & Hrun & _ & Hwrite & _).
  exists w'. split; [exact Hrun|].
  destruct (Hwrite 1%nat eq_refl) as [-> _]. reflexivity.
Defined.

Lemma py_setitem_dict v k x v' :
  py_setitem v k x = Ret v' -> exists d, v = VDict d /\ v' = VDict (dict_set d k x).
Proof. destruct v; try discriminate. intros [= <-]. eauto. Qed.

(** C4, as stated, fails in its last part: of two calls for "Austin, TX",
    one microsecond of clock apart, the first is answered by the provider
    and the second from the cache, with one provider call in all; the two
    answers differ in the [cached] flag and also in the [timestamp] field,
    which is the time of the answer in the first and the time the entry was
    stored in the second. *)
Lemma fresh_and_cached_answers_differ_in_timestamp :
  let lib := demo_platform austin_document in
  let io := provider_answers (ok_reply austin_payload) in
  exists r1 w1 r2 w2,
    get_weather lib io (Some "Austin, TX") new_world = (Ret r1, w1)
    /\ get_weather lib io (Some "Austin, TX") w1 = (Ret r2, w2)
    /\ clock lib (clock_reads w1) - clock lib (clock_reads new_world) < two_hours
    /\ provider_calls (events w2) = 1%nat
    /\ r1 = fresh_response austin_payload "xx"
    /\ r2 = cached_response austin_payload (VStr "x")
    /\ without_field "cached" r1 <> without_field "cached" r2.
Proof.
  eexists _, _, _, _. split; [vm_compute; reflexivity|].
  split; [vm_compute; reflexivity|]. repeat split. vm_compute. discriminate.
Qed.

(** C4, amended. The fast path: when the cache file decodes to a dict that
    holds, under the key of the location, an entry with a payload and a
    timestamp that parses to a naive time less than two hours before the
    clock reading, [get_weather] answers with that payload tagged
    [cached: true] and the stored timestamp, adds no event (so makes no
    provider call) and leaves the file as it is. Two calls: when a first
    call is answered by the provider and its save completes, a second call
    for the same location whose clock reading is less than two hours after
    the first call began is answered from the cache with the same payload;
    there is exactly one provider call in all, and the two answers are
    equal except for their [cached] and [timestamp] fields. This holds with
    a decoder that reads back what the encoder wrote, a timestamp parser
    that reads back what [isoformat] wrote, and a clock that does not go
    backwards. *)
Theorem cache_hit_skips_provider :
  (forall lib io location_arg w text entries entry data timestamp t,
     cache_file w = Some text ->
     read_fault io = false ->
     json_load lib text = Ret (VDict entries) ->
     dict_get entries (cache_key_of (default "Miami, FL" location_arg))
       = Some (VDict entry) ->
     dict_get entry "data" = Some data ->
     dict_get entry "timestamp" = Some timestamp ->
     fromisoformat lib timestamp = Ret t ->
     tzinfo t = None ->
     clock lib (clock_reads w) - ticks t < two_hours ->
     exists w',
       get_weather lib io location_arg w = (Ret (cached_response data timestamp), w')
       /\ events w' = events w
       /\ cache_file w' = cache_file w)
  /\ (forall lib io1 io2 location_arg w0 w1 data answered,
        get_weather lib io1 location_arg w0 = (Ret (fresh_response data answered), w1) ->
        write_fault io1 = None ->
        read_fault io2 = false ->
        (forall v, In (CacheSave v) (events w1) ->
                   json_load lib (String.concat "" (iterencode lib v)) = Ret v) ->
        (forall n, fromisoformat lib (VStr (isoformat lib (reading lib n)))
                   = Ret (reading lib n)) ->
        (forall m n, (m <= n)%nat -> clock lib m <= clock lib n) ->
        clock lib (clock_reads w1) - clock lib (clock_reads w0) < two_hours ->
        exists stamped w2,
          get_weather lib io2 location_arg w1
            = (Ret (cached_response data (VStr stamped)), w2)
          /\ events w2 = events w1
          /\ provider_calls (events w2) = S (provider_calls (events w0))
          /\ without_field "timestamp"
               (without_field "cached" (fresh_response data answered))
             = without_field "timestamp"
                 (without_field "cached" (cached_response data (VStr stamped)))).
Proof.
  split.
  - intros lib io location_arg w text entries entry data timestamp t
      Hfile Hread Hdecode Hentry Hdata Hstamp Hparse Htz Hage.
    eexists. split.
    + eapply get_weather_hit; try eassumption.
      unfold loaded. now rewrite Hfile, Hread, Hdecode.
    + split; reflexivity.
  - intros lib io1 io2 location_arg w0 w1 data answered
      Hfirst Hwrite Hread Hdecode Hparse Hmono Hsoon.
    destruct (get_weather_cases lib io1 location_arg w0) as (r & w & Hrun & Hcases).
    rewrite Hfirst in Hrun. injection Hrun as <- <-.
    destruct Hcases
      as [(? & ? & ? & ? & _ & _ & _ & _ & _ & _ & [=] & _)
         |[(resp & data' & cache' & n & _ & _ & _ & _ & Hn & Hset & Heq & ->)
         |[(? & [=] & _)
         | ([=] & _)]]].
    injection Heq as <- _.
    apply py_setitem_dict in Hset as (entries & _ & ->).
    cbn [events cache_file clock_reads] in *.
    exists (isoformat lib (reading lib n)). eexists. split.
    + eapply (get_weather_hit lib io2 location_arg _ _ _ data _ (reading lib n)).
      * unfold loaded, saved_file. cbn [cache_file]. rewrite Hwrite, Hread.
        rewrite Hdecode; [reflexivity|].
        apply in_or_app. right. right. left. reflexivity.
      * apply dict_get_set_eq.
      * reflexivity.
      * reflexivity.
      * apply Hparse.
      * reflexivity.
      * cbn [clock_reads reading ticks].
        assert (Hle : clock lib (clock_reads w0) <= clock lib n)
          by (apply Hmono; lia).
        revert Hle Hsoon.
        generalize (clock lib (S (S n))), (clock lib n), (clock lib (clock_reads w0)).
        unfold two_hours. lia.
    + cbn [events]. split; [reflexivity|]. split; [|reflexivity].
      unfold provider_calls. rewrite List.filter_app, List.length_app. cbn. lia.
Qed.

Lemma cache_hit_skips_provider_witness :
  let lib := demo_platform austin_document in
  let io := provider_answers (ok_reply austin_payload) in
  exists w1 stamped w2,
    get_weather lib io (Some "Austin, TX") new_world
      = (Ret (fresh_response austin_payload "xx"), w1)
    /\ get_weather lib io (Some "Austin, TX") w1
      = (Ret (cached_response austin_payload (VStr stamped)), w2)
    /\ provider_calls (events w2) = 1%nat.
Proof.
  intros lib io.
  destruct cache_hit_skips_provider as [_ Hrepeat].
  set (w1 := snd (get_weather lib io (Some "Austin, TX") new_world)).
  destruct (Hrepeat lib io io (Some "Austin, TX") new_world w1 austin_payload "xx")
    as (stamped & w2 & Hsecond & _ & Hcalls & _).
  - vm_compute. reflexivity.
  - reflexivity.
  - reflexivity.
  - intros v Hin. vm_compute in Hin.
    destruct Hin as [[=] | [[= <-] | []]]. reflexivity.
  - intros n. cbn. unfold reading. cbn. f_equal. f_equal.
    rewrite Nat2Z.id.
    assert (Hlen : forall k, String.length (unary k) = k)
      by (induction k; cbn; congruence).
    rewrite Hlen. lia.
  - intros m n Hmn. cbn. lia.
  - vm_compute. reflexivity.
  - exists w1, stamped, w2. split; [vm_compute; reflexivity|]. split; assumption.
Defined.

(** * Further properties of the booking wizard *)

Lemma dict_get_set_ne (d : dict) k k' v :
  k <> k' -> dict_get (dict_set d k v) k' = dict_get d k'.
Proof.
  intros Hne. induction d as [|[a x] d IH]; cbn [dict_set dict_get].
  - destruct (String.eqb_spec k k'); [contradiction | reflexivity].
  - destruct (String.eqb_spec a k) as [-> | Hak]; cbn [dict_get].
    + destruct (String.eqb_spec k k'); [contradiction | reflexivity].
    + destruct (String.eqb_spec a k'); [reflexivity | exact IH].
Qed.

Lemma dict_set_set_eq (d : dict) k v v' :
  dict_set (dict_set d k v) k v' = dict_set d k v'.
Proof.
  induction d as [|[a x] d IH]; cbn [dict_set].
  - now rewrite String.eqb_refl.
  - destruct (String.eqb a k) eqn:E; cbn [dict_set]; rewrite E; congruence.
Qed.

Ltac case_keys :=
  repeat (cbn [dict_set dict_get]; rewrite ?String.eqb_refl;
          try match goal with
              | |- context [String.eqb ?a ?b] =>
                  destruct (String.eqb_spec a b); try congruence
              end).

Lemma dict_set_swap (d : dict) k k' v w v' :
  k <> k' ->
  dict_set (dict_set (dict_set d k v) k' w) k v'
  = dict_set (dict_set d k v') k' w.
Proof.
  intros Hne. induction d as [|[a x] d IH]; [now case_keys|].
  cbn [dict_set].
  destruct (String.eqb_spec a k) as [-> | Hak]; [now case_keys|].
  cbn [dict_set].
  destruct (String.eqb_spec a k') as [-> | Hak'].
  - case_keys; rewrite ?dict_set_set_eq; congruence.
  - case_keys; rewrite ?IH; congruence.
Qed.

Lemma dict_mem_set (d : dict) k k' v :
  dict_mem d k' = true -> dict_mem (dict_set d k v) k' = true.
Proof.
  unfold dict_mem. intros H.
  destruct (String.eqb_spec k k') as [-> | Hne].
  - now rewrite dict_get_set_eq.
  - now rewrite dict_get_set_ne.
Qed.

Lemma dict_mem_update (u d : dict) k :
  dict_mem d k = true -> dict_mem (dict_update d u) k = true.
Proof.
  unfold dict_update. revert d.
  induction u as [|[a x] u IH]; intros d H; cbn [fold_left fst snd]; [exact H|].
  apply IH. now apply dict_mem_set.
Qed.

Ltac unchanged :=
  intros [= <- <-]; left; split; [reflexivity|]; split;
  [ eexists; reflexivity | discriminate ].

(** Every way [booking_step2] ends: it answers without raising, and either
    refuses and leaves the state alone, or stores a fresh draft of three
    fields, or adds the products and their total to the draft it found. *)
Lemma booking_step2_cases req s r s' :
  booking_step2 req s = (r, s') ->
  (s' = s /\ (exists x, r = Ret x) /\ r <> Ret ok_response)
  \/ (r = Ret ok_response
      /\ exists data service_id service_name price,
          get_json req = Ret data
          /\ py_getitem data "service_id" = Ret service_id
          /\ py_getitem data "service_name" = Ret service_name
          /\ py_getitem data "price" = Ret price
          /\ s' = with_draft s (VDict [("service_id", service_id);
                                       ("service_name", service_name);
                                       ("price", price)]))
  \/ (r = Ret ok_response
      /\ exists data d products total,
          get_json req = Ret data
          /\ session s !! "booking_data" = Some (VDict d)
          /\ py_getitem data "products" = Ret products
          /\ py_get data "products_total" (VInt 0) = Ret total
          /\ s' = with_draft s (VDict (dict_set (dict_set d "products" products)
                                                "products_total" total))).
Proof.
  unfold booking_step2, is_post, with_draft. unfold_app.
  assert (Hrest : forall r s',
            (let (o, st) :=
               (Ret match session s !! "booking_data" with
                    | Some _ => true
                    | None => false
                    end, s) in
             match o with
             | Ret a =>
                 (if negb a
                  then fun st0 => (Ret (redirect "booking_step1"), st0)
                  else fun st0 =>
                         let (o0, st1) :=
                           match session st0 !! "booking_data" with
                           | Some v => (Ret v, st0)
                           | None => (Raise KeyError, st0)
                           end in
                         match o0 with
                         | Ret a0 =>
                             (Ret (render_template "booking_step2.html"
                                     [("booking_data", a0)]), st1)
                         | Raise e => (Raise e, st1)
                         end) st
             | Raise e => (Raise e, st)
             end) = (r, s') ->
            s' = s /\ (exists x, r = Ret x) /\ r <> Ret ok_response).
  { intros r0 s0. destruct (session s !! "booking_data") eqn:Hs; cbn [negb].
    - rewrite Hs. intros [= <- <-]. split; [reflexivity|].
      split; [eexists; reflexivity | discriminate].
    - intros [= <- <-]. split; [reflexivity|].
      split; [eexists; reflexivity | discriminate]. }
  destruct (method req); [intros H; left; exact (Hrest r s' H)|].
  destruct (get_json req) as [data|e] eqn:Hj; [|unchanged].
  destruct (py_contains "service_id" data) as [[|]|e]; [| |unchanged].
  - destruct (py_getitem data "service_id") as [service_id|] eqn:H1; [|unchanged].
    destruct (py_getitem data "service_name") as [service_name|] eqn:H2;
      [|unchanged].
    destruct (py_getitem data "price") as [price|] eqn:H3; [|unchanged].
    intros [= <- <-]. right. left. split; [reflexivity|].
    exists data, service_id, service_name, price. repeat split; auto.
  - destruct (py_contains "products" data) as [[|]|e]; [| |unchanged].
    + cbn [session]. destruct (session s !! "booking_data") as [draft|] eqn:Hs;
        cbn [negb]; [|unchanged].
      destruct (py_getitem data "products") as [products|e] eqn:Hp; [|unchanged].
      rewrite Hs.
      destruct (py_setitem draft "products" products) as [draft'|e] eqn:Hset;
        [|unchanged].
      destruct (py_getitem_dict _ _ _ Hp) as (body & -> & _).
      destruct draft; try discriminate. injection Hset as <-.
      cbn [session db]. rewrite lookup_insert_eq.
      destruct (py_get (VDict body) "products_total" (VInt 0)) as [total|e] eqn:Ht.
      2:{ cbn [py_get] in Ht. destruct (dict_get body "products_total"); discriminate. }
      cbn [py_setitem session db]. rewrite insert_insert_eq.
      intros [= <- <-]. right. right. split; [reflexivity|].
      exists (VDict body), d, products, total. repeat split; auto.
    + intros H. left. exact (Hrest r s' H).
Qed.

(** Every way [booking_step3] ends: it answers without raising, and either
    refuses and leaves the state alone, or merges the schedule into the
    draft it found. *)
Lemma booking_step3_cases req s r s' :
  booking_step3 req s = (r, s') ->
  (s' = s /\ (exists x, r = Ret x) /\ r <> Ret ok_response)
  \/ (r = Ret ok_response
      /\ exists data d date time instructions,
          get_json req = Ret data
          /\ session s !! "booking_data" = Some (VDict d)
          /\ py_getitem data "scheduled_date" = Ret date
          /\ py_getitem data "scheduled_time" = Ret time
          /\ py_get data "special_instructions" (VStr "") = Ret instructions
          /\ s' = with_draft s
                    (VDict (dict_update d
                              [("scheduled_date", date);
                               ("scheduled_time", time);
                               ("special_instructions", instructions)]))).
Proof.
  unfold booking_step3, is_post, with_draft. unfold_app.
  destruct (method req).
  - destruct (session s !! "booking_data") eqn:Hs; cbn [negb].
    + rewrite Hs. unchanged.
    + unchanged.
  - destruct (get_json req) as [data|e] eqn:Hj; [|unchanged].
    cbn [session]. destruct (session s !! "booking_data") as [draft|] eqn:Hs;
      cbn [negb]; [|unchanged].
    rewrite Hs.
    destruct (py_getattr_update draft) as [update|] eqn:Hup; [|unchanged].
    destruct (py_getitem data "scheduled_date") as [date|] eqn:H1; [|unchanged].
    destruct (py_getitem data "scheduled_time") as [time|] eqn:H2; [|unchanged].
    destruct (py_get data "special_instructions" (VStr "")) as [instructions|]
      eqn:H3; [|unchanged].
    destruct draft; try discriminate. injection Hup as <-.
    intros [= <- <-]. right. split; [reflexivity|].
    exists data, d, date, time, instructions. repeat split; auto.
Qed.

Lemma dict_get_set (d : dict) k k' v :
  dict_get (dict_set d k v) k' = if String.eqb k k' then Some v else dict_get d k'.
Proof.
  destruct (String.eqb_spec k k') as [-> | Hne].
  - apply dict_get_set_eq.
  - now apply dict_get_set_ne.
Qed.

(** Every way [booking_step4] ends. *)
Lemma booking_step4_cases env req s r s' :
  booking_step4 env req s = (r, s') ->
  (session s !! "booking_data" = None
   /\ r = Ret (redirect "booking_step1") /\ s' = s)
  \/ (exists draft,
        session s !! "booking_data" = Some draft
        /\ ((method req = GET
             /\ r = Ret (render_template "booking_step4.html" [("booking_data", draft)])
             /\ s' = s)
            \/ (method req = POST
                /\ r = Ret (fail_response "Service not found")
                /\ s' = s)
            \/ (method req = POST
                /\ r = Ret (fail_response "Error confirming booking")
                /\ s' = {| session := session s;
                           db := {| bookings := bookings (db s); pending := [] |} |})
            \/ (method req = POST
                /\ r = Ret confirmed_response
                /\ session s' = delete "booking_data" (session s)))).
Proof.
  unfold booking_step4, is_post. unfold_app.
  destruct (session s !! "booking_data") as [draft|] eqn:Hs; cbn [negb].
  2:{ intros [= <- <-]. left. auto. }
  intros Hrun. right. exists draft. split; [reflexivity|]. revert Hrun.
  destruct (method req) eqn:Hm; cbn [session db]; rewrite Hs.
  { intros [= <- <-]. left. auto. }
  assert (Hfail : forall st,
            st = {| session := session s;
                    db := {| bookings := bookings (db s); pending := [] |} |} ->
            (Ret (fail_response "Error confirming booking"), st) = (r, s') ->
            (POST = GET
             /\ r = Ret (render_template "booking_step4.html" [("booking_data", draft)])
             /\ s' = s)
            \/ (POST = POST /\ r = Ret (fail_response "Service not found") /\ s' = s)
            \/ (POST = POST
                /\ r = Ret (fail_response "Error confirming booking")
                /\ s' = {| session := session s;
                           db := {| bookings := bookings (db s); pending := [] |} |})
            \/ (POST = POST
                /\ r = Ret confirmed_response
                /\ session s' = delete "booking_data" (session s))).
  { intros st -> [= <- <-]. right. right. left. auto. }
  destruct (py_getitem draft "service_id") as [key|]; [|now apply Hfail].
  destruct (Service_query_get env key) as [[service|]|]; [| |now apply Hfail].
  2:{ intros [= <- <-]. right. left. auto. }
  destruct (py_getitem draft "scheduled_date") as [date|]; [|now apply Hfail].
  destruct (py_getitem draft "scheduled_time") as [time|]; [|now apply Hfail].
  destruct (strptime env _ _) as [at_|]; [|now apply Hfail].
  destruct (py_get draft "products_total" (VInt 0)) as [pt|]; [|now apply Hfail].
  destruct (py_float_add _ pt) as [total|]; [|now apply Hfail].
  destruct (py_get draft "special_instructions" _) as [instructions|];
    [|now apply Hfail].
  cbn [session db bookings pending].
  destruct (commit_result env) as [[]|]; [|now apply Hfail].
  intros [= <- <-]. do 3 right. auto.
Qed.

(** Two sessions whose drafts agree on the keys the Finalizer reads get the
    same answer and the same database from a Finalizer POST. *)
Lemma booking_step4_agrees env req s1 s2 d1 d2 :
  method req = POST ->
  db s1 = db s2 ->
  session s1 !! "booking_data" = Some (VDict d1) ->
  session s2 !! "booking_data" = Some (VDict d2) ->
  same_for_finalizer d1 d2 ->
  fst (booking_step4 env req s1) = fst (booking_step4 env req s2)
  /\ db (snd (booking_step4 env req s1)) = db (snd (booking_step4 env req s2)).
Proof.
  intros Hm Hdb H1 H2 Hsame.
  destruct s1 as [sess1 db1], s2 as [sess2 db2]. cbn [session db] in *. subst db2.
  unfold booking_step4, is_post. rewrite Hm. unfold_app.
  cbn [session db]. rewrite H1, H2. cbn [negb session db fst snd].
  rewrite H1, H2. cbn [py_getitem py_get].
  rewrite (Hsame "service_id"), (Hsame "scheduled_date"),
    (Hsame "scheduled_time"), (Hsame "products_total"),
    (Hsame "special_instructions")
    by (unfold finalizer_keys; cbn; auto 6).
  destruct (dict_get d2 "service_id") as [key|]; [|split; reflexivity].
  destruct (Service_query_get env key) as [[service|]|]; try (split; reflexivity).
  destruct (dict_get d2 "scheduled_date") as [date|]; [|split; reflexivity].
  destruct (dict_get d2 "scheduled_time") as [time|]; [|split; reflexivity].
  destruct (strptime env _ _) as [at_|]; [|split; reflexivity].
  destruct (dict_get d2 "products_total");
    (destruct (py_float_add _ _) as [total|]; [|split; reflexivity]);
    destruct (dict_get d2 "special_instructions");
    cbn [session db bookings pending];
    destruct (commit_result env) as [[]|]; split; reflexivity.
Qed.

(** ** Further results on the booking wizard *)

(** X1: a request to step 2 or step 3 is always answered, never left to an
    unhandled exception, and unless the answer is [success: true] the
    session and the database are exactly as before. *)
Theorem refused_step_changes_nothing req s r s' :
  booking_step2 req s = (r, s') \/ booking_step3 req s = (r, s') ->
  (exists x, r = Ret x) /\ (r <> Ret ok_response -> s' = s).
Proof.
  intros [H | H].
  - destruct (booking_step2_cases req s r s' H)
      as [(-> & Hr & _) | [(-> & _) | (-> & _)]];
      (split; [eauto | intros Hne; first [reflexivity | now contradiction Hne]]).
  - destruct (booking_step3_cases req s r s' H) as [(-> & Hr & _) | (-> & _)];
      (split; [eauto | intros Hne; first [reflexivity | now contradiction Hne]]).
Qed.

Lemma refused_step_changes_nothing_witness :
  booking_step3 (http_post [("scheduled_date", VStr "2025-06-01")]) scenario_state
  = (Ret (fail_response "Error processing request"), scenario_state).
Proof.
  destruct (refused_step_changes_nothing
              (http_post [("scheduled_date", VStr "2025-06-01")]) scenario_state
              (fst (booking_step3 (http_post [("scheduled_date", VStr "2025-06-01")])
                      scenario_state))
              (snd (booking_step3 (http_post [("scheduled_date", VStr "2025-06-01")])
                      scenario_state)))
    as [_ Hsame].
  { right. apply surjective_pairing. }
  rewrite (surjective_pairing (booking_step3 _ scenario_state)).
  rewrite Hsame; [vm_compute; reflexivity | vm_compute; discriminate].
Defined.

(** X2: the handlers keep the draft well formed: if the draft in the session
    is a dict with the fields [service_id], [service_name] and [price], so
    is the draft, if any, after a request to step 2, 3 or 4 or to the
    products page. *)
Theorem draft_stays_well_formed env req s :
  draft_well_formed s ->
  draft_well_formed (snd (booking_step2 req s))
  /\ draft_well_formed (snd (booking_step3 req s))
  /\ draft_well_formed (snd (booking_step4 env req s))
  /\ draft_well_formed (snd (products s)).
Proof.
  intros Hwf. repeat split.
  - destruct (booking_step2 req s) as [r s'] eqn:Hrun. cbn [snd].
    destruct (booking_step2_cases req s r s' Hrun)
      as [(-> & _) | [(_ & data & a & b & c & _ & _ & _ & _ & ->)
                    | (_ & data & d & p & t & _ & Hs & _ & _ & ->)]].
    + exact Hwf.
    + unfold draft_well_formed, with_draft. cbn [session].
      rewrite lookup_insert_eq. eexists. repeat split.
    + unfold draft_well_formed, with_draft in *. cbn [session].
      rewrite lookup_insert_eq. rewrite Hs in Hwf.
      destruct Hwf as (d0 & [= <-] & H1 & H2 & H3).
      eexists. split; [reflexivity|].
      repeat split; now do 2 apply dict_mem_set.
  - destruct (booking_step3 req s) as [r s'] eqn:Hrun. cbn [snd].
    destruct (booking_step3_cases req s r s' Hrun)
      as [(-> & _) | (_ & data & d & a & b & c & _ & Hs & _ & _ & _ & ->)].
    + exact Hwf.
    + unfold draft_well_formed, with_draft in *. cbn [session].
      rewrite lookup_insert_eq. rewrite Hs in Hwf.
      destruct Hwf as (d0 & [= <-] & H1 & H2 & H3).
      eexists. split; [reflexivity|].
      repeat split; now apply dict_mem_update.
  - destruct (booking_step4 env req s) as [r s'] eqn:Hrun. cbn [snd].
    destruct (booking_step4_cases env req s r s' Hrun)
      as [(_ & _ & ->) | (draft & Hs & [(_ & _ & ->) | [(_ & _ & ->)
         | [(_ & _ & ->) | (_ & _ & Hdel)]]])]; try exact Hwf.
    unfold draft_well_formed. rewrite Hdel, lookup_delete_eq. exact I.
  - unfold products, draft_well_formed. unfold_app. cbn [snd session].
    rewrite lookup_insert_eq. eexists. repeat split.
Qed.

Lemma draft_stays_well_formed_witness :
  draft_well_formed
    (snd (booking_step3
            (http_post [("scheduled_date", VStr "2025-06-01");
                        ("scheduled_time", VStr "09:00")])
            scenario_state)).
Proof.
  apply (draft_stays_well_formed (demo_env (Ret tt))).
  unfold draft_well_formed. cbn. eexists. repeat split.
Defined.

(** X3: the Finalizer reads five keys of the draft and no other: changing
    the value under any other key, such as the [price] or the
    [service_name] the client sent or the list of [products], changes
    neither the answer of a Finalizer POST nor the database it leaves. *)
Theorem finalizer_ignores_other_fields env req s d k v :
  method req = POST ->
  session s !! "booking_data" = Some (VDict d) ->
  ~ In k finalizer_keys ->
  fst (booking_step4 env req (with_draft s (VDict (dict_set d k v))))
  = fst (booking_step4 env req s)
  /\ db (snd (booking_step4 env req (with_draft s (VDict (dict_set d k v)))))
     = db (snd (booking_step4 env req s)).
Proof.
  intros Hm Hs Hk.
  apply (booking_step4_agrees env req _ s (dict_set d k v) d Hm); try assumption.
  - reflexivity.
  - unfold with_draft. cbn [session]. apply lookup_insert_eq.
  - intros k' Hk'. apply dict_get_set_ne. intros ->. contradiction.
Qed.

Lemma finalizer_ignores_other_fields_witness :
  fst (booking_step4 (demo_env (Ret tt)) (http_post [])
         (with_draft scenario_state
            (VDict (dict_set
                      (match scenario_draft with VDict d => d | _ => [] end)
                      "price" (VInt 0)))))
  = Ret confirmed_response.
Proof.
  destruct (finalizer_ignores_other_fields (demo_env (Ret tt)) (http_post [])
              scenario_state
              (match scenario_draft with VDict d => d | _ => [] end)
              "price" (VInt 0) eq_refl eq_refl) as [-> _].
  - unfold finalizer_keys. cbn. intros [H | [H | [H | [H | [H | []]]]]];
      discriminate.
  - vm_compute. reflexivity.
Defined.

(** X4: a draft that lacks the date or the time of the schedule, or whose
    [products_total] is not a number, is never confirmed: the Finalizer POST
    answers "Service not found" or "Error confirming booking", creates no
    booking and keeps the draft. *)
Theorem incomplete_draft_is_refused env req s d :
  method req = POST ->
  pending (db s) = [] ->
  session s !! "booking_data" = Some (VDict d) ->
  dict_get d "scheduled_date" = None
  \/ dict_get d "scheduled_time" = None
  \/ (exists v, dict_get d "products_total" = Some v /\ is_number v = false) ->
  exists r,
    booking_step4 env req s = (Ret r, s)
    /\ (r = fail_response "Service not found"
        \/ r = fail_response "Error confirming booking").
Proof.
  intros Hm Hpend Hs Hbad.
  destruct (booking_step4 env req s) as [r s'] eqn:Hrun.
  assert (Hnot : r <> Ret confirmed_response).
  { intros ->.
    apply booking_step4_confirmed_inv in Hrun
      as (draft & key & service & date & time & at_ & pt & total & instr
          & _ & Hs' & _ & _ & Hd & Ht & _ & Hpt & Hsum & _).
    rewrite Hs in Hs'. injection Hs' as <-. cbn [py_getitem py_get] in *.
    destruct Hbad as [Hb | [Hb | (v & Hb & Hv)]]; rewrite Hb in *;
      try discriminate.
    injection Hpt as <-. destruct v; discriminate. }
  destruct (booking_step4_cases env req s r s' Hrun)
    as [(Hnone & _) | (draft & _ & [(Hget & _) | [(_ & -> & ->)
       | [(_ & -> & ->) | (_ & -> & _)]]])].
  - congruence.
  - congruence.
  - eauto.
  - eexists. split; [|right; reflexivity].
    destruct s as [sess [rows pend]]. cbn in *. now subst.
  - now contradiction Hnot.
Qed.

Lemma incomplete_draft_is_refused_witness :
  booking_step4 (demo_env (Ret tt)) (http_post [])
    (with_draft empty_state
       (VDict [("service_id", VInt 3); ("service_name", VStr "Weed Control");
               ("price", VFloat (float_of_Z 65))]))
  = (Ret (fail_response "Error confirming booking"),
     with_draft empty_state
       (VDict [("service_id", VInt 3); ("service_name", VStr "Weed Control");
               ("price", VFloat (float_of_Z 65))])).
Proof.
  destruct (incomplete_draft_is_refused (demo_env (Ret tt)) (http_post [])
              (with_draft empty_state
                 (VDict [("service_id", VInt 3); ("service_name", VStr "Weed Control");
                         ("price", VFloat (float_of_Z 65))]))
              _ eq_refl eq_refl eq_refl (or_introl eq_refl))
    as (r & Hrun & _).
  rewrite Hrun. f_equal. vm_compute in Hrun. now injection Hrun as <-.
Defined.













(** ** Further results on the weather gateway *)

(** X8: [get_weather] always answers: no exception leaves the handler. The
    answer is either the "temporarily unavailable" body with status 500 or
    a body with status 200 that has [success: true], a [data] and a
    [timestamp] field. *)
Theorem get_weather_always_answers lib io location_arg w :
  exists r w',
    get_weather lib io location_arg w = (Ret r, w')
    /\ (r = unavailable_response
        \/ exists body,
             r = jsonify body 200
             /\ dict_get body "success" = Some (VBool true)
             /\ dict_mem body "data" = true
             /\ dict_mem body "timestamp" = true).
Proof.
  destruct (get_weather_cases lib io location_arg w) as (r & w' & Hrun & Hcases).
  exists r, w'. split; [exact Hrun|].
  destruct Hcases
    as [(? & ? & ? & ? & _ & _ & _ & _ & _ & _ & -> & _)
       |[(? & ? & ? & ? & _ & _ & _ & _ & _ & _ & -> & _)
       |[(? & -> & _)
       | (-> & _)]]]; [right | right | right | left; reflexivity];
    eexists; repeat split.
Qed.

(** An entry that is absent, or whose timestamp does not parse to a naive
    time less than two hours old, fails the cache check; the check never
    raises on a dict entry. *)
Lemma cache_entry_invalid lib d key w :
  match dict_get d key with
  | None => True
  | Some entry =>
      exists e, entry = VDict e
                /\ forall t, fromisoformat lib (timestamp_of e) = Ret t ->
                             tzinfo t = None ->
                             two_hours <= clock lib (clock_reads w) - ticks t
  end ->
  exists w1,
    cache_entry_valid lib (VDict d) key w = (Ret false, w1)
    /\ cache_file w1 = cache_file w
    /\ events w1 = events w.
Proof.
  unfold cache_entry_valid, bind, lift, ret. cbn [py_contains py_getitem].
  unfold dict_mem. destruct (dict_get d key) as [entry|]; [|eauto].
  intros (e & -> & Hstale). cbn [py_get]. unfold timestamp_of in Hstale.
  unfold is_cache_valid, try_except, bind, lift, ret, datetime_now, datetime_sub.
  cbn [ticks tzinfo].
  destruct (dict_get e "timestamp") as [ts|];
    (destruct (fromisoformat lib _) as [t|] eqn:Hparse; [|eauto];
     destruct (tzinfo t) eqn:Htz; [eexists; repeat split|];
     specialize (Hstale t eq_refl Htz);
     destruct (Z.ltb_spec (clock lib (clock_reads w) - ticks t) two_hours); [lia|];
     eexists; repeat split).
Qed.

(** X9: an entry is served only while it is less than two hours old. When
    the cache document has no entry for the location, or an entry whose
    timestamp is two hours old or older, or does not parse, or carries a
    time zone, [get_weather] calls the provider exactly once and its answer
    is not tagged [cached: true]. *)
Theorem stale_entry_asks_provider lib io location_arg w d :
  loaded lib io w = VDict d ->
  match dict_get d (cache_key_of (default "Miami, FL" location_arg)) with
  | None => True
  | Some entry =>
      exists e, entry = VDict e
                /\ forall t, fromisoformat lib (timestamp_of e) = Ret t ->
                             tzinfo t = None ->
                             two_hours <= clock lib (clock_reads w) - ticks t
  end ->
  exists r w' rest,
    get_weather lib io location_arg w = (Ret r, w')
    /\ events w'
       = events w ++
         ProviderGet WEATHER_API_URL
           (provider_params lib (default "Miami, FL" location_arg)) :: rest
    /\ (rest = [] \/ exists v, rest = [CacheSave v])
    /\ response_field r "cached" <> Some (VBool true).
Proof.
  intros Hload Hstale.
  destruct (cache_entry_invalid lib d _ w Hstale) as (w1 & Hcheck & Hfile1 & Hev1).
  unfold get_weather, try_except.
  unfold bind at 1. rewrite load_weather_cache_loaded, Hload.
  unfold bind at 1. rewrite Hcheck.
  unfold bind at 1.
  destruct (fetch_from_api_spec lib io (default "Miami, FL" location_arg)
              (VDict d) (cache_key_of (default "Miami, FL" location_arg)) w1)
    as (o & w2 & -> & Hfetch).
  cbn zeta in Hfetch. rewrite Hev1 in Hfetch.
  destruct Hfetch
    as [(resp & data & cache' & _ & _ & _ & _ & _ & -> & ->)
       | ([-> | [e ->]] & _ & Hev2 & _)].
  - eexists _, _, _. split; [reflexivity|]. cbn [events].
    rewrite <- app_assoc. split; [reflexivity|].
    split; [right; eauto | discriminate].
  - unfold bind, datetime_now, ret.
    eexists _, _, []. split; [reflexivity|]. cbn [events].
    split; [exact Hev2|]. split; [now left | discriminate].
  - eexists _, _, []. split; [reflexivity|].
    split; [exact Hev2|]. split; [now left | discriminate].
Qed.

Lemma stale_entry_asks_provider_witness :
  exists r w',
    get_weather two_hours_later (provider_answers (status_reply 500))
      (Some "Austin, TX") austin_world = (Ret r, w')
    /\ response_field r "cached" <> Some (VBool true).
Proof.
  destruct (stale_entry_asks_provider two_hours_later
              (provider_answers (status_reply 500)) (Some "Austin, TX") austin_world
              [("weather_austin,_tx", stored_entry austin_payload "")] eq_refl)
    as (r & w' & rest & Hrun & _ & _ & Hr).
  - cbn. eexists. split; [reflexivity|].
    intros t [= <-] _. cbn. lia.
  - exists r, w'. split; assumption.
Defined.

Lemma dict_set_length (d : dict) k v :
  length (dict_set d k v) = (length d + if dict_mem d k then 0 else 1)%nat.
Proof.
  unfold dict_mem. induction d as [|[a x] d IH]; cbn [dict_set dict_get length].
  - reflexivity.
  - destruct (String.eqb a k); cbn [length]; [lia|]. rewrite IH.
    destruct (dict_get d k); lia.
Qed.

(** What an answer that came from the provider tells about the call. *)
Lemma fresh_answer_inv lib io location_arg w data answered w' :
  get_weather lib io location_arg w = (Ret (fresh_response data answered), w') ->
  exists d stamped,
    loaded lib io w = VDict d
    /\ w' = {| cache_file :=
                 saved_file lib io
                   (VDict (dict_set d (cache_key_of (default "Miami, FL" location_arg))
                             (stored_entry data stamped)))
                   (cache_file w);
               clock_reads := clock_reads w';
               events :=
                 events w ++
                 [ProviderGet WEATHER_API_URL
                    (provider_params lib (default "Miami, FL" location_arg));
                  CacheSave
                    (VDict (dict_set d (cache_key_of (default "Miami, FL" location_arg))
                              (stored_entry data stamped)))] |}.
Proof.
  intros Hrun.
  destruct (get_weather_cases lib io location_arg w) as (r & w0 & Hrun0 & Hcases).
  rewrite Hrun in Hrun0. injection Hrun0 as <- <-.
  destruct Hcases
    as [(? & ? & ? & ? & _ & _ & _ & _ & _ & _ & [=] & _)
       |[(resp & data' & cache' & n & _ & _ & _ & _ & _ & Hset & Heq & ->)
       |[(? & [=] & _)
       | ([=] & _)]]].
  injection Heq as <- _.
  apply py_setitem_dict in Hset as (d & Hload & ->).
  exists d, (isoformat lib (reading lib n)). split; [exact Hload|]. reflexivity.
Qed.

(** X10: a fetch stores its entry and touches no other. When [get_weather]
    answers with a payload from the provider, the document it saves has the
    payload and its timestamp under the key of the location, and under
    every other key what the loaded document had; it has one entry more
    than the loaded document if the key was new and as many if it was
    there. *)
Theorem fetch_stores_entry_and_keeps_others lib io location_arg w data answered w' :
  get_weather lib io location_arg w = (Ret (fresh_response data answered), w') ->
  exists d d' stamped,
    loaded lib io w = VDict d
    /\ In (CacheSave (VDict d')) (events w')
    /\ cache_file w' = saved_file lib io (VDict d') (cache_file w)
    /\ dict_get d' (cache_key_of (default "Miami, FL" location_arg))
       = Some (stored_entry data stamped)
    /\ (forall k, k <> cache_key_of (default "Miami, FL" location_arg) ->
                  dict_get d' k = dict_get d k)
    /\ length d'
       = (length d
          + if dict_mem d (cache_key_of (default "Miami, FL" location_arg))
            then 0 else 1)%nat.
Proof.
  intros Hrun.
  destruct (fresh_answer_inv _ _ _ _ _ _ _ Hrun) as (d & stamped & Hload & ->).
  eexists d, _, stamped. split; [exact Hload|]. cbn [events cache_file].
  split; [apply in_or_app; right; right; left; reflexivity|].
  split; [reflexivity|]. split; [apply dict_get_set_eq|].
  split; [|apply dict_set_length].
  intros k Hk. apply dict_get_set_ne. congruence.
Qed.

Lemma fetch_stores_entry_and_keeps_others_witness :
  exists w' d',
    get_weather (demo_platform austin_document) (provider_answers (ok_reply austin_payload))
      (Some "Austin, TX") new_world = (Ret (fresh_response austin_payload "xx"), w')
    /\ In (CacheSave (VDict d')) (events w')
    /\ length d' = 1%nat.
Proof.
  eexists.
  edestruct (fetch_stores_entry_and_keeps_others (demo_platform austin_document)
               (provider_answers (ok_reply austin_payload)) (Some "Austin, TX")
               new_world austin_payload "xx")
    as (d & d' & stamped & Hload & Hin & _ & _ & _ & Hlen).
  - vm_compute. reflexivity.
  - exists d'. split; [reflexivity|]. split; [exact Hin|].
    rewrite Hlen. vm_compute in Hload. injection Hload as <-. reflexivity.
Defined.

(** X11: what was saved is what is loaded. After a save that completes, a
    load that can open the file returns the saved document, provided the
    decoder reads back the text the encoder wrote for it; and after a save
    whose [open] fails, a load returns what it would have returned
    before. *)
Theorem save_then_load lib io io' v w :
  read_fault io' = false ->
  (write_fault io = None ->
   json_load lib (String.concat "" (iterencode lib v)) = Ret v ->
   fst (load_weather_cache lib io' (snd (save_weather_cache lib io v w))) = Ret v)
  /\ (write_fault io = Some 0%nat ->
      fst (load_weather_cache lib io' (snd (save_weather_cache lib io v w)))
      = fst (load_weather_cache lib io' w)).
Proof.
  intros Hread. rewrite save_weather_cache_spec. cbn [snd].
  rewrite !load_weather_cache_loaded. cbn [fst]. unfold loaded, saved_file.
  cbn [cache_file]. rewrite Hread. split.
  - intros -> ->. reflexivity.
  - intros ->. reflexivity.
Qed.

Lemma save_then_load_witness :
  fst (load_weather_cache (demo_platform austin_document)
         (provider_answers (status_reply 500))
         (snd (save_weather_cache (demo_platform austin_document)
                 (provider_answers (status_reply 500)) austin_document new_world)))
  = Ret austin_document.
Proof.
  destruct (save_then_load (demo_platform austin_document)
              (provider_answers (status_reply 500))
              (provider_answers (status_reply 500)) austin_document new_world
              eq_refl) as [Hround _].
  apply Hround; reflexivity.
Defined.

(** X12: a cache file that decodes to something other than a JSON object is
    never repaired. With such a document every lookup is answered with the
    mock payload or with the "temporarily unavailable" body, also when the
    provider answered well, and the file is left as it is. *)
Theorem non_object_cache_is_never_repaired lib io location_arg w r w' :
  (forall d, loaded lib io w <> VDict d) ->
  get_weather lib io location_arg w = (Ret r, w') ->
  cache_file w' = cache_file w
  /\ (r = unavailable_response
      \/ exists timestamp,
           r = mock_response (default "Miami, FL" location_arg) timestamp).
Proof.
  intros Hnot Hrun.
  destruct (get_weather_cases lib io location_arg w) as (r0 & w0 & Hrun0 & Hcases).
  rewrite Hrun in Hrun0. injection Hrun0 as <- <-.
  destruct Hcases
    as [(entry & ? & ? & ? & Hentry & _)
       |[(? & ? & cache' & ? & _ & _ & _ & _ & _ & Hset & _)
       |[(n & -> & Hfile & _)
       | (-> & Hfile & _)]]].
  - apply py_getitem_dict in Hentry as (d & Hload & _). now destruct (Hnot d).
  - apply py_setitem_dict in Hset as (d & Hload & _). now destruct (Hnot d).
  - split; [exact Hfile|]. right. eauto.
  - split; [exact Hfile|]. now left.
Qed.

Lemma non_object_cache_is_never_repaired_witness :
  exists r w',
    get_weather (demo_platform (VList [])) (provider_answers (ok_reply austin_payload))
      (Some "Austin, TX") austin_world = (Ret r, w')
    /\ cache_file w' = cache_file austin_world
    /\ (r = unavailable_response
        \/ exists timestamp, r = mock_response "Austin, TX" timestamp).
Proof.
  eexists _, _. split; [vm_compute; reflexivity|].
  apply (non_object_cache_is_never_repaired (demo_platform (VList []))
           (provider_answers (ok_reply austin_payload)) (Some "Austin, TX")
           austin_world).
  - intros d. vm_compute. discriminate.
  - vm_compute. reflexivity.
Defined.

Lemma lower_ascii_normalized c :
  let c' := lower_ascii c in
  negb (Ascii.eqb (if Ascii.eqb c' " " then "_"%char else c') " ")
  && negb ((65 <=? nat_of_ascii (if Ascii.eqb c' " " then "_"%char else c'))%nat
           && (nat_of_ascii (if Ascii.eqb c' " " then "_"%char else c') <=? 90)%nat)
  = true.
Proof.
  destruct c as [[] [] [] [] [] [] [] []]; reflexivity.
Qed.

Lemma replace_lower_normalized s : normalized (replace " " "_" (lower s)) = true.
Proof.
  induction s as [|c s IH]; [reflexivity|].
  cbn [lower replace normalized]. rewrite IH, andb_true_r.
  apply lower_ascii_normalized.
Qed.

Lemma normalized_char c :
  negb (Ascii.eqb c " ")
  && negb ((65 <=? nat_of_ascii c)%nat && (nat_of_ascii c <=? 90)%nat) = true ->
  (if Ascii.eqb (lower_ascii c) " " then "_"%char else lower_ascii c) = c.
Proof.
  destruct c as [[] [] [] [] [] [] [] []]; vm_compute; congruence.
Qed.

Lemma replace_lower_fixes_normalized s :
  normalized s = true -> replace " " "_" (lower s) = s.
Proof.
  induction s as [|c s IH]; [reflexivity|].
  cbn [lower replace normalized]. intros [Hc Hs]%andb_true_iff.
  rewrite (normalized_char c Hc), (IH Hs). reflexivity.
Qed.

Lemma lower_ascii_stays_ascii c :
  (nat_of_ascii c <? 128)%nat = true ->
  (nat_of_ascii (if Ascii.eqb (lower_ascii c) " " then "_"%char else lower_ascii c)
   <? 128)%nat = true.
Proof.
  destruct c as [[] [] [] [] [] [] [] []]; vm_compute; congruence.
Qed.

Lemma replace_lower_ascii s :
  is_ascii s = true -> is_ascii (replace " " "_" (lower s)) = true.
Proof.
  induction s as [|c s IH]; [reflexivity|].
  cbn [lower replace is_ascii]. intros [Hc Hs]%andb_true_iff.
  now rewrite (lower_ascii_stays_ascii c Hc), (IH Hs).
Qed.

Lemma replace_lower_length s :
  String.length (replace " " "_" (lower s)) = String.length s.
Proof.
  induction s as [|c s IH]; [reflexivity|].
  cbn [lower replace String.length]. now rewrite IH.
Qed.

(** X13: for ASCII locations the cache key is a normal form of the
    location. The text after the prefix [weather_] is as long as the
    location and has no space and no upper-case letter; normalising it
    again gives the same key, so the key of an ASCII location that is
    already in that form is the prefix followed by the location itself. *)
Theorem cache_key_is_normal_form (location : string) :
  is_ascii location = true ->
  exists n,
    cache_key_of location = "weather_" +:+ n
    /\ is_ascii n = true
    /\ String.length n = String.length location
    /\ normalized n = true
    /\ cache_key_of n = cache_key_of location
    /\ (normalized location = true -> n = location).
Proof.
  intros Hascii.
  exists (replace " " "_" (lower location)). split; [reflexivity|].
  split; [now apply replace_lower_ascii|].
  split; [apply replace_lower_length|].
  split; [apply replace_lower_normalized|].
  split.
  - unfold cache_key_of. f_equal.
    apply replace_lower_fixes_normalized, replace_lower_normalized.
  - apply replace_lower_fixes_normalized.
Qed.

Lemma cache_key_is_normal_form_witness :
  cache_key_of "austin,_tx" = "weather_austin,_tx".
Proof.
  destruct (cache_key_is_normal_form "austin,_tx" eq_refl)
    as (n & -> & _ & _ & _ & _ & Hfix).
  rewrite (Hfix eq_refl). reflexivity.
Defined.

(** What [weather_status] does, by the document the file holds. *)
Lemma weather_status_spec lib io str_of_exception w :
  weather_status lib io str_of_exception w
  = match py_len (loaded lib io w) with
    | Ret n =>
        (Ret (jsonify [("success", VBool true);
                       ("cache_entries", VInt n);
                       ("api_key_configured",
                        VBool (negb (String.eqb (WEATHER_API_KEY lib) "")));
                       ("timestamp",
                        VStr (isoformat lib (reading lib (clock_reads w))))] 200),
         {| cache_file := cache_file w;
            clock_reads := S (clock_reads w);
            events := events w |})
    | Raise e =>
        (Ret (jsonify [("success", VBool false);
                       ("error", VStr (str_of_exception e))] 500), w)
    end.
Proof.
  unfold weather_status, try_except. unfold bind at 1.
  rewrite load_weather_cache_loaded. unfold bind, lift, ret, datetime_now, reading.
  destruct (py_len (loaded lib io w)); reflexivity.
Qed.

(** X14: the status endpoint only reads. [weather_status] never raises,
    leaves the cache file and the record of provider calls and saves as
    they are, and answers with status 200 or 500; with a missing, unreadable
    or undecodable cache file it reports 0 entries, and it answers 500
    exactly when the file decodes to a value that has no length. *)
Theorem weather_status_only_reads lib io str_of_exception w :
  exists body status w',
    weather_status lib io str_of_exception w = (Ret (jsonify body status), w')
    /\ cache_file w' = cache_file w
    /\ events w' = events w
    /\ (status = 200 /\ dict_get body "success" = Some (VBool true)
        /\ (exists n, py_len (loaded lib io w) = Ret n
                      /\ dict_get body "cache_entries" = Some (VInt n))
        \/ status = 500 /\ dict_get body "success" = Some (VBool false)
           /\ exists e, py_len (loaded lib io w) = Raise e)
    /\ ((cache_file w = None
         \/ read_fault io = true
         \/ (exists text e, cache_file w = Some text
                            /\ json_load lib text = Raise e)) ->
        status = 200 /\ dict_get body "cache_entries" = Some (VInt 0)).
Proof.
  rewrite weather_status_spec.
  assert (Hempty : (cache_file w = None
                    \/ read_fault io = true
                    \/ (exists text e, cache_file w = Some text
                                       /\ json_load lib text = Raise e)) ->
                   loaded lib io w = VDict []).
  { unfold loaded. intros [->|[Hr|(text & e & -> & Hl)]]; [reflexivity| |].
    - rewrite Hr. now destruct (cache_file w).
    - rewrite Hl. now destruct (read_fault io). }
  destruct (py_len (loaded lib io w)) as [n|e] eqn:Hlen.
  - eexists _, _, _. split; [reflexivity|]. cbn [cache_file events].
    split; [reflexivity|]. split; [reflexivity|]. split.
    + left. split; [reflexivity|]. split; [reflexivity|]. eauto.
    + intros Hfile. rewrite (Hempty Hfile) in Hlen. injection Hlen as <-.
      split; reflexivity.
  - eexists _, _, _. split; [reflexivity|].
    split; [reflexivity|]. split; [reflexivity|]. split.
    + right. split; [reflexivity|]. split; [reflexivity|]. eauto.
    + intros Hfile. rewrite (Hempty Hfile) in Hlen. discriminate.
Qed.

Lemma weather_status_only_reads_witness :
  exists body w',
    weather_status (demo_platform austin_document)
      (provider_answers (status_reply 500)) (fun _ => "") new_world
    = (Ret (jsonify body 200), w')
    /\ dict_get body "cache_entries" = Some (VInt 0).
Proof.
  destruct (weather_status_only_reads (demo_platform austin_document)
              (provider_answers (status_reply 500)) (fun _ => "") new_world)
    as (body & status & w' & Hrun & _ & _ & _ & Hzero).
  destruct (Hzero (or_introl eq_refl)) as [-> Hcount].
  exists body, w'. split; [exact Hrun | exact Hcount].
Defined.

(** X15: a fetch shows in the status. After [get_weather] answered with a
    payload from the provider and its save completed, a status request that
    can read the file back (the decoder reads the text the encoder wrote
    for a saved document) reports one entry more than the document had before if the key of the
    location was new, and as many if it was there. *)
Theorem status_counts_the_fetched_entry
    lib io io' str_of_exception location_arg w data answered w' d :
  get_weather lib io location_arg w = (Ret (fresh_response data answered), w') ->
  loaded lib io w = VDict d ->
  write_fault io = None ->
  read_fault io' = false ->
  (forall v, In (CacheSave v) (events w') ->
             json_load lib (String.concat "" (iterencode lib v)) = Ret v) ->
  exists body w'',
    weather_status lib io' str_of_exception w' = (Ret (jsonify body 200), w'')
    /\ dict_get body "cache_entries"
       = Some (VInt (Z.of_nat
                       (length d
                        + if dict_mem d (cache_key_of (default "Miami, FL" location_arg))
                          then 0 else 1))).
Proof.
  intros Hrun Hload Hwrite Hread Hcodec.
  destruct (fresh_answer_inv _ _ _ _ _ _ _ Hrun) as (d0 & stamped & Hload0 & Hw').
  rewrite Hload in Hload0. injection Hload0 as <-.
  rewrite weather_status_spec.
  assert (Hl : loaded lib io' w'
               = VDict (dict_set d (cache_key_of (default "Miami, FL" location_arg))
                          (stored_entry data stamped))).
  { rewrite Hw' in Hcodec |- *. unfold loaded, saved_file. cbn [cache_file].
    rewrite Hwrite, Hread, Hcodec; [reflexivity|].
    cbn [events]. apply in_or_app. right. right. left. reflexivity. }
  rewrite Hl. cbn [py_len]. eexists _, _. split; [reflexivity|].
  cbn [dict_get String.eqb Ascii.eqb Bool.eqb]. rewrite dict_set_length. reflexivity.
Qed.

Lemma status_counts_the_fetched_entry_witness :
  exists body w' w'',
    get_weather (demo_platform austin_document)
      (provider_answers (ok_reply austin_payload)) (Some "Austin, TX") new_world
    = (Ret (fresh_response austin_payload "xx"), w')
    /\ weather_status (demo_platform austin_document)
         (provider_answers (status_reply 500)) (fun _ => "") w'
       = (Ret (jsonify body 200), w'')
    /\ dict_get body "cache_entries" = Some (VInt 1).
Proof.
  assert (Hrun : get_weather (demo_platform austin_document)
                   (provider_answers (ok_reply austin_payload)) (Some "Austin, TX")
                   new_world
                 = (Ret (fresh_response austin_payload "xx"),
                    {| cache_file := Some "{...}";
                       clock_reads := 2;
                       events :=
                         [ProviderGet WEATHER_API_URL
                            (provider_params (demo_platform austin_document)
                               "Austin, TX");
                          CacheSave austin_document] |}))
    by (vm_compute; reflexivity).
  destruct (status_counts_the_fetched_entry (demo_platform austin_document)
              (provider_answers (ok_reply austin_payload))
              (provider_answers (status_reply 500)) (fun _ => "")
              (Some "Austin, TX") new_world austin_payload "xx" _ [] Hrun
              eq_refl eq_refl eq_refl)
    as (body & w'' & Hstatus & Hcount).
  - intros v [[=]|[[= <-]|[]]]. reflexivity.
  - eexists body, _, w''. split; [exact Hrun|]. split; [exact Hstatus | exact Hcount].
Defined.

(** X26: locations with the same key share one cache entry. When a call
    for one location was answered by the provider and its save completed, a
    call for any location with the same cache key (another spelling in
    letter case, or an underscore for a space) whose clock reading is less
    than two hours after the first call began is answered from the cache
    with the payload fetched for the first location, and makes no provider
    call. This holds with a decoder that reads back what the encoder wrote,
    a timestamp parser that reads back what [isoformat] wrote, and a clock
    that does not go backwards. *)
Theorem same_key_is_served_from_cache lib io1 io2 a b w0 w1 data answered :
  get_weather lib io1 (Some a) w0 = (Ret (fresh_response data answered), w1) ->
  cache_key_of a = cache_key_of b ->
  write_fault io1 = None ->
  read_fault io2 = false ->
  (forall v, In (CacheSave v) (events w1) ->
             json_load lib (String.concat "" (iterencode lib v)) = Ret v) ->
  (forall n, fromisoformat lib (VStr (isoformat lib (reading lib n)))
             = Ret (reading lib n)) ->
  (forall m n, (m <= n)%nat -> clock lib m <= clock lib n) ->
  clock lib (clock_reads w1) - clock lib (clock_reads w0) < two_hours ->
  exists stamped w2,
    get_weather lib io2 (Some b) w1 = (Ret (cached_response data (VStr stamped)), w2)
    /\ events w2 = events w1
    /\ cache_file w2 = cache_file w1.
Proof.
  intros Hfirst Hkey Hwrite Hread Hdecode Hparse Hmono Hsoon.
  destruct (get_weather_cases lib io1 (Some a) w0) as (r & w & Hrun & Hcases).
  rewrite Hfirst in Hrun. injection Hrun as <- <-.
  destruct Hcases
    as [(? & ? & ? & ? & _ & _ & _ & _ & _ & _ & [=] & _)
       |[(resp & data' & cache' & n & _ & _ & _ & _ & Hn & Hset & Heq & ->)
       |[(? & [=] & _)
       | ([=] & _)]]].
  injection Heq as <- _.
  apply py_setitem_dict in Hset as (entries & _ & ->).
  cbn [events cache_file clock_reads] in *.
  change (default "Miami, FL" (Some a)) with a in *.
  exists (isoformat lib (reading lib n)). eexists. split.
  - eapply (get_weather_hit lib io2 (Some b) _ _ _ data _ (reading lib n)).
    + unfold loaded, saved_file. cbn [cache_file]. rewrite Hwrite, Hread.
      rewrite Hdecode; [reflexivity|].
      apply in_or_app. right. right. left. reflexivity.
    + change (default "Miami, FL" (Some b)) with b. rewrite <- Hkey.
      apply dict_get_set_eq.
    + reflexivity.
    + reflexivity.
    + apply Hparse.
    + reflexivity.
    + cbn [clock_reads reading ticks].
      assert (Hle : clock lib (clock_reads w0) <= clock lib n)
        by (apply Hmono; lia).
      revert Hle Hsoon.
      generalize (clock lib (S (S n))), (clock lib n), (clock lib (clock_reads w0)).
      unfold two_hours. lia.
  - split; reflexivity.
Qed.

Lemma same_key_is_served_from_cache_witness :
  let lib := demo_platform austin_document in
  let io := provider_answers (ok_reply austin_payload) in
  exists w1 stamped w2,
    get_weather lib io (Some "Austin, TX") new_world
      = (Ret (fresh_response austin_payload "xx"), w1)
    /\ get_weather lib io (Some "austin,_tx") w1
      = (Ret (cached_response austin_payload (VStr stamped)), w2)
    /\ events w2 = events w1.
Proof.
  intros lib io.
  set (w1 := snd (get_weather lib io (Some "Austin, TX") new_world)).
  destruct (same_key_is_served_from_cache lib io io "Austin, TX" "austin,_tx"
              new_world w1 austin_payload "xx")
    as (stamped & w2 & Hsecond & Hevents & _).
  - vm_compute. reflexivity.
  - reflexivity.
  - reflexivity.
  - reflexivity.
  - intros v Hin. vm_compute in Hin.
    destruct Hin as [[=] | [[= <-] | []]]. reflexivity.
  - intros n. cbn. unfold reading. cbn. f_equal. f_equal.
    rewrite Nat2Z.id.
    assert (Hlen : forall k, String.length (unary k) = k)
      by (induction k; cbn; congruence).
    rewrite Hlen. lia.
  - intros m n Hmn. cbn. lia.
  - vm_compute. reflexivity.
  - exists w1, stamped, w2. split; [vm_compute; reflexivity|]. split; assumption.
Defined.

(** * Properties of the pages and the API over a user's bookings *)

Lemma points_spec env query s :
  points env query s
  = (Ret (match query 0%nat, query 1%nat with
          | Ret _, Ret _ =>
              seeds_page
                (len (bookings_of (current_user_id env) "completed" (bookings (db s))) * 100
                 + len (bookings_of (current_user_id env) "confirmed" (bookings (db s))) * 25
                 + 500)
                (len (bookings_of (current_user_id env) "completed" (bookings (db s))))
                (len (bookings_of (current_user_id env) "confirmed" (bookings (db s))))
                500
          | _, _ => seeds_page 0 0 0 0
          end), s).
Proof.
  unfold points, Booking_query_filter_by, try_except, bind, ret.
  destruct (query 0%nat); [|reflexivity].
  destruct (query 1%nat); reflexivity.
Qed.

Lemma bookings_of_app user status rows more :
  bookings_of user status (rows ++ more)
  = bookings_of user status rows ++ bookings_of user status more.
Proof. unfold bookings_of. apply List.filter_app. Qed.

Lemma bookings_of_single user status b :
  bookings_of user status [b]
  = if (Booking.user_id b =? user) && String.eqb (Booking.status b) status
    then [b] else [].
Proof. reflexivity. Qed.

Lemma seeds_page_eq total total' completed completed' confirmed confirmed' bonus :
  total = total' -> completed = completed' -> confirmed = confirmed' ->
  seeds_page total completed confirmed bonus
  = seeds_page total' completed' confirmed' bonus.
Proof. now intros -> -> ->. Qed.

Lemma len_app {A} (l m : list A) : len (l ++ m) = len l + len m.
Proof. unfold len. rewrite length_app. lia. Qed.

Lemma len_nonneg {A} (l : list A) : 0 <= len l.
Proof. unfold len. lia. Qed.

(** X16: the seeds page only reads and its figures add up. [points] never
    raises and changes nothing; the page shows a total that is 100 per
    completed booking plus 25 per confirmed booking of the user plus the
    bonus shown, where the bonus is 500; when a query fails every figure is
    0, the bonus included. *)
Theorem seeds_page_adds_up env query s :
  exists total completed confirmed bonus,
    points env query s = (Ret (seeds_page total completed confirmed bonus), s)
    /\ total = completed * 100 + confirmed * 25 + bonus
    /\ ((bonus = 500
         /\ query 0%nat = Ret tt /\ query 1%nat = Ret tt
         /\ completed
            = len (bookings_of (current_user_id env) "completed" (bookings (db s)))
         /\ confirmed
            = len (bookings_of (current_user_id env) "confirmed" (bookings (db s))))
        \/ (bonus = 0 /\ completed = 0 /\ confirmed = 0
            /\ exists k e, (k < 2)%nat /\ query k = Raise e)).
Proof.
  rewrite points_spec.
  destruct (query 0%nat) as [[]|e] eqn:H0.
  2:{ exists 0, 0, 0, 0. repeat split; try reflexivity. right.
      repeat split. exists 0%nat, e. split; [lia|assumption]. }
  destruct (query 1%nat) as [[]|e] eqn:H1.
  2:{ exists 0, 0, 0, 0. repeat split; try reflexivity. right.
      repeat split. exists 1%nat, e. split; [lia|assumption]. }
  eexists _, _, _, _. split; [reflexivity|]. split; [reflexivity|].
  left. repeat split.
Qed.

(** X17: a confirmed booking earns its user 25 seeds. When the Finalizer
    has confirmed a booking, the seeds page of the user who booked shows one
    confirmed booking more and 25 seeds more than before, and the same
    completed bookings; the page of every other user shows what it showed
    before. *)
Theorem confirmed_booking_earns_25_seeds env req s s1 viewer query :
  booking_step4 env req s = (Ret confirmed_response, s1) ->
  pending (db s) = [] ->
  query 0%nat = Ret tt ->
  query 1%nat = Ret tt ->
  exists seeds completed confirmed,
    points viewer query s = (Ret (seeds_page seeds completed confirmed 500), s)
    /\ 500 <= seeds
    /\ points viewer query s1
       = (Ret (if current_user_id viewer =? current_user_id env
               then seeds_page (seeds + 25) completed (confirmed + 1) 500
               else seeds_page seeds completed confirmed 500), s1).
Proof.
  intros Hrun Hpending Hq0 Hq1.
  apply booking_step4_confirmed_inv in Hrun
    as (draft & key & service & date & time & at_ & products_total & total
        & instructions & _ & _ & _ & _ & _ & _ & _ & _ & _ & _ & _ & ->).
  rewrite !points_spec, Hq0, Hq1. cbn [db bookings]. rewrite Hpending.
  cbn [app]. rewrite !bookings_of_app, !len_app.
  eexists _, _, _. split; [reflexivity|]. split.
  { pose proof (len_nonneg (bookings_of (current_user_id viewer) "completed"
                              (bookings (db s)))).
    pose proof (len_nonneg (bookings_of (current_user_id viewer) "confirmed"
                              (bookings (db s)))).
    lia. }
  rewrite !bookings_of_single. cbn [Booking.user_id Booking.status].
  change (String.eqb "confirmed" "completed") with false.
  change (String.eqb "confirmed" "confirmed") with true.
  rewrite andb_false_r, andb_true_r, (Z.eqb_sym (current_user_id env)).
  destruct (current_user_id viewer =? current_user_id env);
    do 2 f_equal; apply seeds_page_eq; unfold len; cbn [length]; lia.
Qed.

Lemma confirmed_booking_earns_25_seeds_witness :
  points (demo_env (Ret tt)) (fun _ => Ret tt) scenario_state
  = (Ret (seeds_page 500 0 0 500), scenario_state)
  /\ exists s1,
       booking_step4 (demo_env (Ret tt)) (http_post []) scenario_state
       = (Ret confirmed_response, s1)
       /\ points (demo_env (Ret tt)) (fun _ => Ret tt) s1
          = (Ret (seeds_page 525 0 1 500), s1).
Proof.
  split; [reflexivity|]. eexists. split; [reflexivity|].
  destruct (confirmed_booking_earns_25_seeds (demo_env (Ret tt)) (http_post [])
              scenario_state _ (demo_env (Ret tt)) (fun _ => Ret tt)
              eq_refl eq_refl eq_refl eq_refl)
    as (seeds & completed & confirmed & Hbefore & _ & Hafter).
  vm_compute in Hbefore. injection Hbefore as <- <- <-. exact Hafter.
Defined.

(** The body of the statistics. *)
Lemma get_user_stats_cases env cal query created_at s :
  let mine := user_bookings_of (current_user_id env) (bookings (db s)) in
  exists r,
    get_user_stats env cal query created_at s = (Ret r, s)
    /\ (r = jsonify [("error", VStr "Error fetching stats")] 500
        \/ exists member_since found next,
             query = Ret tt
             /\ py_strftime cal created_at "%B %Y" = Ret member_since
             /\ upcoming cal 0 mine = Ret found
             /\ r = jsonify
                      [("total_bookings", VInt (len mine));
                       ("completed_bookings",
                        VInt (len (List.filter
                                     (fun b => String.eqb (Booking.status b) "completed")
                                     mine)));
                       ("pending_bookings",
                        VInt (len (List.filter
                                     (fun b => String.eqb (Booking.status b) "pending")
                                     mine)));
                       ("confirmed_bookings",
                        VInt (len (List.filter
                                     (fun b => String.eqb (Booking.status b) "confirmed")
                                     mine)));
                       ("total_spent",
                        py_sum (map Booking.total_price
                                  (List.filter (status_in ["completed"; "confirmed"])
                                     mine)));
                       ("member_since", VStr member_since);
                       ("next_booking", next)] 200
             /\ ((found = [] /\ next = VNone)
                 \/ exists first others b service date time,
                      found = first :: others
                      /\ py_min_by_date first others = Ret b
                      /\ Service_query_get env (VInt (Booking.service_id b))
                         = Ret (Some service)
                      /\ strftime cal (Booking.scheduled_date b) "%B %d, %Y" = Ret date
                      /\ strftime cal (Booking.scheduled_date b) "%I:%M %p" = Ret time
                      /\ next = VDict [("service", VStr (Service.name service));
                                       ("date", VStr date);
                                       ("time", VStr time)])).
Proof.
  intros mine. unfold get_user_stats, Booking_query_filter_by, try_except, bind, lift, ret.
  fold (user_bookings_of (current_user_id env) (bookings (db s))). fold mine.
  destruct query as [[]|e]; [|eauto].
  destruct (py_strftime cal created_at "%B %Y") as [member_since|e]; [|eauto].
  destruct (upcoming cal 0 mine) as [[|first others]|e] eqn:Hup; [| |eauto].
  { eexists. split; [reflexivity|]. right. exists member_since, [], VNone.
    repeat split; auto. }
  destruct (py_min_by_date first others) as [b|e] eqn:Hmin; [|eauto].
  destruct (Service_query_get env (VInt (Booking.service_id b)))
    as [[service|]|e] eqn:Hservice; cbn [py_getattr]; [| eauto | eauto].
  destruct (strftime cal (Booking.scheduled_date b) "%B %d, %Y") as [date|e] eqn:Hdate;
    [|eauto].
  destruct (strftime cal (Booking.scheduled_date b) "%I:%M %p") as [time|e] eqn:Htime;
    [|eauto].
  eexists. split; [reflexivity|]. right. eexists member_since, (first :: others), _.
  repeat split; auto. right. exists first, others, b, service, date, time.
  repeat split; auto.
Qed.

Lemma upcoming_spec cal : forall mine k found,
  upcoming cal k mine = Ret found ->
  (forall b, In b mine -> tzinfo (Booking.scheduled_date b) = None)
  /\ (forall b, In b found ->
                exists i, mine !! i = Some b /\ is_upcoming cal (k + i) b)
  /\ (forall i b, mine !! i = Some b -> is_upcoming cal (k + i) b -> In b found).
Proof.
  induction mine as [|a mine IH]; intros k found; cbn [upcoming].
  - intros [= <-]. repeat split; [intros ? []|intros ? []|]. intros i b Hi.
    now rewrite lookup_nil in Hi.
  - unfold datetime_gt at 1. cbn [tzinfo ticks].
    destruct (tzinfo (Booking.scheduled_date a)) eqn:Hnaive; [discriminate|].
    destruct (upcoming cal (S k) mine) as [rest|] eqn:Hrest; [|discriminate].
    destruct (IH _ _ Hrest) as (Hall & Hsound & Hcomplete).
    match goal with |- context [if ?c then _ else _] => set (keep := c) end.
    assert (Hhead : keep = true <-> is_upcoming cal (k + 0) a).
    { subst keep. unfold is_upcoming, status_in. cbn [existsb].
      rewrite Nat.add_0_r, andb_true_iff, Z.ltb_lt, !orb_true_iff, !String.eqb_eq.
      intuition congruence. }
    clearbody keep.
    intros [= <-]. split; [|split].
    + intros b [<-|Hb]; auto.
    + intros b Hb.
      assert (Hcases : (b = a /\ is_upcoming cal (k + 0) a) \/ In b rest).
      { destruct keep.
        - destruct Hb as [<-|Hb]; [left; split; [reflexivity|now apply Hhead]|now right].
        - now right. }
      destruct Hcases as [[-> Hup]|Hin].
      * exists 0%nat. split; [reflexivity|exact Hup].
      * destruct (Hsound b Hin) as (i & Hi & Hup). exists (S i). split; [exact Hi|].
        now replace (k + S i)%nat with (S k + i)%nat by lia.
    + intros [|i] b Hi Hup.
      * cbn in Hi. injection Hi as ->. apply Hhead in Hup. rewrite Hup. now left.
      * cbn in Hi. replace (k + S i)%nat with (S k + i)%nat in Hup by lia.
        pose proof (Hcomplete i b Hi Hup).
        destruct keep; [now right|assumption].
Qed.

Lemma py_min_by_date_spec : forall others best b,
  py_min_by_date best others = Ret b ->
  (forall c, In c (best :: others) -> tzinfo (Booking.scheduled_date c) = None) ->
  In b (best :: others)
  /\ forall c, In c (best :: others) ->
               ticks (Booking.scheduled_date b) <= ticks (Booking.scheduled_date c).
Proof.
  induction others as [|a others IH]; intros best b; cbn [py_min_by_date].
  - intros [= <-] _. split; [now left|]. intros c [<-|[]]. lia.
  - intros Hrun Hnaive. unfold datetime_lt, datetime_gt in Hrun.
    rewrite (Hnaive best), (Hnaive a) in Hrun by (cbn; auto).
    destruct (ticks (Booking.scheduled_date a) <? ticks (Booking.scheduled_date best))
      eqn:Hlt.
    + apply Z.ltb_lt in Hlt.
      destruct (IH _ _ Hrun) as [Hin Hmin].
      { intros c [<-|Hc]; apply Hnaive; cbn; auto. }
      split.
      * destruct Hin as [<-|Hin]; cbn; auto.
      * intros c [<-|[<-|Hc]].
        -- specialize (Hmin a (or_introl eq_refl)). lia.
        -- apply Hmin. now left.
        -- apply Hmin. now right.
    + apply Z.ltb_ge in Hlt.
      destruct (IH _ _ Hrun) as [Hin Hmin].
      { intros c [<-|Hc]; apply Hnaive; cbn; auto. }
      split.
      * destruct Hin as [<-|Hin]; cbn; auto.
      * intros c [<-|[<-|Hc]].
        -- apply Hmin. now left.
        -- specialize (Hmin best (or_introl eq_refl)). lia.
        -- apply Hmin. now right.
Qed.

(** X18: the next booking of the statistics is the earliest upcoming one.
    When [get_user_stats] answers with the statistics, nothing has changed,
    and either [next_booking] is null and no booking of the user is
    upcoming (pending or confirmed, and scheduled after the reading of the
    clock taken for it), or [next_booking] shows the service, date and time
    of an upcoming booking of the user that is scheduled no later than any
    other upcoming one. *)
Theorem next_booking_is_earliest_upcoming env cal query created_at s body s' :
  get_user_stats env cal query created_at s = (Ret (jsonify body 200), s') ->
  let mine := user_bookings_of (current_user_id env) (bookings (db s)) in
  s' = s
  /\ ((dict_get body "next_booking" = Some VNone
       /\ forall i b, mine !! i = Some b -> ~ is_upcoming cal i b)
      \/ exists i b service date time,
           mine !! i = Some b
           /\ is_upcoming cal i b
           /\ (forall j c, mine !! j = Some c -> is_upcoming cal j c ->
                           ticks (Booking.scheduled_date b)
                           <= ticks (Booking.scheduled_date c))
           /\ Service_query_get env (VInt (Booking.service_id b)) = Ret (Some service)
           /\ strftime cal (Booking.scheduled_date b) "%B %d, %Y" = Ret date
           /\ strftime cal (Booking.scheduled_date b) "%I:%M %p" = Ret time
           /\ dict_get body "next_booking"
              = Some (VDict [("service", VStr (Service.name service));
                             ("date", VStr date);
                             ("time", VStr time)])).
Proof.
  intros Hrun mine.
  destruct (get_user_stats_cases env cal query created_at s) as (r & Hrun' & Hcases).
  rewrite Hrun in Hrun'. injection Hrun' as <- ->. split; [reflexivity|].
  destruct Hcases as [[=]|(member_since & found & next & _ & _ & Hup & [= ->] & Hnext)].
  fold mine in Hup. destruct (upcoming_spec _ _ _ _ Hup) as (Hnaive & Hsound & Hcomplete).
  destruct Hnext as [[-> ->]|(first & others & b & service & date & time
                              & -> & Hmin & Hservice & Hdate & Htime & ->)].
  - left. split; [reflexivity|]. intros i b Hi Hupc. exact (Hcomplete i b Hi Hupc).
  - right. apply py_min_by_date_spec in Hmin as [Hin Hmin].
    2:{ intros c Hc. destruct (Hsound c Hc) as (i & Hi & Hnaive' & _). exact Hnaive'. }
    destruct (Hsound b Hin) as (i & Hi & Hb).
    exists i, b, service, date, time.
    split; [exact Hi|]. split; [exact Hb|]. split; [|auto].
    intros j c Hj Hc. apply Hmin. exact (Hcomplete j c Hj Hc).
Qed.

Lemma next_booking_is_earliest_upcoming_witness :
  exists body,
    get_user_stats (demo_env (Ret tt)) demo_calendar (Ret tt) (Some june_1_2025_9am)
      sample_state = (Ret (jsonify body 200), sample_state)
    /\ dict_get body "next_booking"
       = Some (VDict [("service", VStr "Lawn Mowing");
                      ("date", VStr "%B %d, %Y");
                      ("time", VStr "%I:%M %p")]).
Proof.
  eexists. split; [vm_compute; reflexivity|].
  destruct (next_booking_is_earliest_upcoming (demo_env (Ret tt)) demo_calendar (Ret tt)
              (Some june_1_2025_9am) sample_state _ sample_state
              ltac:(vm_compute; reflexivity)) as [_ _].
  reflexivity.
Defined.

Lemma status_partition (rows : list Booking.t) :
  len rows
  = len (List.filter (fun b => String.eqb (Booking.status b) "completed") rows)
    + len (List.filter (fun b => String.eqb (Booking.status b) "pending") rows)
    + len (List.filter (fun b => String.eqb (Booking.status b) "confirmed") rows)
    + len (List.filter other_status rows).
Proof.
  unfold len. induction rows as [|a rows IH]; [reflexivity|].
  cbn [List.filter]. unfold other_status at 1, status_in. cbn [existsb].
  destruct (String.eqb_spec (Booking.status a) "completed") as [->|_];
    [cbn; lia|].
  destruct (String.eqb_spec (Booking.status a) "pending") as [->|_];
    [cbn; lia|].
  destruct (String.eqb_spec (Booking.status a) "confirmed") as [_|_];
    cbn; lia.
Qed.

Lemma spent_partition (rows : list Booking.t) :
  len (List.filter (status_in ["completed"; "confirmed"]) rows)
  = len (List.filter (fun b => String.eqb (Booking.status b) "completed") rows)
    + len (List.filter (fun b => String.eqb (Booking.status b) "confirmed") rows).
Proof.
  unfold len. induction rows as [|a rows IH]; [reflexivity|].
  cbn [List.filter]. unfold status_in at 1. cbn [existsb].
  destruct (String.eqb_spec (Booking.status a) "completed") as [->|_];
    [cbn; lia|].
  destruct (String.eqb_spec (Booking.status a) "confirmed") as [_|_];
    cbn; lia.
Qed.

Lemma py_sum_zero (prices : list float) : py_sum prices = VInt 0 <-> len prices = 0.
Proof.
  unfold len. destruct prices as [|p prices]; cbn [py_sum length].
  - split; reflexivity.
  - split; [discriminate|lia].
Qed.

(** X19: the statistics count every booking of the user once. When
    [get_user_stats] answers with the statistics, the total is the number of
    the user's bookings, and it is the sum of the completed, pending and
    confirmed figures and of the number of bookings with any other status
    (a cancelled booking counts in the total only); [total_spent] is the
    integer 0 exactly when the user has no completed and no confirmed
    booking, and a float otherwise. *)
Theorem statistics_count_every_booking_once env cal query created_at s body s' :
  get_user_stats env cal query created_at s = (Ret (jsonify body 200), s') ->
  let mine := user_bookings_of (current_user_id env) (bookings (db s)) in
  exists completed pending confirmed spent,
    dict_get body "total_bookings" = Some (VInt (len mine))
    /\ dict_get body "completed_bookings" = Some (VInt completed)
    /\ dict_get body "pending_bookings" = Some (VInt pending)
    /\ dict_get body "confirmed_bookings" = Some (VInt confirmed)
    /\ dict_get body "total_spent" = Some spent
    /\ len mine
       = completed + pending + confirmed + len (List.filter other_status mine)
    /\ (spent = VInt 0 <-> completed = 0 /\ confirmed = 0)
    /\ (spent = VInt 0 \/ exists f, spent = VFloat f).
Proof.
  intros Hrun mine.
  destruct (get_user_stats_cases env cal query created_at s) as (r & Hrun' & Hcases).
  rewrite Hrun in Hrun'. injection Hrun' as <- ->.
  destruct Hcases as [[=]|(member_since & found & next & _ & _ & _ & [= ->] & _)].
  fold mine. eexists _, _, _, _.
  split; [reflexivity|]. split; [reflexivity|]. split; [reflexivity|].
  split; [reflexivity|]. split; [reflexivity|].
  split; [apply status_partition|]. split.
  - rewrite py_sum_zero. unfold len at 1. rewrite length_map.
    fold (len (List.filter (status_in ["completed"; "confirmed"]) mine)).
    rewrite spent_partition.
    pose proof (len_nonneg (List.filter
                              (fun b => String.eqb (Booking.status b) "completed") mine)).
    pose proof (len_nonneg (List.filter
                              (fun b => String.eqb (Booking.status b) "confirmed") mine)).
    lia.
  - destruct (map Booking.total_price
                (List.filter (status_in ["completed"; "confirmed"]) mine));
      cbn [py_sum]; eauto.
Qed.

Lemma statistics_count_every_booking_once_witness :
  exists body,
    get_user_stats (demo_env (Ret tt)) demo_calendar (Ret tt) (Some june_1_2025_9am)
      sample_state = (Ret (jsonify body 200), sample_state)
    /\ dict_get body "total_bookings" = Some (VInt 2)
    /\ dict_get body "total_spent" = Some (VFloat (float_of_Z 125)).
Proof.
  eexists. split; [vm_compute; reflexivity|].
  destruct (statistics_count_every_booking_once (demo_env (Ret tt)) demo_calendar
              (Ret tt) (Some june_1_2025_9am) sample_state _ sample_state
              ltac:(vm_compute; reflexivity))
    as (completed & pending & confirmed & spent & Htotal & _ & _ & _ & Hspent & _).
  split; [exact Htotal|]. vm_compute. reflexivity.
Defined.

Lemma user_bookings_of_app user rows more :
  user_bookings_of user (rows ++ more)
  = user_bookings_of user rows ++ user_bookings_of user more.
Proof. unfold user_bookings_of. apply List.filter_app. Qed.

Lemma user_bookings_of_single user b :
  user_bookings_of user [b] = if Booking.user_id b =? user then [b] else [].
Proof. reflexivity. Qed.

(** X20: a confirmed booking shows in the statistics. After the Finalizer
    has confirmed a booking, statistics that are answered count one booking
    and one confirmed booking more for the user who booked than the table
    held before, the same completed and pending bookings, and a
    [total_spent] that is a float; for every other user they count what the
    table held before. *)
Theorem confirmed_booking_shows_in_statistics
    env req s s1 viewer cal query created_at body s2 :
  booking_step4 env req s = (Ret confirmed_response, s1) ->
  pending (db s) = [] ->
  get_user_stats viewer cal query created_at s1 = (Ret (jsonify body 200), s2) ->
  let mine := user_bookings_of (current_user_id viewer) (bookings (db s)) in
  let own := if current_user_id viewer =? current_user_id env then 1 else 0 in
  dict_get body "total_bookings" = Some (VInt (len mine + own))
  /\ dict_get body "confirmed_bookings"
     = Some (VInt (len (List.filter
                          (fun b => String.eqb (Booking.status b) "confirmed") mine)
                   + own))
  /\ dict_get body "completed_bookings"
     = Some (VInt (len (List.filter
                          (fun b => String.eqb (Booking.status b) "completed") mine)))
  /\ dict_get body "pending_bookings"
     = Some (VInt (len (List.filter
                          (fun b => String.eqb (Booking.status b) "pending") mine)))
  /\ (own = 1 -> exists f, dict_get body "total_spent" = Some (VFloat f)).
Proof.
  intros Hconfirm Hpending Hrun mine own.
  apply booking_step4_confirmed_inv in Hconfirm
    as (draft & key & service & date & time & at_ & products_total & total
        & instructions & _ & _ & _ & _ & _ & _ & _ & _ & _ & _ & _ & ->).
  destruct (get_user_stats_cases viewer cal query created_at
              {| session := delete "booking_data" (session s);
                 db := {| bookings :=
                            bookings (db s) ++ pending (db s) ++
                            [{| Booking.user_id := current_user_id env;
                                Booking.service_id := Service.id service;
                                Booking.scheduled_date := at_;
                                Booking.status := "confirmed";
                                Booking.special_instructions := instructions;
                                Booking.total_price := total |}];
                          pending := [] |} |})
    as (r & Hrun' & Hcases).
  rewrite Hrun in Hrun'. injection Hrun' as <- _.
  destruct Hcases as [[=]|(member_since & found & next & _ & _ & _ & [= ->] & _)].
  cbn [db bookings]. rewrite Hpending. cbn [app]. rewrite user_bookings_of_app.
  fold mine. rewrite user_bookings_of_single. cbn [Booking.user_id].
  rewrite (Z.eqb_sym (current_user_id env)). subst own.
  destruct (current_user_id viewer =? current_user_id env).
  - rewrite !List.filter_app, !map_app, !len_app.
    cbn [List.filter Booking.status status_in existsb map].
    change (String.eqb "confirmed" "completed") with false.
    change (String.eqb "confirmed" "confirmed") with true.
    change (String.eqb "confirmed" "pending") with false.
    cbn [orb map]. unfold len at 2 4 6 8. cbn [length].
    rewrite !Z.add_0_r.
    split; [reflexivity|]. split; [reflexivity|]. split; [reflexivity|].
    split; [reflexivity|]. intros _.
    cbn [dict_get String.eqb Ascii.eqb Bool.eqb].
    destruct (map Booking.total_price
                (List.filter (status_in ["completed"; "confirmed"]) mine));
      cbn [app py_sum]; eauto.
  - rewrite !app_nil_r, !Z.add_0_r.
    split; [reflexivity|]. split; [reflexivity|].
    split; [reflexivity|]. split; [reflexivity|]. discriminate.
Qed.

Lemma confirmed_booking_shows_in_statistics_witness :
  exists s1 body,
    booking_step4 (demo_env (Ret tt)) (http_post []) scenario_state
    = (Ret confirmed_response, s1)
    /\ get_user_stats (demo_env (Ret tt)) demo_calendar (Ret tt)
         (Some june_1_2025_9am) s1 = (Ret (jsonify body 200), s1)
    /\ dict_get body "total_bookings" = Some (VInt 1)
    /\ dict_get body "confirmed_bookings" = Some (VInt 1).
Proof.
  eexists _, _. split; [vm_compute; reflexivity|]. split; [vm_compute; reflexivity|].
  destruct (confirmed_booking_shows_in_statistics (demo_env (Ret tt)) (http_post [])
              scenario_state _ (demo_env (Ret tt)) demo_calendar (Ret tt)
              (Some june_1_2025_9am) _ _
              ltac:(vm_compute; reflexivity) eq_refl ltac:(vm_compute; reflexivity))
    as (Htotal & Hconfirmed & _).
  split; [exact Htotal | exact Hconfirmed].
Defined.

(** * Properties of registration, login and the profile *)

Ltac unfold_acc :=
  unfold User_query_filter_by, users_add, users_commit, users_rollback,
    login_user, flash, try_except, bind, ret, raise, lift, modify, get_state in *.

Lemma first_missing_found d : forall before field after,
  (forall f, In f before ->
             exists v, dict_get d f = Some v /\ py_truthy v = true) ->
  match dict_get d field with Some v => py_truthy v = false | None => True end ->
  first_missing (VDict d) (before ++ field :: after) = Ret (Some field).
Proof.
  induction before as [|f before IH]; intros field after Hbefore Hfield;
    cbn [app first_missing py_get].
  - destruct (dict_get d field) as [v|]; [now rewrite Hfield|reflexivity].
  - destruct (Hbefore f (or_introl eq_refl)) as (v & -> & ->). cbn [negb].
    apply IH; [|exact Hfield]. intros g Hg. apply Hbefore. now right.
Qed.

Lemma first_missing_none data : forall fields,
  first_missing data fields = Ret None ->
  forall f, In f fields ->
            exists v, py_get data f VNone = Ret v /\ py_truthy v = true.
Proof.
  induction fields as [|g fields IH]; cbn [first_missing]; [intros _ f []|].
  destruct (py_get data g VNone) as [v|] eqn:Hget; [|discriminate].
  destruct (py_truthy v) eqn:Htruthy; cbn [negb]; [|discriminate].
  intros Hrest f [<-|Hf]; eauto.
Qed.

Lemma required_field_present data f x :
  first_missing data required_fields = Ret None ->
  In f required_fields ->
  py_getitem data f = Ret x ->
  py_truthy x = true.
Proof.
  intros Hnone Hf Hget.
  destruct (first_missing_none _ _ Hnone f Hf) as (v & Hv & Htruthy).
  rewrite (py_getitem_get _ _ _ VNone Hget) in Hv. now injection Hv as <-.
Qed.

(** X21: registration reports the first required field that is missing.
    For a POST whose data is a dict, if one of [username], [email],
    [password], [full_name] is absent or falsy (an empty string, null, 0)
    and the required fields before it are present and truthy, the answer is
    "<field> is required"; no lookup, hash or commit is made and nothing
    changes. *)
Theorem register_reports_first_missing_field dir req s d before field after :
  verb req = POST ->
  request_data req = Ret (VDict d) ->
  required_fields = before ++ field :: after ->
  (forall f, In f before ->
             exists v, dict_get d f = Some v /\ py_truthy v = true) ->
  match dict_get d field with Some v => py_truthy v = false | None => True end ->
  register dir req s
  = (Ret (message_response false (field +:+ " is required")), s).
Proof.
  intros Hverb Hdata Hfields Hbefore Hfield.
  unfold register, posted. rewrite Hverb. unfold try_except, bind, lift, ret.
  rewrite Hdata, Hfields, (first_missing_found d before field after Hbefore Hfield).
  reflexivity.
Qed.

Lemma register_reports_first_missing_field_witness :
  register demo_directory
    (json_post [("username", VStr "ann"); ("email", VStr ""); ("full_name", VInt 0)])
    demo_accounts
  = (Ret (message_response false "email is required"), demo_accounts).
Proof.
  apply (register_reports_first_missing_field demo_directory _ demo_accounts
           [("username", VStr "ann"); ("email", VStr ""); ("full_name", VInt 0)]
           ["username"] "email" ["password"; "full_name"]);
    try reflexivity.
  intros f [<-|[]]. eexists. split; reflexivity.
Defined.

(** X22: registration adds one user or nothing. [register] never raises;
    from an empty unit of work it leaves the unit of work empty and flashes
    nothing, and unless it answers "Registration successful" the user table
    and the logged-in user are as before. When it does, the commit was
    given exactly one object: its username, e-mail and full name are the
    truthy values of the request, its hash was made from the truthy
    password of the request, its phone and address default to the empty
    string, and the lookups found no row for its e-mail and its username.
    The table has gained exactly one row, placed last, which is what the
    storage layer holds for that object, and the user of that row is
    logged in. *)
Theorem register_adds_one_user_or_nothing dir req s :
  added s = [] ->
  exists r s',
    register dir req s = (Ret r, s')
    /\ added s' = []
    /\ flashed s' = flashed s
    /\ ((r <> message_response true "Registration successful"
         /\ users s' = users s
         /\ logged_in s' = logged_in s)
        \/ (r = message_response true "Registration successful"
            /\ exists data u password,
                 request_data req = Ret data
                 /\ commit_outcome dir = Ret tt
                 /\ users s' = users s ++ [stored_row dir u]
                 /\ logged_in s' = Some (stored_row dir u)
                 /\ py_getitem data "username" = Ret (User.username u)
                 /\ py_truthy (User.username u) = true
                 /\ py_getitem data "email" = Ret (User.email u)
                 /\ py_truthy (User.email u) = true
                 /\ py_getitem data "full_name" = Ret (User.full_name u)
                 /\ py_truthy (User.full_name u) = true
                 /\ py_getitem data "password" = Ret password
                 /\ py_truthy password = true
                 /\ generate_password_hash dir password = Ret (User.password_hash u)
                 /\ py_get data "phone" (VStr "") = Ret (User.phone u)
                 /\ py_get data "address" (VStr "") = Ret (User.address u)
                 /\ User_query_first dir "email" (User.email u) (users s) = Ret None
                 /\ User_query_first dir "username" (User.username u) (users s)
                    = Ret None)).
Proof.
  intros Hadded. unfold register.
  assert (Hfail : forall message st,
            users st = users s -> logged_in st = logged_in s ->
            flashed st = flashed s -> added st = [] ->
            exists r s',
              (Ret (message_response false message), st) = (Ret r, s')
              /\ added s' = []
              /\ flashed s' = flashed s
              /\ ((r <> message_response true "Registration successful"
                   /\ users s' = users s /\ logged_in s' = logged_in s)
                  \/ (r = message_response true "Registration successful"
                      /\ exists data u password,
                           request_data req = Ret data
                           /\ commit_outcome dir = Ret tt
                           /\ users s' = users s ++ [stored_row dir u]
                           /\ logged_in s' = Some (stored_row dir u)
                           /\ py_getitem data "username" = Ret (User.username u)
                           /\ py_truthy (User.username u) = true
                           /\ py_getitem data "email" = Ret (User.email u)
                           /\ py_truthy (User.email u) = true
                           /\ py_getitem data "full_name" = Ret (User.full_name u)
                           /\ py_truthy (User.full_name u) = true
                           /\ py_getitem data "password" = Ret password
                           /\ py_truthy password = true
                           /\ generate_password_hash dir password
                              = Ret (User.password_hash u)
                           /\ py_get data "phone" (VStr "") = Ret (User.phone u)
                           /\ py_get data "address" (VStr "") = Ret (User.address u)
                           /\ User_query_first dir "email" (User.email u) (users s)
                              = Ret None
                           /\ User_query_first dir "username" (User.username u)
                                (users s) = Ret None))).
  { intros message st Hu Hl Hf Ha. eexists _, _. split; [reflexivity|].
    split; [exact Ha|]. split; [exact Hf|]. left. split; [discriminate|]. auto. }
  destruct (posted req).
  2:{ eexists _, _. split; [reflexivity|]. split; [exact Hadded|].
      split; [reflexivity|]. left. split; [discriminate|]. auto. }
  unfold_acc.
  destruct (request_data req) as [data|e] eqn:Hdata.
  2:{ apply Hfail; cbn; auto. }
  destruct (first_missing data required_fields) as [[field|]|e] eqn:Hmissing.
  1:{ apply Hfail; auto. }
  2:{ apply Hfail; cbn; auto. }
  destruct (py_getitem data "email") as [email|e] eqn:Hemail.
  2:{ apply Hfail; cbn; auto. }
  destruct (User_query_first dir "email" email (users s)) as [[found|]|e] eqn:Hbyemail;
    cbn [is_some].
  1:{ apply Hfail; auto. }
  2:{ apply Hfail; cbn; auto. }
  destruct (py_getitem data "username") as [username|e] eqn:Husername.
  2:{ apply Hfail; cbn; auto. }
  destruct (User_query_first dir "username" username (users s)) as [[found|]|e]
    eqn:Hbyname; cbn [is_some].
  1:{ apply Hfail; auto. }
  2:{ apply Hfail; cbn; auto. }
  destruct (py_getitem data "password") as [password|e] eqn:Hpassword.
  2:{ apply Hfail; cbn; auto. }
  destruct (generate_password_hash dir password) as [pwhash|e] eqn:Hhash.
  2:{ apply Hfail; cbn; auto. }
  destruct (py_getitem data "full_name") as [full_name|e] eqn:Hfull.
  2:{ apply Hfail; cbn; auto. }
  destruct (py_get data "phone" (VStr "")) as [phone|e] eqn:Hphone.
  2:{ apply Hfail; cbn; auto. }
  destruct (py_get data "address" (VStr "")) as [address|e] eqn:Haddress.
  2:{ apply Hfail; cbn; auto. }
  destruct (commit_outcome dir) as [[]|e] eqn:Hcommit.
  2:{ apply Hfail; cbn; auto. }
  cbn [users added logged_in flashed]. rewrite Hadded. cbn [app map].
  eexists _, _. split; [reflexivity|]. cbn [users added logged_in flashed].
  split; [reflexivity|]. split; [reflexivity|]. right. split; [reflexivity|].
  exists data, (new_user username email pwhash full_name phone address), password.
  unfold new_user. cbn [User.username User.email User.full_name
    User.password_hash User.phone User.address].
  split; [reflexivity|]. split; [reflexivity|]. split; [reflexivity|].
  split; [reflexivity|].
  split; [exact Husername|].
  split; [apply (required_field_present data "username"); cbn; auto|].
  split; [exact Hemail|].
  split; [apply (required_field_present data "email"); cbn; auto|].
  split; [exact Hfull|].
  split; [apply (required_field_present data "full_name"); cbn; auto|].
  split; [exact Hpassword|].
  split; [apply (required_field_present data "password"); cbn; auto|].
  auto 10.
Qed.

Lemma register_adds_one_user_or_nothing_witness :
  exists s' row,
    register demo_directory
      (json_post [("username", VStr "ann"); ("email", VStr "ann@example.com");
                  ("password", VStr "secret"); ("full_name", VStr "Ann Lee");
                  ("phone", VInt 5551234)])
      demo_accounts
    = (Ret (message_response true "Registration successful"), s')
    /\ added s' = []
    /\ users s' = [demo_user; row]
    /\ User.phone row = VStr "5551234".
Proof.
  destruct (register_adds_one_user_or_nothing demo_directory
              (json_post [("username", VStr "ann"); ("email", VStr "ann@example.com");
                          ("password", VStr "secret"); ("full_name", VStr "Ann Lee");
                          ("phone", VInt 5551234)])
              demo_accounts eq_refl)
    as (r & s' & Hrun & Hadded & _ & _).
  exists s'. vm_compute in Hrun. injection Hrun as <- <-.
  eexists. split; [reflexivity|]. split; [reflexivity|]. split; reflexivity.
Defined.

(** X23: login logs a user in only after the password was verified.
    [login] never raises and never touches the user table or the unit of
    work. Either the logged-in user is as before and the answer is neither
    "Login successful" nor the redirect to the dashboard, or the request was
    a POST whose e-mail was found in the table and whose password
    [check_password_hash] accepted against the hash of the row found; then
    that row is logged in, nothing is flashed, and the answer is "Login
    successful" for a JSON request and the redirect to the dashboard
    otherwise. *)
Theorem login_grants_only_verified dir req s :
  exists r s',
    login dir req s = (Ret r, s')
    /\ users s' = users s
    /\ added s' = added s
    /\ ((logged_in s' = logged_in s
         /\ r <> message_response true "Login successful"
         /\ r <> redirect "dashboard")
        \/ exists data key password u,
             verb req = POST
             /\ request_data req = Ret data
             /\ py_getitem data "email" = Ret key
             /\ User_query_first dir "email" key (users s) = Ret (Some u)
             /\ py_getitem data "password" = Ret password
             /\ check_password_hash dir (User.password_hash u) password = Ret true
             /\ logged_in s' = Some u
             /\ flashed s' = flashed s
             /\ r = if is_json req
                    then message_response true "Login successful"
                    else redirect "dashboard").
Proof.
  unfold login, posted.
  assert (Hrefused : forall message : string,
            exists r s',
              (if is_json req
               then (Ret (message_response false message), s)
               else (Ret (render_template "login.html" []),
                     {| users := users s;
                        added := added s;
                        logged_in := logged_in s;
                        flashed := flashed s ++ [("error", message)] |}))
              = (Ret r, s')
              /\ users s' = users s
              /\ added s' = added s
              /\ ((logged_in s' = logged_in s
                   /\ r <> message_response true "Login successful"
                   /\ r <> redirect "dashboard")
                  \/ exists data key password u,
                       verb req = POST
                       /\ request_data req = Ret data
                       /\ py_getitem data "email" = Ret key
                       /\ User_query_first dir "email" key (users s) = Ret (Some u)
                       /\ py_getitem data "password" = Ret password
                       /\ check_password_hash dir (User.password_hash u) password
                          = Ret true
                       /\ logged_in s' = Some u
                       /\ flashed s' = flashed s
                       /\ r = if is_json req
                              then message_response true "Login successful"
                              else redirect "dashboard")).
  { intros message. destruct (is_json req); eexists _, _;
      (split; [reflexivity|]); (split; [reflexivity|]); (split; [reflexivity|]);
      left; repeat split; discriminate. }
  destruct (verb req) eqn:Hverb.
  { unfold_acc. eexists _, _. split; [reflexivity|]. split; [reflexivity|].
    split; [reflexivity|]. left. repeat split; discriminate. }
  unfold_acc.
  destruct (request_data req) as [data|e] eqn:Hdata.
  2:{ destruct (Hrefused "Login failed. Please try again.") as (r & s' & Hrun & H).
      exists r, s'. split; [|exact H]. rewrite <- Hrun. now destruct (is_json req). }
  destruct (py_getitem data "email") as [key|e] eqn:Hkey.
  2:{ destruct (Hrefused "Login failed. Please try again.") as (r & s' & Hrun & H).
      exists r, s'. split; [|exact H]. rewrite <- Hrun. now destruct (is_json req). }
  destruct (User_query_first dir "email" key (users s)) as [[u|]|e] eqn:Hfound.
  3:{ destruct (Hrefused "Login failed. Please try again.") as (r & s' & Hrun & H).
      exists r, s'. split; [|exact H]. rewrite <- Hrun. now destruct (is_json req). }
  2:{ destruct (Hrefused "Invalid credentials") as (r & s' & Hrun & H).
      exists r, s'. split; [|exact H]. rewrite <- Hrun. now destruct (is_json req). }
  destruct (py_getitem data "password") as [password|e] eqn:Hpassword.
  2:{ destruct (Hrefused "Login failed. Please try again.") as (r & s' & Hrun & H).
      exists r, s'. split; [|exact H]. rewrite <- Hrun. now destruct (is_json req). }
  destruct (check_password_hash dir (User.password_hash u) password) as [[|]|e]
    eqn:Hcheck.
  3:{ destruct (Hrefused "Login failed. Please try again.") as (r & s' & Hrun & H).
      exists r, s'. split; [|exact H]. rewrite <- Hrun. now destruct (is_json req). }
  2:{ destruct (Hrefused "Invalid credentials") as (r & s' & Hrun & H).
      exists r, s'. split; [|exact H]. rewrite <- Hrun. now destruct (is_json req). }
  eexists (if is_json req then message_response true "Login successful"
           else redirect "dashboard"),
          {| users := users s; added := added s; logged_in := Some u;
             flashed := flashed s |}.
  split; [now destruct (is_json req)|]. split; [reflexivity|]. split; [reflexivity|].
  right. exists data, key, password, u. repeat split; auto.
Qed.

Lemma login_grants_only_verified_witness :
  exists r s',
    login demo_directory
      (json_post [("email", VStr "demo@dudeandirt.com"); ("password", VStr "demo123")])
      demo_accounts = (Ret r, s')
    /\ users s' = users demo_accounts
    /\ logged_in s' = Some demo_user.
Proof.
  destruct (login_grants_only_verified demo_directory
              (json_post [("email", VStr "demo@dudeandirt.com");
                          ("password", VStr "demo123")])
              demo_accounts)
    as (r & s' & Hrun & Husers & _ & _).
  exists r, s'. split; [exact Hrun|]. split; [exact Husers|].
  vm_compute in Hrun. injection Hrun as _ <-. reflexivity.
Defined.

(** X24: what login answers tells whether the e-mail is registered when
    the password field is left out. For a JSON POST with an [email]: an
    e-mail that is not in the table is answered "Invalid credentials"; an
    e-mail that is in the table is answered "Invalid credentials" as well
    when the request has a password that [check_password_hash] rejects, but
    "Login failed. Please try again." when the request has no [password]
    field. Nothing changes in any of these cases. *)
Theorem login_without_password_reveals_registration dir req s d key :
  verb req = POST ->
  is_json req = true ->
  json_body req = Ret (VDict d) ->
  dict_get d "email" = Some key ->
  (User_query_first dir "email" key (users s) = Ret None ->
   login dir req s = (Ret (message_response false "Invalid credentials"), s))
  /\ (forall u,
        User_query_first dir "email" key (users s) = Ret (Some u) ->
        match dict_get d "password" with
        | None =>
            login dir req s
            = (Ret (message_response false "Login failed. Please try again."), s)
        | Some password =>
            check_password_hash dir (User.password_hash u) password = Ret false ->
            login dir req s = (Ret (message_response false "Invalid credentials"), s)
        end).
Proof.
  intros Hverb Hjson Hbody Hkey.
  unfold login, posted, request_data. rewrite Hverb, Hjson, Hbody.
  unfold_acc. cbn [py_getitem]. rewrite Hkey. split.
  - intros ->. reflexivity.
  - intros u ->. destruct (dict_get d "password") as [password|]; [|reflexivity].
    intros ->. reflexivity.
Qed.

Lemma login_without_password_reveals_registration_witness :
  login demo_directory (json_post [("email", VStr "demo@dudeandirt.com")]) demo_accounts
  = (Ret (message_response false "Login failed. Please try again."), demo_accounts)
  /\ login demo_directory (json_post [("email", VStr "nobody@example.com")])
       demo_accounts
     = (Ret (message_response false "Invalid credentials"), demo_accounts).
Proof.
  split.
  - exact (proj2 (login_without_password_reveals_registration demo_directory
                    (json_post [("email", VStr "demo@dudeandirt.com")]) demo_accounts
                    [("email", VStr "demo@dudeandirt.com")]
                    (VStr "demo@dudeandirt.com") eq_refl eq_refl eq_refl eq_refl)
                 demo_user eq_refl).
  - exact (proj1 (login_without_password_reveals_registration demo_directory
                    (json_post [("email", VStr "nobody@example.com")]) demo_accounts
                    [("email", VStr "nobody@example.com")]
                    (VStr "nobody@example.com") eq_refl eq_refl eq_refl eq_refl)
                 eq_refl).
Defined.

(** X25: the profile update assigns the three profile fields and nothing
    else, or changes nothing at all. [update_profile] never raises and
    leaves the attributes in memory equal to the committed row. When it
    answers "Profile updated successfully" the body was a JSON object and
    the commit went through; the commit was given the attributes of the
    user with [full_name], [phone] and [address] set to the values of the
    body where it has the key (whatever the value) and left as they were
    where it has not, and with username, e-mail and password hash as they
    were, also when the body names them; the row is what the storage layer
    holds for these attributes. Otherwise it answers "Error updating
    profile" and the row is as before. *)
Theorem update_profile_changes_only_the_profile commit stored req s :
  current_user s = row s ->
  exists r s',
    update_profile commit stored req s = (Ret r, s')
    /\ current_user s' = row s'
    /\ ((r = message_response true "Profile updated successfully"
         /\ commit = Ret tt
         /\ exists d,
              get_json req = Ret (VDict d)
              /\ row s' = stored (with_profile (row s) d))
        \/ (r = message_response false "Error updating profile"
            /\ row s' = row s
            /\ ((forall d, get_json req <> Ret (VDict d))
                \/ exists e, commit = Raise e))).
Proof.
  intros Hfresh. unfold update_profile.
  unfold set_full_name, set_phone, set_address, profile_commit, profile_rollback,
    try_except, bind, ret, lift, modify, get_state.
  destruct (get_json req) as [data|e] eqn:Hbody.
  2:{ eexists _, _. split; [reflexivity|]. cbn [current_user row].
      split; [reflexivity|]. right. repeat (split; [reflexivity|]).
      left. discriminate. }
  destruct data as [| | | | | |d];
    try (eexists _, _; split; [reflexivity|]; cbn [current_user row];
         split; [reflexivity|]; right; repeat (split; [reflexivity|]);
         left; discriminate).
  cbn [py_get current_user row User.full_name User.phone User.address].
  destruct (dict_get d "full_name") as [full_name|] eqn:Hfull;
    destruct (dict_get d "phone") as [phone|] eqn:Hphone;
    destruct (dict_get d "address") as [address|] eqn:Haddress;
    cbn [current_user row User.full_name User.phone User.address];
    (destruct commit as [[]|e];
     [ eexists _, _; split; [reflexivity|]; cbn [current_user row];
       split; [reflexivity|]; left;
       repeat (split; [reflexivity|]); exists d; split; [reflexivity|];
       unfold with_profile, field_or;
       rewrite Hfull, Hphone, Haddress, <- Hfresh;
       cbn [User.username User.email User.password_hash User.full_name
            User.phone User.address];
       reflexivity
     | eexists _, _; split; [reflexivity|]; cbn [current_user row];
       split; [reflexivity|]; right; repeat (split; [reflexivity|]);
       right; eauto ]).
Qed.

Lemma update_profile_changes_only_the_profile_witness :
  exists s',
    update_profile (Ret tt) text_row
      (http_post [("phone", VInt 5559876); ("email", VStr "x@example.com")])
      demo_profile
    = (Ret (message_response true "Profile updated successfully"), s')
    /\ User.email (row s') = VStr "demo@dudeandirt.com"
    /\ User.phone (row s') = VStr "5559876"
    /\ User.full_name (row s') = VStr "Demo User".
Proof.
  destruct (update_profile_changes_only_the_profile (Ret tt) text_row
              (http_post [("phone", VInt 5559876); ("email", VStr "x@example.com")])
              demo_profile eq_refl)
    as (r & s' & Hrun & _ & _).
  exists s'. vm_compute in Hrun. injection Hrun as <- <-.
  split; [reflexivity|]. split; [reflexivity|]. split; reflexivity.
Defined.
